(** * MRF24WG RAW (Random Access Window) controller: [wf_raw.c]

    A shallow embedding of [sys/mips/dev/mrf24g/wf_raw.c] and the properties
    of its window controller.

    The driver talks to the radio through a handful of transport primitives
    (register reads and writes, a timer, a delay, the interrupt switch) that
    live outside this file.  The embedding makes them explicit:

    - every value the driver obtains from the outside (a register read, a
      timer read, an elapsed-time query, an array read) is taken from an
      oracle tape [inputs] carried by the world, so a theorem quantified
      over worlds covers every behaviour of the chip and of the clock;
    - every call of a primitive is appended to the [trace] of the world, in
      program order, with its arguments and its result;
    - the two file-scope variables of the driver, [RawWindowState] and
      [g_RawIndexPastEnd], and the external-interrupt switch are fields of
      the world.

    Integers are [Z]; the narrowing a C assignment performs is written out
    with [u8], [u16] and [u32]. *)

From Stdlib Require Import ZArith List String Bool Lia.
From stdpp Require Import base list.

Import ListNotations.
Local Open Scope string_scope.
Local Open Scope list_scope.
Local Open Scope Z_scope.

(** ** Fixed-width integers *)

Definition u8 (x : Z) : Z := x mod 2 ^ 8.
Definition u16 (x : Z) : Z := x mod 2 ^ 16.
Definition u32 (x : Z) : Z := x mod 2 ^ 32.

(** ** Register identifiers

    The register numbers come from the driver's register header.  Only their
    identity matters to this file: they are passed on to the transport
    primitives unchanged, so they are kept symbolic. *)

Inductive reg : Set :=
| MRF24_REG_INTR | MRF24_REG_INTR2
| MRF24_REG_WFIFO_BCNT0 | MRF24_REG_WFIFO_BCNT1
| MRF24_REG_RAW0_INDEX | MRF24_REG_RAW1_INDEX | MRF24_REG_RAW2_INDEX
| MRF24_REG_RAW3_INDEX | MRF24_REG_RAW4_INDEX | MRF24_REG_RAW5_INDEX
| MRF24_REG_RAW0_STATUS | MRF24_REG_RAW1_STATUS | MRF24_REG_RAW2_STATUS
| MRF24_REG_RAW3_STATUS | MRF24_REG_RAW4_STATUS | MRF24_REG_RAW5_STATUS
| MRF24_REG_RAW0_CTRL0 | MRF24_REG_RAW1_CTRL0 | MRF24_REG_RAW2_CTRL0
| MRF24_REG_RAW3_CTRL0 | MRF24_REG_RAW4_CTRL0 | MRF24_REG_RAW5_CTRL0
| MRF24_REG_RAW0_CTRL1 | MRF24_REG_RAW1_CTRL1 | MRF24_REG_RAW2_CTRL1
| MRF24_REG_RAW3_CTRL1 | MRF24_REG_RAW4_CTRL1 | MRF24_REG_RAW5_CTRL1
| MRF24_REG_RAW0_DATA | MRF24_REG_RAW1_DATA | MRF24_REG_RAW2_DATA
| MRF24_REG_RAW3_DATA | MRF24_REG_RAW4_DATA | MRF24_REG_RAW5_DATA.

(** ** Constants of the driver headers

    [wf_universal_driver.h] and [wf_global_includes.h] are not part of the
    sources at hand.  The interrupt bits, the FIFO counter mask, the pool
    selectors and the two mount-state codes they define are parameters of
    the development: every theorem holds whatever their values are, unless
    it says otherwise. *)

Class wf_universal_driver : Set := {
  INTR_RAW0 : Z;
  INTR_RAW1 : Z;
  INTR_INT2 : Z;
  INTR2_RAW2 : Z;
  INTR2_RAW3 : Z;
  INTR2_RAW4 : Z;
  INTR2_RAW5 : Z;
  FIFO_BCNT_MASK : Z;
  RAW_MAC : Z;
  RAW_MGMT_POOL : Z;
  RAW_DATA_POOL : Z;
  RAW_SCRATCH_POOL : Z;
  WF_RAW_UNMOUNTED : Z;
  WF_RAW_DATA_MOUNTED : Z
}.

(** Modelled from the spec: the number of RAW windows and the window
    identifiers, which [wf_universal_driver.h] defines.  The spec fixes six
    windows with identifiers 0..5, windows 0 and 1 being the data windows;
    the source agrees: every table has six initialisers, [RawWindowState]
    is commented "[0] is RAW Rx window, [1] is RAW Tx window", and [RawMove]
    names "Raw 0 or 1 (data rx or data tx)" and "mgmt rx, mgmt tx, or
    scratch" for "Raw 2,3, and 4". *)
Definition NUM_RAW_WINDOWS : Z := 6.
Definition RAW_DATA_RX_ID : Z := 0.
Definition RAW_DATA_TX_ID : Z := 1.
Definition RAW_MGMT_RX_ID : Z := 2.
Definition RAW_MGMT_TX_ID : Z := 3.
Definition RAW_SCRATCH_ID : Z := 4.

Definition WF_RAW_STATUS_REG_BUSY_MASK : Z := 0x0001.

(** ** Events and the world *)

Inductive event : Type :=
| EvRead (r : reg) (v : Z)                        (* mrf_read(r) gave v *)
| EvWrite (r : reg) (v : Z)                       (* mrf_write(r, v) *)
| EvReadByte (r : reg) (v : Z)                    (* mrf_read_byte(r) gave v *)
| EvWriteByte (r : reg) (v : Z)                   (* mrf_write_byte(r, v) *)
| EvWriteArray (r : reg) (buf : list Z) (len : Z) (* mrf_write_array(r, buf, len) *)
| EvReadArray (r : reg) (len : Z) (data : list Z) (* mrf_read_array(r, _, len) gave data *)
| EvTimerRead (t : Z)                             (* mrf_timer_read() gave t *)
| EvTimerElapsed (start : Z) (dt : Z)             (* mrf_timer_elapsed(start) gave dt *)
| EvDelay (usec : Z)                              (* udelay(usec) *)
| EvIntrDisable (was : bool)                      (* mrf_intr_disable() gave was *)
| EvIntrEnable                                    (* mrf_intr_enable() *)
| EvPrintf (func : string) (fmt : string) (args : list Z).

Record world : Type := mkWorld {
  inputs : list Z;
  trace : list event;
  intr_enabled : bool;
  RawWindowState : list Z;
  g_RawIndexPastEnd : Z
}.

(** The state the C program starts in: both file-scope variables are
    zero-initialised ([RawWindowState] has two cells). *)
Definition boot (tape : list Z) (ie : bool) : world :=
  mkWorld tape [] ie [0; 0] 0.

(** ** The state-and-fault monad

    [Starved] says the oracle tape ran out: the environment was not
    described far enough for the run to continue.  [OutOfBounds] is an
    array access outside its bounds, which C leaves undefined. *)

Inductive fault : Set := Starved | OutOfBounds.

Inductive outcome (A : Type) : Type :=
| Done (a : A) (w : world)
| Fault (f : fault).
Arguments Done {A} a w.
Arguments Fault {A} f.

Definition M (A : Type) : Type := world -> outcome A.

Definition ret {A} (a : A) : M A := fun w => Done a w.

Definition bind {A B} (m : M A) (k : A -> M B) : M B :=
  fun w => match m w with
           | Done a w' => k a w'
           | Fault f => Fault f
           end.

Declare Scope raw_scope.
Delimit Scope raw_scope with raw.
Notation "x <- m ;; k" := (bind m (fun x => k))
  (at level 100, m at level 99, right associativity) : raw_scope.
Notation "m ;; k" := (bind m (fun _ => k))
  (at level 100, right associativity) : raw_scope.
Local Open Scope raw_scope.

Definition fail {A} (f : fault) : M A := fun _ => Fault f.

Definition emit (e : event) : M unit :=
  fun w => Done tt (mkWorld (inputs w) (trace w ++ [e]) (intr_enabled w)
                            (RawWindowState w) (g_RawIndexPastEnd w)).

Definition next_input : M Z :=
  fun w => match inputs w with
           | [] => Fault Starved
           | v :: rest =>
               Done v (mkWorld rest (trace w) (intr_enabled w)
                               (RawWindowState w) (g_RawIndexPastEnd w))
           end.

Definition take_inputs (n : nat) : M (list Z) :=
  fun w => if (n <=? length (inputs w))%nat
           then Done (firstn n (inputs w))
                     (mkWorld (skipn n (inputs w)) (trace w) (intr_enabled w)
                              (RawWindowState w) (g_RawIndexPastEnd w))
           else Fault Starved.

Definition gets {X} (f : world -> X) : M X := fun w => Done (f w) w.

Definition inputs_left : M nat := gets (fun w => length (inputs w)).

(** Table lookup [tbl[i]]: an index outside the table is a fault. *)
Definition at_index {A} (tbl : list A) (i : Z) : M A :=
  if (0 <=? i) then
    match tbl !! Z.to_nat i with
    | Some a => ret a
    | None => fail OutOfBounds
    end
  else fail OutOfBounds.

(** ** Transport primitives

    The register transport, the timer, the delay, [printf] and the
    interrupt switch are external collaborators of [wf_raw.c]; their code
    is not part of the sources at hand.  A primitive that returns a value
    takes it from the tape, and each call is recorded in the trace. *)

(** Modelled from the spec: [mrf_read], the word register read of the
    register transport ("byte/word register read and write ... addressed
    by register identifier"). *)
Definition mrf_read (r : reg) : M Z :=
  v <- next_input ;; emit (EvRead r v) ;; ret v.

(** Modelled from the spec: [mrf_write], the word register write. *)
Definition mrf_write (r : reg) (v : Z) : M unit := emit (EvWrite r v).

(** Modelled from the spec: [mrf_read_byte], the byte register read. *)
Definition mrf_read_byte (r : reg) : M Z :=
  v <- next_input ;; emit (EvReadByte r v) ;; ret v.

(** Modelled from the spec: [mrf_write_byte], the byte register write. *)
Definition mrf_write_byte (r : reg) (v : Z) : M unit := emit (EvWriteByte r v).

(** Modelled from the spec: [mrf_write_array], the buffered array write,
    "assumed atomic per call": one call, one event. *)
Definition mrf_write_array (r : reg) (buf : list Z) (len : Z) : M unit :=
  emit (EvWriteArray r buf len).

(** Modelled from the spec: [mrf_read_array], the buffered array read; it
    hands back [len] bytes. *)
Definition mrf_read_array (r : reg) (len : Z) : M (list Z) :=
  data <- take_inputs (Z.to_nat len) ;; emit (EvReadArray r len data) ;; ret data.

(** Modelled from the spec: [mrf_timer_read], "a monotonic timer read". *)
Definition mrf_timer_read : M Z :=
  t <- next_input ;; emit (EvTimerRead t) ;; ret t.

(** Modelled from the spec: [mrf_timer_elapsed], the "elapsed-time
    computation"; what it answers is the clock's business, so it comes
    from the tape. *)
Definition mrf_timer_elapsed (start : Z) : M Z :=
  dt <- next_input ;; emit (EvTimerElapsed start dt) ;; ret dt.

(** Modelled from the spec: [udelay], the "microsecond-scale busy-delay". *)
Definition udelay (usec : Z) : M unit := emit (EvDelay usec).

(** Modelled from the spec: [printf], the diagnostic channel; [func] is
    what [__func__] stands for at the call. *)
Definition printf (func fmt : string) (args : list Z) : M unit :=
  emit (EvPrintf func fmt args).

Definition set_intr (b : bool) : M unit :=
  fun w => Done tt (mkWorld (inputs w) (trace w) b
                            (RawWindowState w) (g_RawIndexPastEnd w)).

(** Modelled from the spec: [mrf_intr_disable], of the "interrupt
    enable/disable (returns/accepts prior enabled state)" pair: it masks
    the external interrupt and returns whether it was enabled. *)
Definition mrf_intr_disable : M bool :=
  was <- gets intr_enabled ;;
  emit (EvIntrDisable was) ;; set_intr false ;; ret was.

(** Modelled from the spec: [mrf_intr_enable], which unmasks the external
    interrupt. *)
Definition mrf_intr_enable : M unit := emit EvIntrEnable ;; set_intr true.

(** ** The driver: [wf_raw.c] *)

Section Driver.
Context {H : wf_universal_driver}.

(** *** Register tables (lines 23-75) *)

Definition g_RawIndexReg : list reg :=
  [MRF24_REG_RAW0_INDEX; MRF24_REG_RAW1_INDEX; MRF24_REG_RAW2_INDEX;
   MRF24_REG_RAW3_INDEX; MRF24_REG_RAW4_INDEX; MRF24_REG_RAW5_INDEX].

Definition g_RawStatusReg : list reg :=
  [MRF24_REG_RAW0_STATUS; MRF24_REG_RAW1_STATUS; MRF24_REG_RAW2_STATUS;
   MRF24_REG_RAW3_STATUS; MRF24_REG_RAW4_STATUS; MRF24_REG_RAW5_STATUS].

Definition g_RawCtrl0Reg : list reg :=
  [MRF24_REG_RAW0_CTRL0; MRF24_REG_RAW1_CTRL0; MRF24_REG_RAW2_CTRL0;
   MRF24_REG_RAW3_CTRL0; MRF24_REG_RAW4_CTRL0; MRF24_REG_RAW5_CTRL0].

Definition g_RawCtrl1Reg : list reg :=
  [MRF24_REG_RAW0_CTRL1; MRF24_REG_RAW1_CTRL1; MRF24_REG_RAW2_CTRL1;
   MRF24_REG_RAW3_CTRL1; MRF24_REG_RAW4_CTRL1; MRF24_REG_RAW5_CTRL1].

Definition g_RawDataReg : list reg :=
  [MRF24_REG_RAW0_DATA; MRF24_REG_RAW1_DATA; MRF24_REG_RAW2_DATA;
   MRF24_REG_RAW3_DATA; MRF24_REG_RAW4_DATA; MRF24_REG_RAW5_DATA].

(** The table has [u_int16_t] cells. *)
Definition g_RawIntMask : list Z :=
  [u16 INTR_RAW0; u16 INTR_RAW1; u16 INTR2_RAW2;
   u16 INTR2_RAW3; u16 INTR2_RAW4; u16 INTR2_RAW5].

(** *** The out-of-bounds flags (lines 16-18 and 80-83) *)

Definition g_RawAccessOutOfBoundsMask : list Z :=
  [0x01; 0x02; 0x04; 0x08; 0x10; 0x20].

Definition set_g_RawIndexPastEnd (v : Z) : M unit :=
  fun w => Done tt (mkWorld (inputs w) (trace w) (intr_enabled w)
                            (RawWindowState w) v).

(** [g_RawIndexPastEnd |= g_RawAccessOutOfBoundsMask[rawId]] *)
Definition SetIndexOutOfBoundsFlag (rawId : Z) : M unit :=
  m <- at_index g_RawAccessOutOfBoundsMask rawId ;;
  g <- gets g_RawIndexPastEnd ;;
  set_g_RawIndexPastEnd (u8 (Z.lor g m)).

(** [g_RawIndexPastEnd &= ~g_RawAccessOutOfBoundsMask[rawId]] *)
Definition ClearIndexOutOfBoundsFlag (rawId : Z) : M unit :=
  m <- at_index g_RawAccessOutOfBoundsMask rawId ;;
  g <- gets g_RawIndexPastEnd ;;
  set_g_RawIndexPastEnd (u8 (Z.land g (Z.lnot m))).

(** [(g_RawIndexPastEnd & g_RawAccessOutOfBoundsMask[rawId]) > 0] *)
Definition isIndexOutOfBounds (rawId : Z) : M bool :=
  m <- at_index g_RawAccessOutOfBoundsMask rawId ;;
  g <- gets g_RawIndexPastEnd ;;
  ret (Z.land g m >? 0).

(** *** The mount state of the data windows (lines 78 and 550-558) *)

Definition SetRawDataWindowState (rawId state : Z) : M unit :=
  fun w =>
    if (0 <=? rawId) && (Z.to_nat rawId <? length (RawWindowState w))%nat
    then Done tt (mkWorld (inputs w) (trace w) (intr_enabled w)
                          (<[Z.to_nat rawId := u8 state]> (RawWindowState w))
                          (g_RawIndexPastEnd w))
    else Fault OutOfBounds.

Definition GetRawDataWindowState (rawId : Z) : M Z :=
  fun w => at_index (RawWindowState w) rawId w.

(** *** [WaitForRawMoveComplete] (lines 89-130)

    [WaitForRawMoveComplete_loop] is the [for (;;)] loop.  Each turn reads
    the tape at least once, so the number of values left on the tape bounds
    the number of turns and is the fuel the loop is started with. *)

Fixpoint WaitForRawMoveComplete_loop (fuel : nat) (intMask start_time : Z)
  : M unit :=
  match fuel with
  | O => fail Starved
  | S fuel' =>
      v <- mrf_read_byte MRF24_REG_INTR ;;
      let intr := u32 v in
      if negb (Z.land intr intMask =? 0) then
        (if intMask =? u32 INTR_INT2
         then mrf_write MRF24_REG_INTR2
                (Z.lor (Z.lor (Z.lor INTR2_RAW2 INTR2_RAW3) INTR2_RAW4) INTR2_RAW5)
         else ret tt) ;;
        mrf_write_byte MRF24_REG_INTR intMask
      else
        dt <- mrf_timer_elapsed start_time ;;
        if dt >? 20 then
          printf "WaitForRawMoveComplete"
                 "--- %s: timeout waiting for interrupt\n" []
        else
          udelay 10 ;;
          WaitForRawMoveComplete_loop fuel' intMask start_time
  end.

(** The mask of lines 95-101. *)
Definition WaitForRawMoveComplete_intMask (rawId : Z) : Z :=
  if rawId <=? 1
  then (if rawId =? 0 then u32 INTR_RAW0 else u32 INTR_RAW1)
  else u32 INTR_INT2.

Definition WaitForRawMoveComplete (rawId : Z) : M Z :=
  let intMask := WaitForRawMoveComplete_intMask rawId in
  t <- mrf_timer_read ;;
  let start_time := u32 t in
  fuel <- inputs_left ;;
  WaitForRawMoveComplete_loop fuel intMask start_time ;;
  regId <- at_index g_RawCtrl1Reg rawId ;;
  v <- mrf_read regId ;;
  let nbytes := u32 v in
  ret nbytes.

(** *** [RawMove] (lines 486-547) *)

(** The control value, lines 494-508. *)
Definition RawMove_ctrlVal (srcDest : Z) (rawIsDestination : bool) (size : Z) : Z :=
  let ctrlVal := 0 in
  let ctrlVal := if rawIsDestination then u16 (Z.lor ctrlVal 0x8000) else ctrlVal in
  let ctrlVal := u16 (Z.lor ctrlVal (Z.shiftl srcDest 8)) in
  let ctrlVal := u16 (Z.lor ctrlVal (Z.shiftl (Z.land (Z.shiftr size 8) 0x0f) 8)) in
  let ctrlVal := u16 (Z.lor ctrlVal (Z.land size 0x00ff)) in
  ctrlVal.

Definition RawMove (rawId srcDest : Z) (rawIsDestination : bool) (size : Z) : M Z :=
  intEnabled <- mrf_intr_disable ;;
  let ctrlVal := RawMove_ctrlVal srcDest rawIsDestination size in
  (if rawId <=? 1 then
     m <- at_index g_RawIntMask rawId ;;
     let regValue := u8 m in
     mrf_write_byte MRF24_REG_INTR regValue
   else
     m <- at_index g_RawIntMask rawId ;;
     let regValue := u8 m in
     mrf_write MRF24_REG_INTR2 regValue) ;;
  regId <- at_index g_RawCtrl0Reg rawId ;;
  mrf_write regId ctrlVal ;;
  mrf_intr_enable ;;
  n <- WaitForRawMoveComplete rawId ;;
  let nbytes := u16 n in
  (if negb intEnabled then _ <- mrf_intr_disable ;; ret tt else ret tt) ;;
  ret nbytes.

(** *** Scratch and initialisation (lines 135-182) *)

Definition ScratchMount (rawId : Z) : M Z :=
  nbytes <- RawMove rawId RAW_SCRATCH_POOL true 0 ;;
  ret nbytes.

Definition ScratchUnmount (rawId : Z) : M unit :=
  _ <- RawMove rawId RAW_SCRATCH_POOL false 0 ;; ret tt.

Definition RawInit : M unit :=
  ScratchUnmount 1 ;;
  _ <- ScratchMount RAW_SCRATCH_ID ;;
  SetRawDataWindowState RAW_DATA_TX_ID WF_RAW_UNMOUNTED ;;
  SetRawDataWindowState RAW_DATA_RX_ID WF_RAW_UNMOUNTED.

(** *** Management buffers (lines 194-232) *)

Definition AllocateMgmtTxBuffer (bytesNeeded : Z) : M bool :=
  v <- mrf_read MRF24_REG_WFIFO_BCNT1 ;;
  let bufAvail := u16 (Z.land v FIFO_BCNT_MASK) in
  if bufAvail >=? bytesNeeded then
    nbytes <- RawMove RAW_MGMT_TX_ID RAW_MGMT_POOL true bytesNeeded ;;
    if nbytes =? 0 then ret false
    else
      ClearIndexOutOfBoundsFlag RAW_MGMT_TX_ID ;;
      ret true
  else
    (if bufAvail >? 0
     then _ <- RawMove RAW_MGMT_RX_ID RAW_MGMT_POOL false 0 ;; ret tt
     else ret tt) ;;
    ret false.

Definition DeallocateMgmtRxBuffer : M unit :=
  _ <- RawMove RAW_MGMT_RX_ID RAW_MGMT_POOL false 0 ;; ret tt.

(** *** Byte transfer (lines 241-276)

    [p_buffer] is the caller's buffer; [RawGetByte] returns the bytes the
    transport stored into [pBuffer]. *)

Definition RawSetByte (rawId : Z) (p_buffer : list Z) (length : Z) : M unit :=
  oob <- isIndexOutOfBounds rawId ;;
  (if oob then printf "RawSetByte" "--- %s: index out of bounds\n" []
   else ret tt) ;;
  regId <- at_index g_RawDataReg rawId ;;
  mrf_write_array regId p_buffer length.

Definition RawGetByte (rawId : Z) (length : Z) : M (list Z) :=
  oob <- isIndexOutOfBounds rawId ;;
  (if oob then printf "RawGetByte" "--- %s: index out of bounds\n" []
   else ret tt) ;;
  regId <- at_index g_RawDataReg rawId ;;
  mrf_read_array regId length.

(** *** Frames (lines 287-320) *)

Definition SendRAWManagementFrame (bufLen : Z) : M unit :=
  _ <- RawMove RAW_MGMT_TX_ID RAW_MAC false bufLen ;; ret tt.

Definition RawMountRxBuffer (rawId : Z) : M Z :=
  length <- RawMove rawId RAW_MAC true 0 ;;
  (if length =? 0 then printf "RawMountRxBuffer" "--- %s: failed\n" []
   else ret tt) ;;
  (if rawId =? RAW_DATA_RX_ID
   then SetRawDataWindowState RAW_DATA_RX_ID WF_RAW_DATA_MOUNTED
   else ret tt) ;;
  ret length.

(** *** [RawSetIndex] (lines 370-407)

    [RawSetIndex_loop] is the [while (1)] loop, with the tape length as
    fuel, as for [WaitForRawMoveComplete_loop]. *)

Fixpoint RawSetIndex_loop (fuel : nat) (rawId index : Z) (regId : reg)
    (start_time : Z) : M unit :=
  match fuel with
  | O => fail Starved
  | S fuel' =>
      v <- mrf_read regId ;;
      let regValue := u16 v in
      if Z.land regValue WF_RAW_STATUS_REG_BUSY_MASK =? 0 then
        ClearIndexOutOfBoundsFlag rawId
      else
        dt <- mrf_timer_elapsed start_time ;;
        if dt >? 5 then
          SetIndexOutOfBoundsFlag rawId ;;
          printf "RawSetIndex" "--- %s: bad index=%u out of bounds\n" [index]
        else
          udelay 10 ;;
          RawSetIndex_loop fuel' rawId index regId start_time
  end.

Definition RawSetIndex (rawId idx : Z) : M unit :=
  regId <- at_index g_RawIndexReg rawId ;;
  mrf_write regId idx ;;
  regId <- at_index g_RawStatusReg rawId ;;
  t <- mrf_timer_read ;;
  let start_time := u32 t in
  fuel <- inputs_left ;;
  RawSetIndex_loop fuel rawId idx regId start_time.

(** *** Indexed read and write (lines 333-356) *)

Definition RawRead (rawId startIndex length : Z) : M (list Z) :=
  RawSetIndex rawId startIndex ;;
  RawGetByte rawId length.

Definition RawWrite (rawId startIndex length : Z) (p_src : list Z) : M unit :=
  RawSetIndex rawId startIndex ;;
  RawSetByte rawId p_src length.

(** *** Data buffers (lines 419-459) *)

Definition AllocateDataTxBuffer (bytesNeeded : Z) : M bool :=
  v <- mrf_read MRF24_REG_WFIFO_BCNT0 ;;
  let bufAvail := u16 (Z.land v FIFO_BCNT_MASK) in
  if bufAvail <? bytesNeeded then ret false
  else
    nbytes <- RawMove RAW_DATA_TX_ID RAW_DATA_POOL true bytesNeeded ;;
    if nbytes =? 0 then
      printf "AllocateDataTxBuffer" "--- %s: failed\n" [] ;;
      ret false
    else
      SetRawDataWindowState RAW_DATA_TX_ID WF_RAW_DATA_MOUNTED ;;
      ret true.

Definition DeallocateDataRxBuffer : M unit :=
  SetRawDataWindowState RAW_DATA_RX_ID WF_RAW_UNMOUNTED ;;
  _ <- RawMove RAW_DATA_RX_ID RAW_DATA_POOL false 0 ;; ret tt.

End Driver.

(** ** A sample header

    Values in the style of the MRF24WG register description, used to run
    the model on concrete inputs. *)

Definition mrf24wg : wf_universal_driver := {|
  INTR_RAW0 := 0x02;
  INTR_RAW1 := 0x04;
  INTR_INT2 := 0x01;
  INTR2_RAW2 := 0x0010;
  INTR2_RAW3 := 0x0020;
  INTR2_RAW4 := 0x0004;
  INTR2_RAW5 := 0x0008;
  FIFO_BCNT_MASK := 0x0fff;
  RAW_MAC := 0x00;
  RAW_MGMT_POOL := 0x10;
  RAW_DATA_POOL := 0x20;
  RAW_SCRATCH_POOL := 0x30;
  WF_RAW_UNMOUNTED := 0;
  WF_RAW_DATA_MOUNTED := 1
|}.

(** ** Vocabulary of the statements *)

(** *** Frames

    [keeps R m]: every completed run of [m] relates the world it started in
    to the world it ended in by [R]. *)

Definition keeps {A} (R : relation world) (m : M A) : Prop :=
  forall w a w', m w = Done a w' -> R w w'.

(** [same f]: the field [f] of the world is left as it was. *)
Definition same {X} (f : world -> X) : relation world :=
  fun w w' => f w' = f w.

(** The write that clears the expected completion interrupt, lines
    516-526, as an event. *)
Definition RawMove_clear (rawId m : Z) : event :=
  if rawId <=? 1 then EvWriteByte MRF24_REG_INTR (u8 m)
  else EvWrite MRF24_REG_INTR2 (u8 m).

(** The world in which a move starts to wait: lines 498-537 done. *)
Definition RawMove_issued (w : world) (clr : event) (regId : reg) (ctrlVal : Z)
  : world :=
  mkWorld (inputs w)
          (trace w ++ [EvIntrDisable (intr_enabled w); clr;
                       EvWrite regId ctrlVal; EvIntrEnable])
          true (RawWindowState w) (g_RawIndexPastEnd w).

(** The world a move returns in, given the world [w2] its wait ended in:
    lines 541-543. *)
Definition RawMove_restored (was : bool) (w2 : world) : world :=
  if was then w2
  else mkWorld (inputs w2) (trace w2 ++ [EvIntrDisable (intr_enabled w2)])
               false (RawWindowState w2) (g_RawIndexPastEnd w2).


(** *** Tapes for the polling loops

    A polling loop that goes round takes two values per turn: the register
    it polls and the elapsed time.  [polls ps] is the tape of the turns
    [ps]. *)
Definition polls (ps : list (Z * Z)) : list Z :=
  flat_map (fun p => [fst p; snd p]) ps.

(** A turn of [WaitForRawMoveComplete_loop] that goes round: the interrupt
    register does not show the awaited bit and no more than 20 time units
    have elapsed. *)
Definition quiet_poll (intMask : Z) (p : Z * Z) : bool :=
  (Z.land (u32 (fst p)) intMask =? 0) && negb (snd p >? 20).

(** What such turns leave in the trace. *)
Definition quiet_events (start_time : Z) (ps : list (Z * Z)) : list event :=
  flat_map (fun p => [EvReadByte MRF24_REG_INTR (fst p);
                      EvTimerElapsed start_time (snd p);
                      EvDelay 10]) ps.

(** A turn of [RawSetIndex_loop] that goes round: the status register
    shows busy and no more than 5 time units have elapsed. *)
Definition busy_poll (p : Z * Z) : bool :=
  negb (Z.land (u16 (fst p)) WF_RAW_STATUS_REG_BUSY_MASK =? 0) &&
  negb (snd p >? 5).

Definition busy_events (regId : reg) (start_time : Z) (ps : list (Z * Z))
  : list event :=
  flat_map (fun p => [EvRead regId (fst p);
                      EvTimerElapsed start_time (snd p);
                      EvDelay 10]) ps.

(** Window identifiers are [0 .. NUM_RAW_WINDOWS - 1]. *)
Definition valid_window (rawId : Z) : Prop := 0 <= rawId < NUM_RAW_WINDOWS.

(** The diagnostic of line 119. *)
Definition timeout_diagnostic : event :=
  EvPrintf "WaitForRawMoveComplete" "--- %s: timeout waiting for interrupt\n" [].

(** What the loop writes when the awaited interrupt shows, lines 110-114. *)
Definition completion_events `{wf_universal_driver} (intMask : Z) : list event :=
  (if intMask =? u32 INTR_INT2
   then [EvWrite MRF24_REG_INTR2
           (Z.lor (Z.lor (Z.lor INTR2_RAW2 INTR2_RAW3) INTR2_RAW4) INTR2_RAW5)]
   else []) ++ [EvWriteByte MRF24_REG_INTR intMask].


(** The world [w] with the flag byte [g]. *)
Definition with_flags (w : world) (g : Z) : world :=
  mkWorld (inputs w) (trace w) (intr_enabled w) (RawWindowState w) g.

(** The diagnostic of line 402. *)
Definition bad_index_diagnostic (index : Z) : event :=
  EvPrintf "RawSetIndex" "--- %s: bad index=%u out of bounds\n" [index].

(** Whether a stretch of trace holds the diagnostic [RawSetIndex] prints
    when it times out. *)
Definition is_bad_index (e : event) : bool :=
  match e with
  | EvPrintf func _ _ => String.eqb func "RawSetIndex"
  | _ => false
  end.

Definition bad_index_logged (d : list event) : bool := existsb is_bad_index d.

(** *** Sequences of module operations

    [op] names a call of one of the functions of [wf_raw.c] with its
    arguments; [run_op] makes the call.  [run_ops] makes the calls of a
    list one after the other and records, for each, the value returned and
    the stretch of trace it produced. *)

Inductive op : Type :=
| OpRawInit
| OpScratchMount (rawId : Z)
| OpScratchUnmount (rawId : Z)
| OpAllocateMgmtTxBuffer (bytesNeeded : Z)
| OpDeallocateMgmtRxBuffer
| OpRawSetByte (rawId : Z) (p_buffer : list Z) (length : Z)
| OpRawGetByte (rawId : Z) (length : Z)
| OpSendRAWManagementFrame (bufLen : Z)
| OpRawMountRxBuffer (rawId : Z)
| OpRawRead (rawId startIndex length : Z)
| OpRawWrite (rawId startIndex length : Z) (p_src : list Z)
| OpRawSetIndex (rawId index : Z)
| OpAllocateDataTxBuffer (bytesNeeded : Z)
| OpDeallocateDataRxBuffer
| OpRawMove (rawId srcDest : Z) (rawIsDestination : bool) (size : Z)
| OpSetRawDataWindowState (rawId state : Z)
| OpGetRawDataWindowState (rawId : Z).

Inductive value : Type :=
| VUnit
| VBool (b : bool)
| VNum (n : Z)
| VBytes (l : list Z).

Definition run_op `{wf_universal_driver} (o : op) : M value :=
  match o with
  | OpRawInit => RawInit ;; ret VUnit
  | OpScratchMount rawId => n <- ScratchMount rawId ;; ret (VNum n)
  | OpScratchUnmount rawId => ScratchUnmount rawId ;; ret VUnit
  | OpAllocateMgmtTxBuffer n => b <- AllocateMgmtTxBuffer n ;; ret (VBool b)
  | OpDeallocateMgmtRxBuffer => DeallocateMgmtRxBuffer ;; ret VUnit
  | OpRawSetByte rawId buf len => RawSetByte rawId buf len ;; ret VUnit
  | OpRawGetByte rawId len => l <- RawGetByte rawId len ;; ret (VBytes l)
  | OpSendRAWManagementFrame len => SendRAWManagementFrame len ;; ret VUnit
  | OpRawMountRxBuffer rawId => n <- RawMountRxBuffer rawId ;; ret (VNum n)
  | OpRawRead rawId i len => l <- RawRead rawId i len ;; ret (VBytes l)
  | OpRawWrite rawId i len src => RawWrite rawId i len src ;; ret VUnit
  | OpRawSetIndex rawId i => RawSetIndex rawId i ;; ret VUnit
  | OpAllocateDataTxBuffer n => b <- AllocateDataTxBuffer n ;; ret (VBool b)
  | OpDeallocateDataRxBuffer => DeallocateDataRxBuffer ;; ret VUnit
  | OpRawMove rawId srcDest dst size =>
      n <- RawMove rawId srcDest dst size ;; ret (VNum n)
  | OpSetRawDataWindowState rawId st =>
      SetRawDataWindowState rawId st ;; ret VUnit
  | OpGetRawDataWindowState rawId =>
      n <- GetRawDataWindowState rawId ;; ret (VNum n)
  end.

Definition entry : Type := op * value * list event.

Fixpoint run_ops `{wf_universal_driver} (ops : list op) : M (list entry) :=
  match ops with
  | [] => ret []
  | o :: ops' =>
      before <- gets trace ;;
      v <- run_op o ;;
      after <- gets trace ;;
      log <- run_ops ops' ;;
      ret ((o, v, skipn (length before) after) :: log)
  end.

(** What a recorded call says about the out-of-bounds flag of window [W]:
    an index-set on [W] ([RawSetIndex], or the [RawRead] and [RawWrite]
    that start with one) sets it when it logged its diagnostic and clears
    it otherwise; an [AllocateMgmtTxBuffer] that returned true clears the
    flag of the management Tx window; nothing else touches it. *)
Definition index_set_effect (W : Z) (e : entry) : option bool :=
  match e with
  | (OpRawSetIndex rawId _, _, d)
  | (OpRawRead rawId _ _, _, d)
  | (OpRawWrite rawId _ _ _, _, d) =>
      if rawId =? W then Some (bad_index_logged d) else None
  | _ => None
  end.

Definition flag_effect (W : Z) (e : entry) : option bool :=
  match e with
  | (OpAllocateMgmtTxBuffer _, VBool true, _) =>
      if W =? RAW_MGMT_TX_ID then Some false else None
  | _ => index_set_effect W e
  end.

(** The flag a monitor predicts from the record of a run, starting from
    [b]: the outcome of the last call that had a say. *)
Definition flag_after (effect : entry -> option bool) (b : bool)
    (log : list entry) : bool :=
  fold_left (fun b e => match effect e with Some b' => b' | None => b end)
            log b.

(** The diagnostics of lines 247 and 271, and what a byte transfer on a
    window whose flag is [oob] leaves in the trace before the transfer
    itself. *)
Definition out_of_bounds_diagnostic (func : string) : event :=
  EvPrintf func "--- %s: index out of bounds\n" [].

Definition transfer_warning (func : string) (oob : bool) : list event :=
  if oob then [out_of_bounds_diagnostic func] else [].

(** The world [w] with the mount-state array [st]; [RawWindowState] is a
    C array of two cells. *)
Definition with_state (w : world) (st : list Z) : world :=
  mkWorld (inputs w) (trace w) (intr_enabled w) st (g_RawIndexPastEnd w).

Definition two_cells (w : world) : Prop := length (RawWindowState w) = 2%nat.

(** The diagnostic of line 311. *)
Definition mount_failed_diagnostic : event :=
  EvPrintf "RawMountRxBuffer" "--- %s: failed\n" [].

(** *** Moves in a trace

    A move is started by the write to a window's CTRL0 register (line 534)
    and by nothing else; [moves_issued d] are the moves of the stretch of
    trace [d], in order. *)
Definition is_ctrl0 (r : reg) : bool :=
  match r with
  | MRF24_REG_RAW0_CTRL0 | MRF24_REG_RAW1_CTRL0 | MRF24_REG_RAW2_CTRL0
  | MRF24_REG_RAW3_CTRL0 | MRF24_REG_RAW4_CTRL0 | MRF24_REG_RAW5_CTRL0 => true
  | _ => false
  end.

Definition is_move (e : event) : bool :=
  match e with
  | EvWrite r _ => is_ctrl0 r
  | _ => false
  end.

Definition moves_issued (d : list event) : list event := List.filter is_move d.

(** A pool selector as [RawMove] expects it: one of the header's
    [RAW_MAC] .. [RAW_COPY] values, which "are already shifted by 4 bits"
    (line 506), so that it sits in bits 6:4 and leaves the low nibble to
    the size. *)
Definition pool_selector (srcDest : Z) : Prop :=
  0 <= srcDest < 0x80 /\ Z.land srcDest 0x0f = 0.

(** The diagnostic of line 434. *)
Definition data_alloc_failed_diagnostic : event :=
  EvPrintf "AllocateDataTxBuffer" "--- %s: failed\n" [].


(** Whether an event is the out-of-bounds diagnostic of a byte transfer. *)
Definition is_transfer_warning (e : event) : bool :=
  match e with
  | EvPrintf func _ _ => String.eqb func "RawSetByte" || String.eqb func "RawGetByte"
  | _ => false
  end.

(** The operations that assign a cell of [RawWindowState]. *)
Definition touches_mount_state (o : op) : bool :=
  match o with
  | OpRawInit | OpAllocateDataTxBuffer _ | OpDeallocateDataRxBuffer
  | OpSetRawDataWindowState _ _ => true
  | OpRawMountRxBuffer rawId => rawId =? RAW_DATA_RX_ID
  | _ => false
  end.

Definition mount_cells (w : world) : nat := length (RawWindowState w).

(** The operations that only position the index of a window or stream
    bytes through it. *)
Definition is_window_access (o : op) : bool :=
  match o with
  | OpRawSetIndex _ _ | OpRawSetByte _ _ _ | OpRawGetByte _ _
  | OpRawRead _ _ _ | OpRawWrite _ _ _ _ => true
  | _ => false
  end.

(** Whether an event is a write to the chip. *)
Definition is_reg_write (e : event) : bool :=
  match e with
  | EvWrite _ _ | EvWriteByte _ _ | EvWriteArray _ _ _ => true
  | _ => false
  end.

Definition reg_writes (d : list event) : list event := List.filter is_reg_write d.
(** ** Reasoning about runs *)

Lemma bind_Done {A B} (m : M A) (k : A -> M B) w b w' :
  bind m k w = Done b w' <->
  exists a w1, m w = Done a w1 /\ k a w1 = Done b w'.
Proof.
  unfold bind. split.
  - destruct (m w) as [a w1|f] eqn:E; [eauto | discriminate].
  - intros (a & w1 & -> & Hk). exact Hk.
Qed.

Lemma bind_run {A B} (m : M A) (k : A -> M B) w a w1 :
  m w = Done a w1 -> bind m k w = k a w1.
Proof. unfold bind. intros ->. reflexivity. Qed.

Lemma ret_Done {A} (a b : A) w w' : ret a w = Done b w' <-> a = b /\ w = w'.
Proof. unfold ret. split; [intros [= -> ->] | intros [-> ->]]; auto. Qed.

(** Runs the primitives of a goal forward. *)
Ltac exec :=
  repeat (progress
            (unfold bind, ret, mrf_read, mrf_write, mrf_read_byte,
               mrf_write_byte, mrf_write_array, mrf_timer_read,
               mrf_timer_elapsed, udelay, printf, emit, next_input, gets,
               inputs_left, set_intr, mrf_intr_enable, mrf_intr_disable;
             simpl)).

Ltac exec_in Hrun :=
  repeat (progress
            (unfold bind, ret, mrf_read, mrf_write, mrf_read_byte,
               mrf_write_byte, mrf_write_array, mrf_timer_read,
               mrf_timer_elapsed, udelay, printf, emit, next_input, gets,
               inputs_left, set_intr, mrf_intr_enable, mrf_intr_disable in Hrun;
             simpl in Hrun)).

Ltac trace_eq := rewrite <- ?app_assoc; simpl; rewrite <- ?app_assoc; reflexivity.

(** Splits a hypothesis [(x <- m ;; k) w = Done b w']. *)
Ltac run_inv Hrun :=
  let a := fresh "a" in
  let w1 := fresh "w" in
  let Hm := fresh "Hm" in
  apply bind_Done in Hrun; destruct Hrun as (a & w1 & Hm & Hrun).

Section Keeps.
Context (R : relation world) `{!PreOrder R}.

Lemma keeps_ret {A} (a : A) : keeps R (ret a).
Proof. intros w b w' [_ <-]%ret_Done. reflexivity. Qed.

Lemma keeps_fail {A} f : keeps R (@fail A f).
Proof. intros w b w' [=]. Qed.

Lemma keeps_bind {A B} (m : M A) (k : A -> M B) :
  keeps R m -> (forall a, keeps R (k a)) -> keeps R (bind m k).
Proof.
  intros Hm Hk w b w' Hrun. run_inv Hrun.
  transitivity w0; [eapply Hm | eapply Hk]; eassumption.
Qed.

Lemma keeps_if {A} (b : bool) (m1 m2 : M A) :
  keeps R m1 -> keeps R m2 -> keeps R (if b then m1 else m2).
Proof. destruct b; auto. Qed.

Lemma keeps_at_index {A} (tbl : list A) i : keeps R (at_index tbl i).
Proof.
  unfold at_index. destruct (0 <=? i); [|apply keeps_fail].
  destruct (tbl !! Z.to_nat i); [apply keeps_ret | apply keeps_fail].
Qed.

Lemma keeps_gets {X} (f : world -> X) : keeps R (gets f).
Proof. intros w a w' [= _ <-]. reflexivity. Qed.

End Keeps.

#[local] Instance same_preorder {X} (f : world -> X) : PreOrder (same f).
Proof.
  split; [intros w; reflexivity|].
  intros w1 w2 w3 H12 H23. unfold same in *. congruence.
Qed.

Ltac keeps_step :=
  lazymatch goal with
  | |- keeps _ (bind _ _) => apply keeps_bind; [typeclasses eauto| |intros ?]
  | |- keeps _ (ret _) => apply keeps_ret; typeclasses eauto
  | |- keeps _ (fail _) => apply keeps_fail
  | |- keeps _ (if _ then _ else _) => apply keeps_if
  | |- keeps _ (at_index _ _) => apply keeps_at_index; typeclasses eauto
  | |- keeps _ inputs_left => apply keeps_gets; typeclasses eauto
  | |- keeps _ (gets _) => apply keeps_gets; typeclasses eauto
  end.

(** Everything [RawMove] does to the world goes through [emit],
    [next_input] and [set_intr]: a relation those three respect is
    respected by a whole move. *)
Section MoveFrame.
Context {H : wf_universal_driver}.
Context (R : relation world) `{!PreOrder R}.
Hypothesis R_emit : forall e, keeps R (emit e).
Hypothesis R_next_input : keeps R next_input.
Hypothesis R_set_intr : forall b, keeps R (set_intr b).

Lemma keeps_mrf_read r : keeps R (mrf_read r).
Proof. unfold mrf_read. repeat keeps_step; auto. Qed.

Lemma keeps_mrf_read_byte r : keeps R (mrf_read_byte r).
Proof. unfold mrf_read_byte. repeat keeps_step; auto. Qed.

Lemma keeps_mrf_timer_read : keeps R mrf_timer_read.
Proof. unfold mrf_timer_read. repeat keeps_step; auto. Qed.

Lemma keeps_mrf_timer_elapsed s : keeps R (mrf_timer_elapsed s).
Proof. unfold mrf_timer_elapsed. repeat keeps_step; auto. Qed.

Lemma keeps_mrf_intr_disable : keeps R mrf_intr_disable.
Proof. unfold mrf_intr_disable. repeat keeps_step; auto. Qed.

Lemma keeps_mrf_intr_enable : keeps R mrf_intr_enable.
Proof. unfold mrf_intr_enable. repeat keeps_step; auto. Qed.

Lemma keeps_WaitForRawMoveComplete_loop fuel intMask start_time :
  keeps R (WaitForRawMoveComplete_loop fuel intMask start_time).
Proof.
  induction fuel as [|fuel IH]; simpl; [apply keeps_fail|].
  unfold mrf_write, mrf_write_byte, printf, udelay.
  repeat keeps_step; auto using keeps_mrf_read_byte, keeps_mrf_timer_elapsed.
Qed.

Lemma keeps_WaitForRawMoveComplete rawId :
  keeps R (WaitForRawMoveComplete rawId).
Proof.
  unfold WaitForRawMoveComplete. cbv zeta.
  repeat keeps_step;
    auto using keeps_mrf_timer_read, keeps_WaitForRawMoveComplete_loop,
               keeps_mrf_read.
Qed.

Lemma keeps_RawMove rawId srcDest rawIsDestination size :
  keeps R (RawMove rawId srcDest rawIsDestination size).
Proof.
  unfold RawMove, mrf_write, mrf_write_byte. cbv zeta.
  repeat keeps_step;
    auto using keeps_mrf_intr_disable, keeps_mrf_intr_enable,
               keeps_WaitForRawMoveComplete.
Qed.

End MoveFrame.

Lemma same_flags_emit e : keeps (same g_RawIndexPastEnd) (emit e).
Proof. intros w a w' [= _ <-]. reflexivity. Qed.

Lemma same_flags_next_input : keeps (same g_RawIndexPastEnd) next_input.
Proof.
  intros w a w'. unfold next_input. destruct (inputs w); [discriminate|].
  intros [= _ <-]. reflexivity.
Qed.

Lemma same_flags_set_intr b : keeps (same g_RawIndexPastEnd) (set_intr b).
Proof. intros w a w' [= _ <-]. reflexivity. Qed.

Lemma same_state_emit e : keeps (same RawWindowState) (emit e).
Proof. intros w a w' [= _ <-]. reflexivity. Qed.

Lemma same_state_next_input : keeps (same RawWindowState) next_input.
Proof.
  intros w a w'. unfold next_input. destruct (inputs w); [discriminate|].
  intros [= _ <-]. reflexivity.
Qed.

Lemma same_state_set_intr b : keeps (same RawWindowState) (set_intr b).
Proof. intros w a w' [= _ <-]. reflexivity. Qed.

(** A move changes neither the out-of-bounds flags nor the mount states. *)
Lemma RawMove_same_flags `{wf_universal_driver} rawId srcDest dst size :
  keeps (same g_RawIndexPastEnd) (RawMove rawId srcDest dst size).
Proof.
  apply keeps_RawMove;
    auto using same_flags_emit, same_flags_next_input, same_flags_set_intr.
  typeclasses eauto.
Qed.

Lemma RawMove_same_state `{wf_universal_driver} rawId srcDest dst size :
  keeps (same RawWindowState) (RawMove rawId srcDest dst size).
Proof.
  apply keeps_RawMove;
    auto using same_state_emit, same_state_next_input, same_state_set_intr.
  typeclasses eauto.
Qed.

(** *** The interrupt switch *)

Lemma same_intr_emit e : keeps (same intr_enabled) (emit e).
Proof. intros w a w' [= _ <-]. reflexivity. Qed.

Lemma same_intr_next_input : keeps (same intr_enabled) next_input.
Proof.
  intros w a w'. unfold next_input. destruct (inputs w); [discriminate|].
  intros [= _ <-]. reflexivity.
Qed.

(** The wait never touches the interrupt switch. *)
Lemma WaitForRawMoveComplete_same_intr `{wf_universal_driver} rawId :
  keeps (same intr_enabled) (WaitForRawMoveComplete rawId).
Proof.
  apply keeps_WaitForRawMoveComplete;
    auto using same_intr_emit, same_intr_next_input.
  typeclasses eauto.
Qed.

Lemma mrf_intr_disable_Done w a w' :
  mrf_intr_disable w = Done a w' ->
  a = intr_enabled w /\
  w' = mkWorld (inputs w) (trace w ++ [EvIntrDisable (intr_enabled w)]) false
               (RawWindowState w) (g_RawIndexPastEnd w).
Proof. intros [= <- <-]. split; reflexivity. Qed.

Lemma mrf_intr_enable_Done w a w' :
  mrf_intr_enable w = Done a w' ->
  w' = mkWorld (inputs w) (trace w ++ [EvIntrEnable]) true
               (RawWindowState w) (g_RawIndexPastEnd w).
Proof. intros [= _ <-]. reflexivity. Qed.

Lemma emit_Done e w a w' :
  emit e w = Done a w' ->
  w' = mkWorld (inputs w) (trace w ++ [e]) (intr_enabled w)
               (RawWindowState w) (g_RawIndexPastEnd w).
Proof. intros [= _ <-]. reflexivity. Qed.

Lemma at_index_Done {A} (tbl : list A) i w a w' :
  at_index tbl i w = Done a w' ->
  0 <= i /\ tbl !! Z.to_nat i = Some a /\ w' = w.
Proof.
  unfold at_index. destruct (Z.leb_spec 0 i); [|discriminate].
  destruct (tbl !! Z.to_nat i); [|discriminate].
  intros [= <- <-]. auto.
Qed.

Lemma at_index_run {A} (tbl : list A) i a w :
  0 <= i -> tbl !! Z.to_nat i = Some a -> at_index tbl i w = Done a w.
Proof.
  intros Hi Hl. unfold at_index. destruct (Z.leb_spec 0 i); [|lia].
  rewrite Hl. reflexivity.
Qed.

Lemma RawMove_Done `{wf_universal_driver} rawId srcDest dst size w n w' :
  RawMove rawId srcDest dst size w = Done n w' <->
  exists mask regId m w2,
    0 <= rawId /\
    g_RawIntMask !! Z.to_nat rawId = Some mask /\
    g_RawCtrl0Reg !! Z.to_nat rawId = Some regId /\
    WaitForRawMoveComplete rawId
      (RawMove_issued w (RawMove_clear rawId mask) regId
                      (RawMove_ctrlVal srcDest dst size)) = Done m w2 /\
    n = u16 m /\
    w' = RawMove_restored (intr_enabled w) w2.
Proof.
  unfold RawMove. cbv zeta. split.
  - intros Hrun.
    run_inv Hrun. apply mrf_intr_disable_Done in Hm as [-> ->].
    run_inv Hrun.
    assert (exists mask, g_RawIntMask !! Z.to_nat rawId = Some mask /\ 0 <= rawId /\
              w0 = mkWorld (inputs w)
                     (trace w ++ [EvIntrDisable (intr_enabled w); RawMove_clear rawId mask])
                     false (RawWindowState w) (g_RawIndexPastEnd w))
      as (mask & Hmask & Hid & ->).
    { unfold RawMove_clear. destruct (rawId <=? 1);
        run_inv Hm; apply at_index_Done in Hm0 as (? & ? & ->);
        apply emit_Done in Hm; subst w0; simpl;
        rewrite <- app_assoc; eauto. }
    run_inv Hrun. apply at_index_Done in Hm0 as (_ & Hreg & ->).
    run_inv Hrun. apply emit_Done in Hm0. subst w0. simpl in Hrun.
    run_inv Hrun. apply mrf_intr_enable_Done in Hm0. subst w0. simpl in Hrun.
    rewrite <- !app_assoc in Hrun. simpl in Hrun.
    run_inv Hrun. eexists mask, _, _, _.
    do 4 (split; [eassumption|]).
    run_inv Hrun. apply ret_Done in Hrun as [<- <-]. split; [reflexivity|].
    unfold RawMove_restored. destruct (intr_enabled w); simpl in *.
    + match goal with Hr : ret _ _ = Done _ _ |- _ =>
        apply ret_Done in Hr as [_ <-] end. reflexivity.
    + match goal with Hr : bind _ _ _ = Done _ _ |- _ => run_inv Hr;
        apply ret_Done in Hr as [_ <-] end.
      match goal with Hr : mrf_intr_disable _ = Done _ _ |- _ =>
        apply mrf_intr_disable_Done in Hr as [_ ->] end. reflexivity.
  - intros (mask & regId & m & w2 & Hid & Hmask & Hreg & Hwait & -> & ->).
    unfold bind at 1. unfold mrf_intr_disable at 1. simpl.
    unfold bind at 1.
    assert (Hclr :
      (if rawId <=? 1
       then m0 <- at_index g_RawIntMask rawId ;; mrf_write_byte MRF24_REG_INTR (u8 m0)
       else m0 <- at_index g_RawIntMask rawId ;; mrf_write MRF24_REG_INTR2 (u8 m0))
        (mkWorld (inputs w) (trace w ++ [EvIntrDisable (intr_enabled w)]) false
                 (RawWindowState w) (g_RawIndexPastEnd w)) =
      Done tt (mkWorld (inputs w)
                 (trace w ++ [EvIntrDisable (intr_enabled w); RawMove_clear rawId mask])
                 false (RawWindowState w) (g_RawIndexPastEnd w))).
    { unfold RawMove_clear. destruct (rawId <=? 1);
        (erewrite bind_run by (apply at_index_run; eassumption));
        unfold mrf_write_byte, mrf_write, emit; simpl;
        rewrite <- app_assoc; reflexivity. }
    rewrite Hclr.
    erewrite bind_run by (apply at_index_run; eassumption).
    unfold bind at 1. unfold mrf_write at 1, emit at 1. simpl.
    unfold bind at 1. unfold mrf_intr_enable at 1. simpl.
    rewrite <- !app_assoc. simpl.
    unfold RawMove_issued in Hwait. rewrite (bind_run _ _ _ _ _ Hwait).
    unfold RawMove_restored. destruct (intr_enabled w); reflexivity.
Qed.

(** *** The completion wait *)

Lemma WaitForRawMoveComplete_loop_timeout `{wf_universal_driver}
    ps fuel intMask st tr ie ws g i dt rest :
  forallb (quiet_poll intMask) ps = true ->
  Z.land (u32 i) intMask = 0 -> 20 < dt -> (length ps < fuel)%nat ->
  WaitForRawMoveComplete_loop fuel intMask st
    (mkWorld (polls ps ++ i :: dt :: rest) tr ie ws g) =
  Done tt (mkWorld rest
             (tr ++ quiet_events st ps ++
                [EvReadByte MRF24_REG_INTR i; EvTimerElapsed st dt;
                 timeout_diagnostic])
             ie ws g).
Proof.
  intros Hq Hi Hdt. revert fuel tr.
  induction ps as [|[i0 dt0] ps IH]; intros fuel tr Hfuel;
    (destruct fuel as [|fuel]; [simpl in Hfuel; lia|]); simpl.
  - exec. rewrite Hi. simpl.
    destruct (Z.gtb_spec dt 20); [|lia]. exec. trace_eq.
  - simpl in Hq. apply andb_true_iff in Hq as [Hq0 Hq].
    unfold quiet_poll in Hq0. simpl in Hq0.
    apply andb_true_iff in Hq0 as [Hm Hd]. apply negb_true_iff in Hd.
    exec. rewrite Hm. simpl. rewrite Hd. exec.
    rewrite (IH Hq) by (simpl in Hfuel; lia). trace_eq.
Qed.

Lemma polls_length ps : length (polls ps) = (2 * length ps)%nat.
Proof. induction ps as [|p ps IH]; simpl; lia. Qed.

Lemma WaitForRawMoveComplete_loop_complete `{wf_universal_driver}
    ps fuel intMask st tr ie ws g i rest :
  forallb (quiet_poll intMask) ps = true ->
  Z.land (u32 i) intMask <> 0 -> (length ps < fuel)%nat ->
  WaitForRawMoveComplete_loop fuel intMask st
    (mkWorld (polls ps ++ i :: rest) tr ie ws g) =
  Done tt (mkWorld rest
             (tr ++ quiet_events st ps ++
                EvReadByte MRF24_REG_INTR i :: completion_events intMask)
             ie ws g).
Proof.
  intros Hq Hi. revert fuel tr.
  induction ps as [|[i0 dt0] ps IH]; intros fuel tr Hfuel;
    (destruct fuel as [|fuel]; [simpl in Hfuel; lia|]); simpl.
  - exec. apply Z.eqb_neq in Hi. rewrite Hi. simpl.
    unfold completion_events.
    destruct (intMask =? u32 INTR_INT2); exec; trace_eq.
  - simpl in Hq. apply andb_true_iff in Hq as [Hq0 Hq].
    unfold quiet_poll in Hq0. simpl in Hq0.
    apply andb_true_iff in Hq0 as [Hm Hd]. apply negb_true_iff in Hd.
    exec. rewrite Hm. simpl. rewrite Hd. exec.
    rewrite (IH Hq) by (simpl in Hfuel; lia). trace_eq.
Qed.

(** The wait as a whole, when it times out and when it completes. *)
Lemma WaitForRawMoveComplete_timeout `{wf_universal_driver}
    rawId regId t0 ps i dt v rest tr ie ws g :
  0 <= rawId -> g_RawCtrl1Reg !! Z.to_nat rawId = Some regId ->
  forallb (quiet_poll (WaitForRawMoveComplete_intMask rawId)) ps = true ->
  Z.land (u32 i) (WaitForRawMoveComplete_intMask rawId) = 0 -> 20 < dt ->
  WaitForRawMoveComplete rawId
    (mkWorld (t0 :: polls ps ++ i :: dt :: v :: rest) tr ie ws g) =
  Done (u32 v)
       (mkWorld rest
          (tr ++ EvTimerRead t0 :: quiet_events (u32 t0) ps ++
             [EvReadByte MRF24_REG_INTR i; EvTimerElapsed (u32 t0) dt;
              timeout_diagnostic; EvRead regId v])
          ie ws g).
Proof.
  intros Hid Hreg Hq Hi Hdt.
  unfold WaitForRawMoveComplete. cbv zeta. exec.
  rewrite WaitForRawMoveComplete_loop_timeout; auto.
  - rewrite (at_index_run _ _ _ _ Hid Hreg). exec. trace_eq.
  - rewrite length_app, polls_length. simpl. lia.
Qed.

Lemma WaitForRawMoveComplete_complete `{wf_universal_driver}
    rawId regId t0 ps i v rest tr ie ws g :
  0 <= rawId -> g_RawCtrl1Reg !! Z.to_nat rawId = Some regId ->
  forallb (quiet_poll (WaitForRawMoveComplete_intMask rawId)) ps = true ->
  Z.land (u32 i) (WaitForRawMoveComplete_intMask rawId) <> 0 ->
  WaitForRawMoveComplete rawId
    (mkWorld (t0 :: polls ps ++ i :: v :: rest) tr ie ws g) =
  Done (u32 v)
       (mkWorld rest
          (tr ++ EvTimerRead t0 :: quiet_events (u32 t0) ps ++
             EvReadByte MRF24_REG_INTR i ::
             completion_events (WaitForRawMoveComplete_intMask rawId) ++
             [EvRead regId v])
          ie ws g).
Proof.
  intros Hid Hreg Hq Hi.
  unfold WaitForRawMoveComplete. cbv zeta. exec.
  rewrite WaitForRawMoveComplete_loop_complete; auto.
  - rewrite (at_index_run _ _ _ _ Hid Hreg). exec. trace_eq.
  - rewrite length_app, polls_length. simpl. lia.
Qed.

Lemma window_lookup {A} (tbl : list A) rawId :
  length tbl = 6%nat -> valid_window rawId ->
  0 <= rawId /\ exists x, tbl !! Z.to_nat rawId = Some x.
Proof.
  intros Hlen [Hlo Hhi]. split; [exact Hlo|].
  apply lookup_lt_is_Some. rewrite Hlen. unfold NUM_RAW_WINDOWS in Hhi. lia.
Qed.

(** *** Bits of the flag byte *)

Lemma u8_testbit x i : 0 <= i < 8 -> Z.testbit (u8 x) i = Z.testbit x i.
Proof. intros Hi. unfold u8. apply Z.mod_pow2_bits_low. lia. Qed.

Lemma testbit_set_flag g k i :
  0 <= k -> 0 <= i < 8 ->
  Z.testbit (u8 (Z.lor g (2 ^ k))) i = (i =? k) || Z.testbit g i.
Proof.
  intros Hk Hi. rewrite u8_testbit by exact Hi.
  rewrite Z.lor_spec, Z.pow2_bits_eqb by exact Hk.
  rewrite Z.eqb_sym. apply orb_comm.
Qed.

Lemma testbit_clear_flag g k i :
  0 <= k -> 0 <= i < 8 ->
  Z.testbit (u8 (Z.land g (Z.lnot (2 ^ k)))) i = negb (i =? k) && Z.testbit g i.
Proof.
  intros Hk Hi. rewrite u8_testbit by exact Hi.
  rewrite Z.land_spec, Z.lnot_spec, Z.pow2_bits_eqb by lia.
  rewrite Z.eqb_sym. apply andb_comm.
Qed.

Lemma land_pow2 g k :
  0 <= k -> Z.land g (2 ^ k) = if Z.testbit g k then 2 ^ k else 0.
Proof.
  intros Hk. apply Z.bits_inj'. intros i Hi.
  rewrite Z.land_spec, Z.pow2_bits_eqb by exact Hk.
  destruct (Z.eqb_spec k i) as [->|Hne].
  - destruct (Z.testbit g i); [rewrite Z.pow2_bits_true by exact Hi; reflexivity|].
    rewrite Z.bits_0. reflexivity.
  - rewrite andb_false_r.
    destruct (Z.testbit g k); [|rewrite Z.bits_0; reflexivity].
    rewrite Z.pow2_bits_false by exact Hne. reflexivity.
Qed.

Lemma land_pow2_pos g k : 0 <= k -> (Z.land g (2 ^ k) >? 0) = Z.testbit g k.
Proof.
  intros Hk. rewrite land_pow2 by exact Hk.
  destruct (Z.testbit g k); [|reflexivity].
  apply Z.gtb_lt. apply Z.pow_pos_nonneg; lia.
Qed.

(** The mask table gives window [rawId] the bit [2 ^ rawId]. *)
Lemma mask_lookup rawId m :
  0 <= rawId -> g_RawAccessOutOfBoundsMask !! Z.to_nat rawId = Some m ->
  valid_window rawId /\ m = 2 ^ rawId.
Proof.
  intros Hlo Hm. unfold valid_window, NUM_RAW_WINDOWS.
  assert (Hlt : (Z.to_nat rawId < 6)%nat).
  { apply lookup_lt_Some in Hm. exact Hm. }
  assert (Hcases : rawId = 0 \/ rawId = 1 \/ rawId = 2 \/ rawId = 3 \/
                   rawId = 4 \/ rawId = 5) by lia.
  destruct Hcases as [->|[->|[->|[->|[->| ->]]]]];
    injection Hm as <-; split; (lia || reflexivity).
Qed.

Lemma mask_lookup_valid rawId :
  valid_window rawId ->
  g_RawAccessOutOfBoundsMask !! Z.to_nat rawId = Some (2 ^ rawId).
Proof.
  unfold valid_window, NUM_RAW_WINDOWS. intros Hw.
  assert (Hcases : rawId = 0 \/ rawId = 1 \/ rawId = 2 \/ rawId = 3 \/
                   rawId = 4 \/ rawId = 5) by lia.
  destruct Hcases as [->|[->|[->|[->|[->| ->]]]]]; reflexivity.
Qed.

(** The three flag macros, in terms of bit [rawId] of the flag byte. *)
Lemma isIndexOutOfBounds_Done rawId w b w' :
  isIndexOutOfBounds rawId w = Done b w' <->
  valid_window rawId /\ b = Z.testbit (g_RawIndexPastEnd w) rawId /\ w' = w.
Proof.
  unfold isIndexOutOfBounds. split.
  - intros Hrun. run_inv Hrun. apply at_index_Done in Hm as (Hlo & Hm & ->).
    apply mask_lookup in Hm as [Hw ->]; [|exact Hlo].
    exec. injection Hrun as <- <-.
    rewrite land_pow2_pos by exact Hlo. auto.
  - intros (Hw & -> & ->). pose proof Hw as [Hlo _].
    rewrite (bind_run _ _ _ _ _ (at_index_run _ _ _ w Hlo (mask_lookup_valid _ Hw))).
    exec. rewrite land_pow2_pos by exact Hlo. reflexivity.
Qed.

Lemma SetIndexOutOfBoundsFlag_Done rawId w a w' :
  SetIndexOutOfBoundsFlag rawId w = Done a w' <->
  valid_window rawId /\
  w' = with_flags w (u8 (Z.lor (g_RawIndexPastEnd w) (2 ^ rawId))).
Proof.
  unfold SetIndexOutOfBoundsFlag. destruct a. split.
  - intros Hrun. run_inv Hrun. apply at_index_Done in Hm as (Hlo & Hm & ->).
    apply mask_lookup in Hm as [Hw ->]; [|exact Hlo].
    injection Hrun as <-. auto.
  - intros (Hw & ->). pose proof Hw as [Hlo _].
    rewrite (bind_run _ _ _ _ _ (at_index_run _ _ _ w Hlo (mask_lookup_valid _ Hw))).
    reflexivity.
Qed.

Lemma ClearIndexOutOfBoundsFlag_Done rawId w a w' :
  ClearIndexOutOfBoundsFlag rawId w = Done a w' <->
  valid_window rawId /\
  w' = with_flags w (u8 (Z.land (g_RawIndexPastEnd w) (Z.lnot (2 ^ rawId)))).
Proof.
  unfold ClearIndexOutOfBoundsFlag. destruct a. split.
  - intros Hrun. run_inv Hrun. apply at_index_Done in Hm as (Hlo & Hm & ->).
    apply mask_lookup in Hm as [Hw ->]; [|exact Hlo].
    injection Hrun as <-. auto.
  - intros (Hw & ->). pose proof Hw as [Hlo _].
    rewrite (bind_run _ _ _ _ _ (at_index_run _ _ _ w Hlo (mask_lookup_valid _ Hw))).
    reflexivity.
Qed.

(** *** [RawSetIndex] *)

Lemma RawSetIndex_loop_clean ps fuel rawId idx regId st tr ie ws g s rest :
  valid_window rawId ->
  forallb busy_poll ps = true ->
  Z.land (u16 s) WF_RAW_STATUS_REG_BUSY_MASK = 0 ->
  (length ps < fuel)%nat ->
  RawSetIndex_loop fuel rawId idx regId st
    (mkWorld (polls ps ++ s :: rest) tr ie ws g) =
  Done tt (mkWorld rest (tr ++ busy_events regId st ps ++ [EvRead regId s])
                   ie ws (u8 (Z.land g (Z.lnot (2 ^ rawId))))).
Proof.
  intros Hw Hq Hs. revert fuel tr.
  induction ps as [|[s0 dt0] ps IH]; intros fuel tr Hfuel;
    (destruct fuel as [|fuel]; [simpl in Hfuel; lia|]); simpl.
  - exec. rewrite Hs. simpl.
    rewrite (proj2 (ClearIndexOutOfBoundsFlag_Done rawId _ tt _) (conj Hw eq_refl)).
    unfold with_flags. simpl. trace_eq.
  - simpl in Hq. apply andb_true_iff in Hq as [Hq0 Hq].
    unfold busy_poll in Hq0. simpl in Hq0.
    apply andb_true_iff in Hq0 as [Hm Hd].
    apply negb_true_iff in Hm, Hd.
    exec. rewrite Hm. simpl. rewrite Hd. exec.
    rewrite (IH Hq) by (simpl in Hfuel; lia). trace_eq.
Qed.

Lemma RawSetIndex_loop_timeout ps fuel rawId idx regId st tr ie ws g s dt rest :
  valid_window rawId ->
  forallb busy_poll ps = true ->
  Z.land (u16 s) WF_RAW_STATUS_REG_BUSY_MASK <> 0 -> 5 < dt ->
  (length ps < fuel)%nat ->
  RawSetIndex_loop fuel rawId idx regId st
    (mkWorld (polls ps ++ s :: dt :: rest) tr ie ws g) =
  Done tt (mkWorld rest
             (tr ++ busy_events regId st ps ++
                [EvRead regId s; EvTimerElapsed st dt; bad_index_diagnostic idx])
             ie ws (u8 (Z.lor g (2 ^ rawId)))).
Proof.
  intros Hw Hq Hs Hdt. revert fuel tr.
  induction ps as [|[s0 dt0] ps IH]; intros fuel tr Hfuel;
    (destruct fuel as [|fuel]; [simpl in Hfuel; lia|]); simpl.
  - exec. apply Z.eqb_neq in Hs. rewrite Hs. simpl.
    destruct (Z.gtb_spec dt 5); [|lia].
    rewrite (proj2 (SetIndexOutOfBoundsFlag_Done rawId _ tt _) (conj Hw eq_refl)).
    unfold with_flags. exec. trace_eq.
  - simpl in Hq. apply andb_true_iff in Hq as [Hq0 Hq].
    unfold busy_poll in Hq0. simpl in Hq0.
    apply andb_true_iff in Hq0 as [Hm Hd].
    apply negb_true_iff in Hm, Hd.
    exec. rewrite Hm. simpl. rewrite Hd. exec.
    rewrite (IH Hq) by (simpl in Hfuel; lia). trace_eq.
Qed.

(** [RawSetIndex] as a whole, on a tape where the busy bit clears after the
    turns [ps], and on a tape where the timeout strikes after them. *)
Lemma RawSetIndex_clean rawId idx ireg sreg t0 ps s rest tr ie ws g :
  valid_window rawId ->
  g_RawIndexReg !! Z.to_nat rawId = Some ireg ->
  g_RawStatusReg !! Z.to_nat rawId = Some sreg ->
  forallb busy_poll ps = true ->
  Z.land (u16 s) WF_RAW_STATUS_REG_BUSY_MASK = 0 ->
  RawSetIndex rawId idx (mkWorld (t0 :: polls ps ++ s :: rest) tr ie ws g) =
  Done tt (mkWorld rest
             (tr ++ EvWrite ireg idx :: EvTimerRead t0 ::
                busy_events sreg (u32 t0) ps ++ [EvRead sreg s])
             ie ws (u8 (Z.land g (Z.lnot (2 ^ rawId))))).
Proof.
  intros Hw Hireg Hsreg Hq Hs. pose proof Hw as [Hlo _].
  unfold RawSetIndex.
  rewrite (bind_run _ _ _ _ _ (at_index_run _ _ _ _ Hlo Hireg)).
  unfold bind at 1. unfold mrf_write at 1, emit at 1. simpl.
  rewrite (bind_run _ _ _ _ _ (at_index_run _ _ _ _ Hlo Hsreg)).
  exec. rewrite RawSetIndex_loop_clean; auto.
  - trace_eq.
  - rewrite length_app, polls_length. simpl. lia.
Qed.

Lemma RawSetIndex_timeout rawId idx ireg sreg t0 ps s dt rest tr ie ws g :
  valid_window rawId ->
  g_RawIndexReg !! Z.to_nat rawId = Some ireg ->
  g_RawStatusReg !! Z.to_nat rawId = Some sreg ->
  forallb busy_poll ps = true ->
  Z.land (u16 s) WF_RAW_STATUS_REG_BUSY_MASK <> 0 -> 5 < dt ->
  RawSetIndex rawId idx (mkWorld (t0 :: polls ps ++ s :: dt :: rest) tr ie ws g) =
  Done tt (mkWorld rest
             (tr ++ EvWrite ireg idx :: EvTimerRead t0 ::
                busy_events sreg (u32 t0) ps ++
                [EvRead sreg s; EvTimerElapsed (u32 t0) dt;
                 bad_index_diagnostic idx])
             ie ws (u8 (Z.lor g (2 ^ rawId)))).
Proof.
  intros Hw Hireg Hsreg Hq Hs Hdt. pose proof Hw as [Hlo _].
  unfold RawSetIndex.
  rewrite (bind_run _ _ _ _ _ (at_index_run _ _ _ _ Hlo Hireg)).
  unfold bind at 1. unfold mrf_write at 1, emit at 1. simpl.
  rewrite (bind_run _ _ _ _ _ (at_index_run _ _ _ _ Hlo Hsreg)).
  exec. rewrite RawSetIndex_loop_timeout; auto.
  - trace_eq.
  - rewrite length_app, polls_length. simpl. lia.
Qed.

Lemma busy_events_quiet regId st ps :
  existsb is_bad_index (busy_events regId st ps) = false.
Proof. induction ps as [|p ps IH]; simpl; auto. Qed.

(** Every completed run of the loop took one of the two exits. *)
Lemma RawSetIndex_loop_Done fuel rawId idx regId st w a w' :
  RawSetIndex_loop fuel rawId idx regId st w = Done a w' ->
  valid_window rawId /\
  exists ps, forallb busy_poll ps = true /\
    ((exists s,
        Z.land (u16 s) WF_RAW_STATUS_REG_BUSY_MASK = 0 /\
        inputs w = polls ps ++ s :: inputs w' /\
        w' = mkWorld (inputs w')
               (trace w ++ busy_events regId st ps ++ [EvRead regId s])
               (intr_enabled w) (RawWindowState w)
               (u8 (Z.land (g_RawIndexPastEnd w) (Z.lnot (2 ^ rawId))))) \/
     (exists s dt,
        Z.land (u16 s) WF_RAW_STATUS_REG_BUSY_MASK <> 0 /\ 5 < dt /\
        inputs w = polls ps ++ s :: dt :: inputs w' /\
        w' = mkWorld (inputs w')
               (trace w ++ busy_events regId st ps ++
                  [EvRead regId s; EvTimerElapsed st dt; bad_index_diagnostic idx])
               (intr_enabled w) (RawWindowState w)
               (u8 (Z.lor (g_RawIndexPastEnd w) (2 ^ rawId))))).
Proof.
  revert w w'. induction fuel as [|fuel IH]; intros w w' Hrun; [discriminate|].
  destruct w as [inp tr ie ws g]. simpl in Hrun.
  destruct inp as [|s inp]; [discriminate|].
  unfold bind at 1, mrf_read at 1 in Hrun. exec_in Hrun.
  destruct (Z.eqb_spec (Z.land (u16 s) WF_RAW_STATUS_REG_BUSY_MASK) 0) as [Hs|Hs].
  - apply ClearIndexOutOfBoundsFlag_Done in Hrun as [Hw ->].
    split; [exact Hw|]. exists []. split; [reflexivity|]. left.
    exists s. split; [exact Hs|]. split; reflexivity.
  - destruct inp as [|dt inp]; [discriminate|]. simpl in Hrun.
    destruct (Z.gtb_spec dt 5) as [Hdt|Hdt].
    + destruct (SetIndexOutOfBoundsFlag rawId _) as [[] w1|] eqn:Hset;
        [|discriminate].
      apply SetIndexOutOfBoundsFlag_Done in Hset as [Hw ->].
      injection Hrun as Hrun. subst w'.
      split; [exact Hw|]. exists []. split; [reflexivity|]. right.
      exists s, dt. split; [exact Hs|]. split; [lia|]. split; [reflexivity|].
      unfold with_flags. simpl. f_equal. trace_eq.
    + apply IH in Hrun as (Hw & ps & Hq & Hexit). simpl in Hexit.
      split; [exact Hw|]. exists ((s, dt) :: ps). split.
      { simpl. rewrite Hq, andb_true_r. unfold busy_poll. simpl.
        apply andb_true_iff. split; apply negb_true_iff.
        - apply Z.eqb_neq. exact Hs.
        - destruct (Z.gtb_spec dt 5); [lia | reflexivity]. }
      destruct Hexit as [(s1 & Hs1 & Hin & ->)|(s1 & dt1 & Hs1 & Hdt1 & Hin & ->)];
        [left; exists s1 | right; exists s1, dt1]; simpl;
        rewrite Hin; repeat split; auto; f_equal; trace_eq.
Qed.

(** What a completed [RawSetIndex] did: it logged its diagnostic exactly
    when it set the flag of its window, cleared that flag otherwise, and
    left the rest of the driver state alone. *)
Lemma RawSetIndex_Done rawId idx w a w' :
  RawSetIndex rawId idx w = Done a w' ->
  valid_window rawId /\
  exists d,
    trace w' = trace w ++ d /\
    g_RawIndexPastEnd w' =
      (if bad_index_logged d
       then u8 (Z.lor (g_RawIndexPastEnd w) (2 ^ rawId))
       else u8 (Z.land (g_RawIndexPastEnd w) (Z.lnot (2 ^ rawId)))) /\
    intr_enabled w' = intr_enabled w /\
    RawWindowState w' = RawWindowState w.
Proof.
  unfold RawSetIndex. intros Hrun.
  run_inv Hrun. apply at_index_Done in Hm as (_ & _ & ->).
  run_inv Hrun. apply emit_Done in Hm. subst.
  run_inv Hrun. apply at_index_Done in Hm as (_ & _ & ->).
  run_inv Hrun. unfold mrf_timer_read in Hm. exec_in Hm.
  destruct (inputs w) as [|t0 inp]; [discriminate|].
  injection Hm as <- <-.
  run_inv Hrun. injection Hm as _ <-.
  apply RawSetIndex_loop_Done in Hrun as (Hw & ps & _ & Hexit).
  split; [exact Hw|].
  destruct Hexit as [(s & _ & _ & ->)|(s & dt & _ & _ & _ & ->)]; simpl;
    eexists; (split; [rewrite <- !app_assoc; simpl; reflexivity|]);
    repeat split;
    unfold bad_index_logged; simpl;
    rewrite existsb_app, busy_events_quiet; reflexivity.
Qed.

(** *** What leaves the flag byte alone *)

Lemma same_flags_take_inputs n : keeps (same g_RawIndexPastEnd) (take_inputs n).
Proof.
  intros w a w'. unfold take_inputs.
  destruct (n <=? length (inputs w))%nat; [|discriminate].
  intros [= _ <-]. reflexivity.
Qed.

Lemma same_flags_SetRawDataWindowState rawId st :
  keeps (same g_RawIndexPastEnd) (SetRawDataWindowState rawId st).
Proof.
  intros w a w'. unfold SetRawDataWindowState.
  destruct (_ && _); [|discriminate]. intros [= _ <-]. reflexivity.
Qed.

Lemma same_flags_GetRawDataWindowState rawId :
  keeps (same g_RawIndexPastEnd) (GetRawDataWindowState rawId).
Proof.
  intros w a w' Hrun. unfold GetRawDataWindowState in Hrun.
  apply at_index_Done in Hrun as (_ & _ & ->). reflexivity.
Qed.

Lemma same_flags_mrf_read r : keeps (same g_RawIndexPastEnd) (mrf_read r).
Proof. unfold mrf_read. repeat keeps_step;
  auto using same_flags_emit, same_flags_next_input. Qed.

Ltac same_flags :=
  repeat keeps_step;
  auto using same_flags_emit, same_flags_next_input, same_flags_set_intr,
             same_flags_take_inputs, same_flags_SetRawDataWindowState,
             same_flags_GetRawDataWindowState, RawMove_same_flags.

Lemma same_flags_RawSetByte rawId buf len :
  keeps (same g_RawIndexPastEnd) (RawSetByte rawId buf len).
Proof.
  unfold RawSetByte, isIndexOutOfBounds, printf, mrf_write_array. same_flags.
Qed.

Lemma same_flags_RawGetByte rawId len :
  keeps (same g_RawIndexPastEnd) (RawGetByte rawId len).
Proof.
  unfold RawGetByte, isIndexOutOfBounds, printf, mrf_read_array. same_flags.
Qed.

Lemma same_flags_ScratchMount `{wf_universal_driver} rawId :
  keeps (same g_RawIndexPastEnd) (ScratchMount rawId).
Proof. unfold ScratchMount. same_flags. Qed.

Lemma same_flags_ScratchUnmount `{wf_universal_driver} rawId :
  keeps (same g_RawIndexPastEnd) (ScratchUnmount rawId).
Proof. unfold ScratchUnmount. same_flags. Qed.

Lemma same_flags_RawInit `{wf_universal_driver} :
  keeps (same g_RawIndexPastEnd) RawInit.
Proof.
  unfold RawInit. same_flags;
    auto using same_flags_ScratchMount, same_flags_ScratchUnmount.
Qed.

Lemma same_flags_DeallocateMgmtRxBuffer `{wf_universal_driver} :
  keeps (same g_RawIndexPastEnd) DeallocateMgmtRxBuffer.
Proof. unfold DeallocateMgmtRxBuffer. same_flags. Qed.

Lemma same_flags_SendRAWManagementFrame `{wf_universal_driver} len :
  keeps (same g_RawIndexPastEnd) (SendRAWManagementFrame len).
Proof. unfold SendRAWManagementFrame. same_flags. Qed.

Lemma same_flags_RawMountRxBuffer `{wf_universal_driver} rawId :
  keeps (same g_RawIndexPastEnd) (RawMountRxBuffer rawId).
Proof. unfold RawMountRxBuffer, printf. same_flags. Qed.

Lemma same_flags_AllocateDataTxBuffer `{wf_universal_driver} n :
  keeps (same g_RawIndexPastEnd) (AllocateDataTxBuffer n).
Proof. unfold AllocateDataTxBuffer, mrf_read, printf. cbv zeta. same_flags. Qed.

Lemma same_flags_DeallocateDataRxBuffer `{wf_universal_driver} :
  keeps (same g_RawIndexPastEnd) DeallocateDataRxBuffer.
Proof. unfold DeallocateDataRxBuffer. same_flags. Qed.

(** [AllocateMgmtTxBuffer] clears the flag of the management Tx window
    when it returns true, and leaves the flag byte alone otherwise. *)
Lemma AllocateMgmtTxBuffer_flags `{wf_universal_driver} n w b w' :
  AllocateMgmtTxBuffer n w = Done b w' ->
  g_RawIndexPastEnd w' =
    if b then u8 (Z.land (g_RawIndexPastEnd w) (Z.lnot (2 ^ RAW_MGMT_TX_ID)))
    else g_RawIndexPastEnd w.
Proof.
  unfold AllocateMgmtTxBuffer. cbv zeta. intros Hrun.
  run_inv Hrun.
  assert (Hg0 : g_RawIndexPastEnd w0 = g_RawIndexPastEnd w).
  { exact (same_flags_mrf_read _ _ _ _ Hm). }
  destruct (_ >=? _).
  - run_inv Hrun.
    apply RawMove_same_flags in Hm0. unfold same in Hm0.
    destruct (a0 =? 0).
    + apply ret_Done in Hrun as [<- <-]. congruence.
    + run_inv Hrun. apply ret_Done in Hrun as [<- <-].
      apply ClearIndexOutOfBoundsFlag_Done in Hm1 as [_ ->]. simpl. congruence.
  - run_inv Hrun. apply ret_Done in Hrun as [<- <-].
    rewrite <- Hg0. revert Hm0. generalize w0 a0 w1.
    change (keeps (same g_RawIndexPastEnd)
              (if u16 (Z.land a FIFO_BCNT_MASK) >? 0
               then RawMove RAW_MGMT_RX_ID RAW_MGMT_POOL false 0 ;; ret tt
               else ret tt)).
    same_flags.
Qed.

(** *** Byte transfer *)

Lemma RawSetByte_Done rawId buf len w a w' :
  RawSetByte rawId buf len w = Done a w' <->
  valid_window rawId /\
  exists regId,
    g_RawDataReg !! Z.to_nat rawId = Some regId /\
    w' = mkWorld (inputs w)
           (trace w ++
              transfer_warning "RawSetByte" (Z.testbit (g_RawIndexPastEnd w) rawId) ++
              [EvWriteArray regId buf len])
           (intr_enabled w) (RawWindowState w) (g_RawIndexPastEnd w).
Proof.
  unfold RawSetByte. destruct a. split.
  - intros Hrun. run_inv Hrun.
    apply isIndexOutOfBounds_Done in Hm as (Hw & -> & ->).
    split; [exact Hw|].
    run_inv Hrun. run_inv Hrun.
    apply at_index_Done in Hm0 as (_ & Hreg & ->).
    exists a0. split; [exact Hreg|].
    apply emit_Done in Hrun. subst w'.
    unfold transfer_warning, out_of_bounds_diagnostic.
    destruct (Z.testbit _ _).
    + apply emit_Done in Hm. subst w0. simpl. f_equal. trace_eq.
    + apply ret_Done in Hm as [_ <-]. reflexivity.
  - intros (Hw & regId & Hreg & ->). pose proof Hw as [Hlo _].
    rewrite (bind_run _ _ _ _ _
               (proj2 (isIndexOutOfBounds_Done rawId w _ w)
                      (conj Hw (conj eq_refl eq_refl)))).
    unfold transfer_warning, out_of_bounds_diagnostic.
    destruct (Z.testbit _ _); exec;
      rewrite (at_index_run _ _ _ _ Hlo Hreg); exec; f_equal; f_equal; trace_eq.
Qed.

Lemma RawGetByte_Done rawId len w data w' :
  RawGetByte rawId len w = Done data w' <->
  valid_window rawId /\
  exists regId,
    g_RawDataReg !! Z.to_nat rawId = Some regId /\
    (Z.to_nat len <= length (inputs w))%nat /\
    data = firstn (Z.to_nat len) (inputs w) /\
    w' = mkWorld (skipn (Z.to_nat len) (inputs w))
           (trace w ++
              transfer_warning "RawGetByte" (Z.testbit (g_RawIndexPastEnd w) rawId) ++
              [EvReadArray regId len data])
           (intr_enabled w) (RawWindowState w) (g_RawIndexPastEnd w).
Proof.
  unfold RawGetByte. split.
  - intros Hrun. run_inv Hrun.
    apply isIndexOutOfBounds_Done in Hm as (Hw & -> & ->).
    split; [exact Hw|].
    run_inv Hrun. run_inv Hrun.
    apply at_index_Done in Hm0 as (_ & Hreg & ->).
    exists a0. split; [exact Hreg|].
    unfold mrf_read_array in Hrun. run_inv Hrun.
    unfold take_inputs in Hm0.
    assert (Hin : inputs w0 = inputs w /\ g_RawIndexPastEnd w0 = g_RawIndexPastEnd w /\
                  intr_enabled w0 = intr_enabled w /\
                  RawWindowState w0 = RawWindowState w /\
                  trace w0 = trace w ++
                    transfer_warning "RawGetByte" (Z.testbit (g_RawIndexPastEnd w) rawId)).
    { unfold transfer_warning, out_of_bounds_diagnostic.
      destruct (Z.testbit _ _).
      - apply emit_Done in Hm. subst w0. simpl. auto.
      - apply ret_Done in Hm as [_ <-]. rewrite app_nil_r. auto. }
    destruct Hin as (Hi & Hg & Hie & Hst & Htr).
    destruct (Nat.leb_spec (Z.to_nat len) (length (inputs w0))) as [Hle|]; [|discriminate].
    injection Hm0 as <- <-.
    exec_in Hrun. injection Hrun as <- <-.
    rewrite Hi in *. rewrite Hg, Hie, Hst, Htr.
    split; [exact Hle|]. split; [reflexivity|]. f_equal. trace_eq.
  - intros (Hw & regId & Hreg & Hle & -> & ->). pose proof Hw as [Hlo _].
    rewrite (bind_run _ _ _ _ _
               (proj2 (isIndexOutOfBounds_Done rawId w _ w)
                      (conj Hw (conj eq_refl eq_refl)))).
    unfold transfer_warning, out_of_bounds_diagnostic, mrf_read_array, take_inputs.
    apply Nat.leb_le in Hle.
    destruct (Z.testbit _ _); exec;
      rewrite (at_index_run _ _ _ _ Hlo Hreg); exec; rewrite Hle;
      f_equal; f_equal; trace_eq.
Qed.

(** *** One operation and the flag monitor *)

Lemma valid_window_bit W : valid_window W -> 0 <= W < 8.
Proof. unfold valid_window, NUM_RAW_WINDOWS. lia. Qed.

Lemma index_set_flag g rawId W (logged : bool) :
  valid_window rawId -> valid_window W ->
  Z.testbit (if logged then u8 (Z.lor g (2 ^ rawId))
             else u8 (Z.land g (Z.lnot (2 ^ rawId)))) W =
  match (if rawId =? W then Some logged else None) with
  | Some b => b
  | None => Z.testbit g W
  end.
Proof.
  intros [Hlo _] HW%valid_window_bit. rewrite (Z.eqb_sym rawId W).
  destruct logged.
  - rewrite testbit_set_flag by assumption. destruct (W =? rawId); reflexivity.
  - rewrite testbit_clear_flag by assumption. destruct (W =? rawId); reflexivity.
Qed.

Lemma transfer_warning_quiet func oob :
  String.eqb func "RawSetIndex" = false ->
  existsb is_bad_index (transfer_warning func oob) = false.
Proof. intros Hf. destruct oob; simpl; [rewrite Hf|]; reflexivity. Qed.

Lemma run_op_flag `{wf_universal_driver} o w v w' W :
  valid_window W ->
  run_op o w = Done v w' ->
  Z.testbit (g_RawIndexPastEnd w') W =
    match flag_effect W (o, v, skipn (length (trace w)) (trace w')) with
    | Some b => b
    | None => Z.testbit (g_RawIndexPastEnd w) W
    end.
Proof.
  intros HW Hrun.
  destruct o; simpl in Hrun; run_inv Hrun; apply ret_Done in Hrun as [<- <-].
  - apply same_flags_RawInit in Hm. rewrite Hm. reflexivity.
  - apply same_flags_ScratchMount in Hm. rewrite Hm. reflexivity.
  - apply same_flags_ScratchUnmount in Hm. rewrite Hm. reflexivity.
  - apply AllocateMgmtTxBuffer_flags in Hm. rewrite Hm.
    destruct a; simpl; [|reflexivity].
    rewrite testbit_clear_flag
      by (auto using valid_window_bit; unfold RAW_MGMT_TX_ID; lia).
    destruct (W =? RAW_MGMT_TX_ID); reflexivity.
  - apply same_flags_DeallocateMgmtRxBuffer in Hm. rewrite Hm. reflexivity.
  - apply same_flags_RawSetByte in Hm. rewrite Hm. reflexivity.
  - apply same_flags_RawGetByte in Hm. rewrite Hm. reflexivity.
  - apply same_flags_SendRAWManagementFrame in Hm. rewrite Hm. reflexivity.
  - apply same_flags_RawMountRxBuffer in Hm. rewrite Hm. reflexivity.
  - unfold RawRead in Hm. run_inv Hm.
    apply RawSetIndex_Done in Hm0 as (Hid & d & Hd & Hg & _ & _).
    apply RawGetByte_Done in Hm as (_ & regId & _ & _ & _ & ->). simpl.
    rewrite Hd, <- app_assoc, drop_app_length, Hg.
    unfold bad_index_logged at 2.
    rewrite existsb_app, existsb_app, transfer_warning_quiet by reflexivity.
    simpl. rewrite orb_false_r. apply index_set_flag; assumption.
  - unfold RawWrite in Hm. run_inv Hm.
    apply RawSetIndex_Done in Hm0 as (Hid & d & Hd & Hg & _ & _).
    apply RawSetByte_Done in Hm as (_ & regId & _ & ->). simpl.
    rewrite Hd, <- app_assoc, drop_app_length, Hg.
    unfold bad_index_logged at 2.
    rewrite existsb_app, existsb_app, transfer_warning_quiet by reflexivity.
    simpl. rewrite orb_false_r. apply index_set_flag; assumption.
  - apply RawSetIndex_Done in Hm as (Hid & d & Hd & Hg & _ & _). simpl.
    rewrite Hd, drop_app_length, Hg. apply index_set_flag; assumption.
  - apply same_flags_AllocateDataTxBuffer in Hm. rewrite Hm. reflexivity.
  - apply same_flags_DeallocateDataRxBuffer in Hm. rewrite Hm. reflexivity.
  - apply RawMove_same_flags in Hm. rewrite Hm. reflexivity.
  - apply same_flags_SetRawDataWindowState in Hm. rewrite Hm. reflexivity.
  - apply same_flags_GetRawDataWindowState in Hm. rewrite Hm. reflexivity.
Qed.

Lemma run_ops_flag `{wf_universal_driver} ops w log w' W :
  valid_window W ->
  run_ops ops w = Done log w' ->
  Z.testbit (g_RawIndexPastEnd w') W =
    flag_after (flag_effect W) (Z.testbit (g_RawIndexPastEnd w) W) log.
Proof.
  intros HW. revert w log.
  induction ops as [|o ops IH]; intros w log Hrun; simpl in Hrun.
  - apply ret_Done in Hrun as [<- <-]. reflexivity.
  - run_inv Hrun. injection Hm as <- <-.
    run_inv Hrun. run_inv Hrun. injection Hm0 as <- <-.
    run_inv Hrun. apply ret_Done in Hrun as [<- <-].
    apply IH in Hm0. rewrite Hm0, (run_op_flag _ _ _ _ _ HW Hm). reflexivity.
Qed.

Lemma flag_after_silent (effect : entry -> option bool) b log :
  Forall (fun e => effect e = None) log -> flag_after effect b log = b.
Proof.
  unfold flag_after. intros Hall. revert b.
  induction Hall as [|e log He _ IH]; intros b; simpl; [reflexivity|].
  rewrite He. apply IH.
Qed.


(** *** Mount states *)

Lemma SetRawDataWindowState_Done rawId st w a w' :
  SetRawDataWindowState rawId st w = Done a w' <->
  0 <= rawId /\ (Z.to_nat rawId < length (RawWindowState w))%nat /\
  w' = with_state w (<[Z.to_nat rawId := u8 st]> (RawWindowState w)).
Proof.
  unfold SetRawDataWindowState. destruct a.
  destruct (Z.leb_spec 0 rawId) as [Hlo|Hlo]; simpl.
  - destruct (Nat.ltb_spec (Z.to_nat rawId) (length (RawWindowState w))) as [Hlt|Hlt].
    + split; [intros [= <-]; auto | intros (_ & _ & ->); reflexivity].
    + split; [discriminate | intros (_ & Hlt' & _); lia].
  - split; [discriminate | intros (Hlo' & _); lia].
Qed.

Lemma GetRawDataWindowState_after_set rawId st w :
  0 <= rawId -> (Z.to_nat rawId < length (RawWindowState w))%nat ->
  let w' := with_state w (<[Z.to_nat rawId := u8 st]> (RawWindowState w)) in
  GetRawDataWindowState rawId w' = Done (u8 st) w'.
Proof.
  intros Hlo Hlt. unfold GetRawDataWindowState. simpl.
  apply at_index_run; [exact Hlo|]. apply list_lookup_insert_eq. exact Hlt.
Qed.

Lemma GetRawDataWindowState_same_state rawId v w w' :
  RawWindowState w' = RawWindowState w ->
  GetRawDataWindowState rawId w = Done v w ->
  GetRawDataWindowState rawId w' = Done v w'.
Proof.
  unfold GetRawDataWindowState. intros Hst Hget.
  apply at_index_Done in Hget as (Hlo & Hl & _).
  rewrite Hst. apply at_index_run; assumption.
Qed.

Lemma u8_small x : 0 <= x < 256 -> u8 x = x.
Proof. intros Hx. unfold u8. apply Z.mod_small. lia. Qed.

(** *** Moves *)

Lemma moves_issued_app d1 d2 :
  moves_issued (d1 ++ d2) = moves_issued d1 ++ moves_issued d2.
Proof. apply List.filter_app. Qed.

Lemma moves_issued_cons e d :
  moves_issued (e :: d) = if is_move e then e :: moves_issued d else moves_issued d.
Proof. reflexivity. Qed.

Lemma quiet_events_moves st ps : moves_issued (quiet_events st ps) = [].
Proof. induction ps as [|p ps IH]; simpl; auto. Qed.

Lemma completion_events_moves `{wf_universal_driver} intMask :
  moves_issued (completion_events intMask) = [].
Proof. unfold completion_events. destruct (_ =? _); reflexivity. Qed.

(** Every completed run of the wait loop took one of its two exits. *)
Lemma WaitForRawMoveComplete_loop_Done `{wf_universal_driver}
    fuel intMask st w a w' :
  WaitForRawMoveComplete_loop fuel intMask st w = Done a w' ->
  exists ps, forallb (quiet_poll intMask) ps = true /\
    ((exists i,
        Z.land (u32 i) intMask <> 0 /\
        inputs w = polls ps ++ i :: inputs w' /\
        w' = mkWorld (inputs w')
               (trace w ++ quiet_events st ps ++
                  EvReadByte MRF24_REG_INTR i :: completion_events intMask)
               (intr_enabled w) (RawWindowState w) (g_RawIndexPastEnd w)) \/
     (exists i dt,
        Z.land (u32 i) intMask = 0 /\ 20 < dt /\
        inputs w = polls ps ++ i :: dt :: inputs w' /\
        w' = mkWorld (inputs w')
               (trace w ++ quiet_events st ps ++
                  [EvReadByte MRF24_REG_INTR i; EvTimerElapsed st dt;
                   timeout_diagnostic])
               (intr_enabled w) (RawWindowState w) (g_RawIndexPastEnd w))).
Proof.
  revert w w'. induction fuel as [|fuel IH]; intros w w' Hrun; [discriminate|].
  destruct w as [inp tr ie ws g]. simpl in Hrun.
  destruct inp as [|i inp]; [discriminate|].
  unfold bind at 1, mrf_read_byte at 1 in Hrun. exec_in Hrun.
  destruct (Z.eqb_spec (Z.land (u32 i) intMask) 0) as [Hi|Hi]; simpl in Hrun.
  - destruct inp as [|dt inp]; [discriminate|]. simpl in Hrun.
    destruct (Z.gtb_spec dt 20) as [Hdt|Hdt].
    + injection Hrun as Hrun. subst w'.
      exists []. split; [reflexivity|]. right.
      exists i, dt. simpl. repeat split; auto. f_equal. trace_eq.
    + apply IH in Hrun as (ps & Hq & Hexit). simpl in Hexit.
      exists ((i, dt) :: ps). split.
      { simpl. rewrite Hq, andb_true_r. unfold quiet_poll. simpl.
        apply andb_true_iff. split; [apply Z.eqb_eq; exact Hi|].
        apply negb_true_iff. destruct (Z.gtb_spec dt 20); [lia | reflexivity]. }
      destruct Hexit as [(i1 & Hi1 & Hin & ->)|(i1 & dt1 & Hi1 & Hdt1 & Hin & ->)];
        [left; exists i1 | right; exists i1, dt1]; simpl;
        rewrite Hin; repeat split; auto; f_equal; trace_eq.
  - exists []. split; [reflexivity|]. left. exists i.
    split; [exact Hi|]. unfold completion_events.
    destruct (intMask =? u32 INTR_INT2); exec_in Hrun;
      injection Hrun as Hrun; subst w'; simpl; split; auto; f_equal; trace_eq.
Qed.

(** A completed wait started no move. *)
Lemma WaitForRawMoveComplete_moves `{wf_universal_driver} rawId w n w' :
  WaitForRawMoveComplete rawId w = Done n w' ->
  exists d, trace w' = trace w ++ d /\ moves_issued d = [].
Proof.
  unfold WaitForRawMoveComplete. cbv zeta. intros Hrun.
  run_inv Hrun. unfold mrf_timer_read in Hm. exec_in Hm.
  destruct (inputs w) as [|t0 inp]; [discriminate|].
  injection Hm as <- <-.
  run_inv Hrun. injection Hm as _ <-.
  run_inv Hrun. apply WaitForRawMoveComplete_loop_Done in Hm as (ps & _ & Hexit).
  run_inv Hrun. apply at_index_Done in Hm as (_ & _ & ->).
  run_inv Hrun. unfold mrf_read in Hm. exec_in Hm.
  destruct (inputs w0) as [|v inp0] eqn:Hinp0; [discriminate|].
  injection Hm as <- <-. apply ret_Done in Hrun as [_ <-]. simpl.
  destruct Hexit as [(i & _ & _ & ->)|(i & dt & _ & _ & _ & ->)]; simpl;
    eexists; (split; [rewrite <- !app_assoc; simpl; reflexivity|]);
    repeat (rewrite moves_issued_cons || rewrite moves_issued_app); simpl;
    rewrite quiet_events_moves, ?completion_events_moves; reflexivity.
Qed.

Lemma ctrl0_lookup n r : g_RawCtrl0Reg !! n = Some r -> is_ctrl0 r = true.
Proof.
  do 6 (destruct n as [|n]; [intros [= <-]; reflexivity|]). discriminate.
Qed.

Lemma RawMove_clear_no_move rawId m : is_move (RawMove_clear rawId m) = false.
Proof. unfold RawMove_clear. destruct (rawId <=? 1); reflexivity. Qed.

(** A completed [RawMove] started exactly one move: its own. *)
Lemma RawMove_moves `{wf_universal_driver} rawId srcDest dst size w n w' :
  RawMove rawId srcDest dst size w = Done n w' ->
  exists regId d,
    g_RawCtrl0Reg !! Z.to_nat rawId = Some regId /\
    trace w' = trace w ++ d /\
    moves_issued d = [EvWrite regId (RawMove_ctrlVal srcDest dst size)].
Proof.
  intros Hrun.
  apply RawMove_Done in Hrun
    as (mask & regId & m & w2 & _ & _ & Hreg & Hwait & _ & ->).
  apply WaitForRawMoveComplete_moves in Hwait as (d & Hd & Hmoves).
  simpl in Hd. exists regId.
  unfold RawMove_restored. destruct (intr_enabled w); simpl;
    eexists; (split; [exact Hreg|]);
    (split; [rewrite Hd, <- !app_assoc; simpl; reflexivity|]);
    repeat (rewrite moves_issued_cons || rewrite moves_issued_app); simpl;
    rewrite RawMove_clear_no_move, (ctrl0_lookup _ _ Hreg), Hmoves; reflexivity.
Qed.

(** *** The control value *)

Lemma testbit_0x8000 i : Z.testbit 0x8000 i = (i =? 15).
Proof.
  destruct (Z.ltb_spec i 0) as [Hneg|Hpos].
  - rewrite Z.testbit_neg_r by exact Hneg. symmetry. apply Z.eqb_neq. lia.
  - change 0x8000 with (2 ^ 15). rewrite Z.pow2_bits_eqb by lia. apply Z.eqb_sym.
Qed.

Lemma testbit_low_mask k i :
  0 <= k -> Z.testbit (Z.ones k) i = (0 <=? i) && (i <? k).
Proof. intros Hk. apply Z.testbit_ones. exact Hk. Qed.

Lemma testbit_0x0f i : Z.testbit 0x0f i = (0 <=? i) && (i <? 4).
Proof. change 0x0f with (Z.ones 4). apply testbit_low_mask. lia. Qed.

Lemma testbit_0xff i : Z.testbit 0x00ff i = (0 <=? i) && (i <? 8).
Proof. change 0x00ff with (Z.ones 8). apply testbit_low_mask. lia. Qed.

(** Bit [i] of the control value, for the sixteen bits it has. *)
Lemma RawMove_ctrlVal_testbit srcDest (dst : bool) size i :
  0 <= i < 16 ->
  Z.testbit (RawMove_ctrlVal srcDest dst size) i =
    (dst && (i =? 15)) || Z.testbit srcDest (i - 8) ||
    ((8 <=? i) && (i <? 12) && Z.testbit size i) ||
    ((i <? 8) && Z.testbit size i).
Proof.
  intros Hi. unfold RawMove_ctrlVal, u16.
  repeat first [rewrite Z.mod_pow2_bits_low by lia | rewrite Z.lor_spec].
  rewrite !Z.shiftl_spec by lia. rewrite !Z.land_spec.
  rewrite testbit_0x0f, testbit_0xff.
  assert (Hc0 : Z.testbit (if dst then (Z.lor 0 0x8000) mod 2 ^ 16 else 0) i
                = dst && (i =? 15)).
  { destruct dst; [|apply Z.bits_0].
    rewrite Z.mod_pow2_bits_low, Z.lor_spec, Z.bits_0, testbit_0x8000 by lia.
    reflexivity. }
  rewrite Hc0.
  destruct (Z.ltb_spec i 8) as [Hlo|Hhi].
  - rewrite (Z.testbit_neg_r (Z.shiftr size 8)) by lia.
    destruct (Z.leb_spec 8 i); [lia|].
    destruct (Z.leb_spec 0 i); [|lia]. simpl.
    destruct dst, (i =? 15), (Z.testbit srcDest (i - 8)), (Z.testbit size i);
      reflexivity.
  - rewrite Z.shiftr_spec by lia. replace (i - 8 + 8) with i by lia.
    destruct (Z.leb_spec 8 i); [|lia].
    destruct (Z.leb_spec 0 (i - 8)); [|lia].
    destruct (Z.leb_spec 0 i); [|lia].
    replace (i - 8 <? 4) with (i <? 12)
      by (destruct (Z.ltb_spec (i - 8) 4), (Z.ltb_spec i 12); lia || reflexivity).
    simpl.
    destruct dst, (i =? 15), (Z.testbit srcDest (i - 8)), (Z.testbit size i),
             (i <? 12); reflexivity.
Qed.

Lemma RawMove_ctrlVal_range srcDest dst size :
  0 <= RawMove_ctrlVal srcDest dst size < 2 ^ 16.
Proof. unfold RawMove_ctrlVal, u16. apply Z.mod_pos_bound. lia. Qed.

Lemma pool_selector_bits srcDest j :
  pool_selector srcDest ->
  Z.testbit srcDest j = (4 <=? j) && (j <? 7) && Z.testbit srcDest j.
Proof.
  intros [[Hlo Hhi] Hnib].
  destruct (Z.leb_spec 4 j) as [H4|H4]; simpl.
  - destruct (Z.ltb_spec j 7) as [H7|H7]; simpl; [reflexivity|].
    rewrite <- (Z.mod_small srcDest (2 ^ 7)) by lia.
    apply Z.mod_pow2_bits_high. lia.
  - destruct (Z.ltb_spec j 0) as [Hneg|Hpos]; [apply Z.testbit_neg_r; exact Hneg|].
    assert (Hbit : Z.testbit (Z.land srcDest 0x0f) j = false)
      by (rewrite Hnib; apply Z.bits_0).
    rewrite Z.land_spec, testbit_0x0f in Hbit.
    destruct (Z.leb_spec 0 j); [|lia]. destruct (Z.ltb_spec j 4); [|lia].
    simpl in Hbit. rewrite andb_true_r in Hbit. exact Hbit.
Qed.

Lemma testbit_0x70 j : Z.testbit 0x70 j = (4 <=? j) && (j <? 7).
Proof.
  destruct (Z.ltb_spec j 0) as [Hneg|Hpos].
  - rewrite Z.testbit_neg_r by exact Hneg.
    destruct (Z.leb_spec 4 j); [lia | reflexivity].
  - change 0x70 with (Z.shiftl (Z.ones 3) 4).
    rewrite Z.shiftl_spec, testbit_low_mask by lia.
    destruct (Z.leb_spec 0 (j - 4)), (Z.leb_spec 4 j), (Z.ltb_spec (j - 4) 3),
             (Z.ltb_spec j 7); lia || reflexivity.
Qed.

Ltac compare_all :=
  repeat match goal with
         | |- context [?a <? ?b] => destruct (Z.ltb_spec a b)
         | |- context [?a <=? ?b] => destruct (Z.leb_spec a b)
         | |- context [?a =? ?b] => destruct (Z.eqb_spec a b)
         end;
  try lia; simpl.

(** The four fields of the control value of a move on a pool selector. *)
Lemma RawMove_ctrlVal_fields srcDest dst size :
  pool_selector srcDest ->
  Z.testbit (RawMove_ctrlVal srcDest dst size) 15 = dst /\
  Z.land (Z.shiftr (RawMove_ctrlVal srcDest dst size) 8) 0x70 = srcDest /\
  Z.land (Z.shiftr (RawMove_ctrlVal srcDest dst size) 8) 0x0f
    = Z.land (Z.shiftr size 8) 0x0f /\
  Z.land (RawMove_ctrlVal srcDest dst size) 0xff = Z.land size 0xff.
Proof.
  intros Hpool. repeat split.
  - rewrite RawMove_ctrlVal_testbit by lia.
    rewrite (pool_selector_bits _ _ Hpool). simpl.
    destruct dst; reflexivity.
  - apply Z.bits_inj'. intros j Hj.
    rewrite Z.land_spec, Z.shiftr_spec, testbit_0x70 by exact Hj.
    rewrite (pool_selector_bits _ j Hpool).
    destruct (Z.leb_spec 4 j); [|rewrite andb_false_r; reflexivity].
    destruct (Z.ltb_spec j 7); [|rewrite andb_false_r; reflexivity].
    rewrite RawMove_ctrlVal_testbit by lia. replace (j + 8 - 8) with j by lia.
    compare_all. destruct dst, (Z.testbit srcDest j); reflexivity.
  - apply Z.bits_inj'. intros j Hj.
    rewrite !Z.land_spec, !Z.shiftr_spec, testbit_0x0f by exact Hj.
    destruct (Z.ltb_spec j 4); [|rewrite !andb_false_r; reflexivity].
    rewrite RawMove_ctrlVal_testbit by lia. replace (j + 8 - 8) with j by lia.
    rewrite (pool_selector_bits _ j Hpool).
    compare_all. destruct dst, (Z.testbit size (j + 8)); reflexivity.
  - apply Z.bits_inj'. intros j Hj.
    rewrite !Z.land_spec. change 0xff with 0x00ff. rewrite testbit_0xff.
    destruct (Z.ltb_spec j 8); [|rewrite !andb_false_r; reflexivity].
    rewrite RawMove_ctrlVal_testbit by lia.
    rewrite (Z.testbit_neg_r srcDest) by lia.
    compare_all. destruct dst, (Z.testbit size j); reflexivity.
Qed.

(** *** Successful allocations *)

Lemma mrf_read_Done r w v w' :
  mrf_read r w = Done v w' ->
  exists rest,
    inputs w = v :: rest /\
    w' = mkWorld rest (trace w ++ [EvRead r v]) (intr_enabled w)
                 (RawWindowState w) (g_RawIndexPastEnd w).
Proof.
  unfold mrf_read. intros Hrun. exec_in Hrun.
  destruct (inputs w) as [|v0 inp]; [discriminate|].
  injection Hrun as <- <-. eauto.
Qed.

Lemma AllocateMgmtTxBuffer_true `{wf_universal_driver} n w w' :
  AllocateMgmtTxBuffer n w = Done true w' ->
  exists v d,
    inputs w = v :: skipn 1 (inputs w) /\
    n <= u16 (Z.land v FIFO_BCNT_MASK) /\
    trace w' = trace w ++ EvRead MRF24_REG_WFIFO_BCNT1 v :: d /\
    moves_issued d =
      [EvWrite MRF24_REG_RAW3_CTRL0 (RawMove_ctrlVal RAW_MGMT_POOL true n)].
Proof.
  unfold AllocateMgmtTxBuffer. cbv zeta. intros Hrun.
  run_inv Hrun. apply mrf_read_Done in Hm as (rest & Hin & ->).
  exists a. rewrite Hin. simpl.
  destruct (Z.geb_spec (u16 (Z.land a FIFO_BCNT_MASK)) n) as [Hge|Hlt].
  - run_inv Hrun. destruct (a0 =? 0).
    { apply ret_Done in Hrun as [[=] _]. }
    run_inv Hrun. apply ret_Done in Hrun as [_ <-].
    apply ClearIndexOutOfBoundsFlag_Done in Hm0 as [_ ->].
    apply RawMove_moves in Hm as (regId & d & Hreg & Hd & Hmoves).
    injection Hreg as <-. simpl in *. exists d.
    rewrite Hd, <- app_assoc. repeat split; auto; lia.
  - run_inv Hrun. apply ret_Done in Hrun as [[=] _].
Qed.

Lemma AllocateDataTxBuffer_true `{wf_universal_driver} n w w' :
  AllocateDataTxBuffer n w = Done true w' ->
  exists v d,
    inputs w = v :: skipn 1 (inputs w) /\
    n <= u16 (Z.land v FIFO_BCNT_MASK) /\
    trace w' = trace w ++ EvRead MRF24_REG_WFIFO_BCNT0 v :: d /\
    moves_issued d =
      [EvWrite MRF24_REG_RAW1_CTRL0 (RawMove_ctrlVal RAW_DATA_POOL true n)].
Proof.
  unfold AllocateDataTxBuffer. cbv zeta. intros Hrun.
  run_inv Hrun. apply mrf_read_Done in Hm as (rest & Hin & ->).
  exists a. rewrite Hin. simpl.
  destruct (Z.ltb_spec (u16 (Z.land a FIFO_BCNT_MASK)) n) as [Hlt|Hge].
  { apply ret_Done in Hrun as [[=] _]. }
  run_inv Hrun. destruct (a0 =? 0).
  { run_inv Hrun. apply ret_Done in Hrun as [[=] _]. }
  run_inv Hrun. apply ret_Done in Hrun as [_ <-].
  apply SetRawDataWindowState_Done in Hm0 as (_ & _ & ->).
  apply RawMove_moves in Hm as (regId & d & Hreg & Hd & Hmoves).
  injection Hreg as <-. simpl in *. exists d.
  rewrite Hd, <- app_assoc. repeat split; auto.
Qed.

(** *** Fuel

    The loops are started with the length of the tape as fuel.  That is
    all they can use: with any fuel that covers the tape they do the
    same. *)

Lemma RawSetIndex_loop_fuel f1 f2 rawId idx regId st w :
  (length (inputs w) <= f1)%nat -> (length (inputs w) <= f2)%nat ->
  RawSetIndex_loop f1 rawId idx regId st w =
  RawSetIndex_loop f2 rawId idx regId st w.
Proof.
  revert f2 w. induction f1 as [|f1 IH]; intros f2 w H1 H2;
    destruct w as [inp tr ie ws g]; simpl in H1, H2.
  - destruct inp; [|simpl in H1; lia].
    destruct f2; reflexivity.
  - destruct f2 as [|f2].
    { destruct inp; [reflexivity | simpl in H2; lia]. }
    simpl. destruct inp as [|s inp]; [reflexivity|].
    exec. destruct (_ =? 0); [reflexivity|].
    destruct inp as [|dt inp]; [reflexivity|]. simpl.
    destruct (dt >? 5); [reflexivity|].
    apply IH; simpl in *; lia.
Qed.

Lemma WaitForRawMoveComplete_loop_fuel `{wf_universal_driver}
    f1 f2 intMask st w :
  (length (inputs w) <= f1)%nat -> (length (inputs w) <= f2)%nat ->
  WaitForRawMoveComplete_loop f1 intMask st w =
  WaitForRawMoveComplete_loop f2 intMask st w.
Proof.
  revert f2 w. induction f1 as [|f1 IH]; intros f2 w H1 H2;
    destruct w as [inp tr ie ws g]; simpl in H1, H2.
  - destruct inp; [|simpl in H1; lia].
    destruct f2; reflexivity.
  - destruct f2 as [|f2].
    { destruct inp; [reflexivity | simpl in H2; lia]. }
    simpl. destruct inp as [|i inp]; [reflexivity|].
    exec. destruct (_ =? 0); simpl; [|reflexivity].
    destruct inp as [|dt inp]; [reflexivity|]. simpl.
    destruct (dt >? 20); [reflexivity|].
    apply IH; simpl in *; lia.
Qed.

(** ** Claims *)

(** C4.  Whatever the interrupt-enable state is when [RawMove] is entered,
    it is the same when [RawMove] returns.  On the way the move first
    disables the interrupt, issues the control write with the interrupt
    off, re-enables it before it waits for completion (the whole wait runs
    with the interrupt on), and disables it once more at exit exactly when
    it was disabled at entry. *)
Theorem RawMove_restores_interrupt_state `{wf_universal_driver}
    rawId srcDest rawIsDestination size w n w' :
  RawMove rawId srcDest rawIsDestination size w = Done n w' ->
  intr_enabled w' = intr_enabled w /\
  exists clr regId w1 m w2,
    trace w1 = trace w ++ [EvIntrDisable (intr_enabled w); clr;
                           EvWrite regId (RawMove_ctrlVal srcDest rawIsDestination size);
                           EvIntrEnable] /\
    intr_enabled w1 = true /\
    WaitForRawMoveComplete rawId w1 = Done m w2 /\
    intr_enabled w2 = true /\
    trace w' = trace w2 ++ (if intr_enabled w then [] else [EvIntrDisable true]).
Proof.
  intros Hrun.
  apply RawMove_Done in Hrun
    as (mask & regId & m & w2 & _ & _ & _ & Hwait & _ & ->).
  pose proof (WaitForRawMoveComplete_same_intr _ _ _ _ Hwait) as Hsame.
  unfold same in Hsame. simpl in Hsame.
  split.
  - unfold RawMove_restored. destruct (intr_enabled w); [exact Hsame | reflexivity].
  - eexists _, _, _, _, _. split; [|split; [|split; [exact Hwait|split; [exact Hsame|]]]];
      [reflexivity | reflexivity |].
    unfold RawMove_restored. destruct (intr_enabled w); simpl.
    + symmetry. apply app_nil_r.
    + rewrite Hsame. reflexivity.
Qed.


Lemma RawMove_restores_interrupt_state_witness :
  (exists n w',
     @RawMove mrf24wg RAW_MGMT_TX_ID 0x10 true 50 (boot [7; 1; 50] false) = Done n w' /\
     intr_enabled w' = false) /\
  (exists n w',
     @RawMove mrf24wg RAW_DATA_RX_ID 0x20 false 0 (boot [7; 0; 3; 2; 0] true) = Done n w' /\
     intr_enabled w' = true).
Proof.
  split; eexists _, _.
  - split; [vm_compute; reflexivity|].
    refine (proj1 (@RawMove_restores_interrupt_state mrf24wg
                    RAW_MGMT_TX_ID 0x10 true 50 (boot [7; 1; 50] false) _ _ _)).
    vm_compute. reflexivity.
  - split; [vm_compute; reflexivity|].
    refine (proj1 (@RawMove_restores_interrupt_state mrf24wg
                    RAW_DATA_RX_ID 0x20 false 0 (boot [7; 0; 3; 2; 0] true) _ _ _)).
    vm_compute. reflexivity.
Defined.

(** C6.  When the awaited interrupt bit does not show in any poll until
    more than 20 time units have elapsed, the move is not fatal: [RawMove]
    returns (no fault), the timeout diagnostic is logged, and the value
    returned is the one read from the window's CTRL1 (byte count) register
    right after the diagnostic, narrowed to the [u_int16_t] result type
    (unchanged when the register value fits 16 bits). *)
Theorem RawMove_timeout_is_not_fatal `{wf_universal_driver}
    rawId srcDest rawIsDestination size w t0 ps i dt v rest :
  valid_window rawId ->
  inputs w = t0 :: polls ps ++ i :: dt :: v :: rest ->
  forallb (quiet_poll (WaitForRawMoveComplete_intMask rawId)) ps = true ->
  Z.land (u32 i) (WaitForRawMoveComplete_intMask rawId) = 0 ->
  20 < dt ->
  exists mask regId0 regId1 w',
    g_RawIntMask !! Z.to_nat rawId = Some mask /\
    g_RawCtrl0Reg !! Z.to_nat rawId = Some regId0 /\
    g_RawCtrl1Reg !! Z.to_nat rawId = Some regId1 /\
    RawMove rawId srcDest rawIsDestination size w = Done (u16 (u32 v)) w' /\
    (0 <= v < 2 ^ 16 -> u16 (u32 v) = v) /\
    inputs w' = rest /\
    trace w' =
      trace w ++
      [EvIntrDisable (intr_enabled w); RawMove_clear rawId mask;
       EvWrite regId0 (RawMove_ctrlVal srcDest rawIsDestination size);
       EvIntrEnable; EvTimerRead t0] ++
      quiet_events (u32 t0) ps ++
      [EvReadByte MRF24_REG_INTR i; EvTimerElapsed (u32 t0) dt;
       timeout_diagnostic; EvRead regId1 v] ++
      (if intr_enabled w then [] else [EvIntrDisable true]).
Proof.
  intros Hwin Hin Hq Hi Hdt.
  destruct (window_lookup g_RawIntMask rawId eq_refl Hwin) as (Hid & mask & Hmask).
  destruct (window_lookup g_RawCtrl0Reg rawId eq_refl Hwin) as (_ & regId0 & Hreg0).
  destruct (window_lookup g_RawCtrl1Reg rawId eq_refl Hwin) as (_ & regId1 & Hreg1).
  exists mask, regId0, regId1.
  pose proof (WaitForRawMoveComplete_timeout rawId regId1 t0 ps i dt v rest
                (trace w ++ [EvIntrDisable (intr_enabled w); RawMove_clear rawId mask;
                             EvWrite regId0 (RawMove_ctrlVal srcDest rawIsDestination size);
                             EvIntrEnable])
                true (RawWindowState w) (g_RawIndexPastEnd w)
                Hid Hreg1 Hq Hi Hdt) as Hwait.
  rewrite <- Hin in Hwait.
  eexists. do 3 (split; [eassumption|]).
  split.
  { apply RawMove_Done. exists mask, regId0. eexists _, _.
    do 3 (split; [eassumption|]).
    split; [exact Hwait|]. split; reflexivity. }
  split.
  { intros Hv. unfold u16, u32. rewrite (Z.mod_small v (2 ^ 32)) by lia.
    apply Z.mod_small. lia. }
  unfold RawMove_restored.
  destruct (intr_enabled w); simpl; split; try reflexivity;
    rewrite <- ?app_assoc; simpl; rewrite <- ?app_assoc; simpl;
    rewrite ?app_nil_r; reflexivity.
Qed.

Lemma RawMove_timeout_is_not_fatal_witness :
  exists w',
    @RawMove mrf24wg RAW_MGMT_RX_ID 0x10 false 0
       (boot [7; 0; 3; 0; 12; 0; 25; 9] true) = Done 9 w' /\
    In timeout_diagnostic (trace w').
Proof.
  destruct (@RawMove_timeout_is_not_fatal mrf24wg RAW_MGMT_RX_ID 0x10 false 0
              (boot [7; 0; 3; 0; 12; 0; 25; 9] true) 7 [(0, 3); (0, 12)] 0 25 9 [])
    as (mask & regId0 & regId1 & w' & _ & _ & _ & Hrun & _ & _ & Htrace).
  - unfold valid_window, RAW_MGMT_RX_ID, NUM_RAW_WINDOWS. lia.
  - reflexivity.
  - vm_compute. reflexivity.
  - vm_compute. reflexivity.
  - lia.
  - exists w'. split; [exact Hrun|].
    rewrite Htrace. apply in_or_app. right.
    apply in_or_app. right. apply in_or_app. right.
    simpl. auto.
Defined.

(** C10.  A [RawSetIndex] on window [rawId] leaves the out-of-bounds flag
    of every other window [rawId'] as it was, whichever way the call ends:
    the two windows have masks without a common bit, and the call changes
    no bit of the flag byte but the one of [rawId]. *)
Theorem RawSetIndex_keeps_other_flags rawId rawId' index w a w' :
  valid_window rawId' -> rawId <> rawId' ->
  RawSetIndex rawId index w = Done a w' ->
  (exists b, isIndexOutOfBounds rawId' w = Done b w /\
             isIndexOutOfBounds rawId' w' = Done b w') /\
  (exists m m', g_RawAccessOutOfBoundsMask !! Z.to_nat rawId = Some m /\
                g_RawAccessOutOfBoundsMask !! Z.to_nat rawId' = Some m' /\
                Z.land m m' = 0) /\
  (forall i, 0 <= i < 8 -> i <> rawId ->
             Z.testbit (g_RawIndexPastEnd w') i = Z.testbit (g_RawIndexPastEnd w) i).
Proof.
  intros Hw' Hne Hrun.
  apply RawSetIndex_Done in Hrun as (Hw & d & _ & Hg & _ & _).
  assert (Hbits : forall i, 0 <= i < 8 -> i <> rawId ->
            Z.testbit (g_RawIndexPastEnd w') i = Z.testbit (g_RawIndexPastEnd w) i).
  { intros i Hi Hir. rewrite Hg. pose proof Hw as [Hlo _].
    destruct (bad_index_logged d).
    - rewrite testbit_set_flag by assumption.
      destruct (Z.eqb_spec i rawId); [contradiction | reflexivity].
    - rewrite testbit_clear_flag by assumption.
      destruct (Z.eqb_spec i rawId); [contradiction | reflexivity]. }
  split; [|split; [|exact Hbits]].
  - exists (Z.testbit (g_RawIndexPastEnd w) rawId'). split.
    + apply isIndexOutOfBounds_Done. auto.
    + apply isIndexOutOfBounds_Done. split; [exact Hw'|]. split; [|reflexivity].
      symmetry. apply Hbits; [|congruence].
      unfold valid_window, NUM_RAW_WINDOWS in Hw'. lia.
  - exists (2 ^ rawId), (2 ^ rawId').
    split; [apply mask_lookup_valid; exact Hw|].
    split; [apply mask_lookup_valid; exact Hw'|].
    pose proof Hw as [Hlo _]. pose proof Hw' as [Hlo' _].
    rewrite land_pow2 by exact Hlo'.
    rewrite Z.pow2_bits_eqb by exact Hlo.
    destruct (Z.eqb_spec rawId rawId'); [contradiction | reflexivity].
Qed.

Lemma RawSetIndex_keeps_other_flags_witness :
  exists w',
    RawSetIndex RAW_MGMT_TX_ID 100 (boot [7; 1; 2; 1; 6] true) = Done tt w' /\
    exists b,
      isIndexOutOfBounds RAW_DATA_TX_ID (boot [7; 1; 2; 1; 6] true)
        = Done b (boot [7; 1; 2; 1; 6] true) /\
      isIndexOutOfBounds RAW_DATA_TX_ID w' = Done b w'.
Proof.
  eexists. split; [vm_compute; reflexivity|].
  refine (proj1 (RawSetIndex_keeps_other_flags RAW_MGMT_TX_ID RAW_DATA_TX_ID 100
                   (boot [7; 1; 2; 1; 6] true) tt _ _ _ _)).
  - unfold valid_window, RAW_DATA_TX_ID, NUM_RAW_WINDOWS. lia.
  - discriminate.
  - vm_compute. reflexivity.
Defined.

(** C8.  A byte write or byte read on a window goes through whatever the
    out-of-bounds flag [oob] of the window says: when the flag is set the
    diagnostic is logged first, and in both cases the transfer primitive is
    then called on the window's data register with the caller's buffer and
    the full [length]; a read hands back [length] bytes.  The flag neither
    prevents nor shortens the transfer. *)
Theorem byte_transfer_ignores_flag rawId (p_buffer : list Z) length oob w :
  isIndexOutOfBounds rawId w = Done oob w ->
  0 <= length ->
  exists regId,
    g_RawDataReg !! Z.to_nat rawId = Some regId /\
    (exists w',
       RawSetByte rawId p_buffer length w = Done tt w' /\
       trace w' = trace w ++ transfer_warning "RawSetByte" oob ++
                    [EvWriteArray regId p_buffer length]) /\
    ((Z.to_nat length <= List.length (inputs w))%nat ->
     exists data w',
       RawGetByte rawId length w = Done data w' /\
       Z.of_nat (List.length data) = length /\
       trace w' = trace w ++ transfer_warning "RawGetByte" oob ++
                    [EvReadArray regId length data]) /\
    transfer_warning "RawSetByte" true = [out_of_bounds_diagnostic "RawSetByte"] /\
    transfer_warning "RawGetByte" true = [out_of_bounds_diagnostic "RawGetByte"].
Proof.
  intros Hoob Hlen.
  apply isIndexOutOfBounds_Done in Hoob as (Hw & -> & _).
  destruct (window_lookup g_RawDataReg rawId eq_refl Hw) as (_ & regId & Hreg).
  exists regId. split; [exact Hreg|]. split; [|split; [|split; reflexivity]].
  - eexists. split.
    + apply RawSetByte_Done. split; [exact Hw|].
      exists regId. split; [exact Hreg | reflexivity].
    + reflexivity.
  - intros Hle. eexists _, _. split; [|split].
    + apply RawGetByte_Done. split; [exact Hw|].
      exists regId. do 2 (split; [eassumption|]). split; reflexivity.
    + rewrite length_firstn. lia.
    + reflexivity.
Qed.

Lemma byte_transfer_ignores_flag_witness :
  exists w' w'',
    RawSetByte RAW_MGMT_TX_ID [10; 20; 30] 3
      (mkWorld [1; 2; 3; 4] [] true [0; 0] 0x08) = Done tt w' /\
    trace w' = [out_of_bounds_diagnostic "RawSetByte";
                EvWriteArray MRF24_REG_RAW3_DATA [10; 20; 30] 3] /\
    RawGetByte RAW_MGMT_TX_ID 3
      (mkWorld [1; 2; 3; 4] [] true [0; 0] 0x08) = Done [1; 2; 3] w'' /\
    trace w'' = [out_of_bounds_diagnostic "RawGetByte";
                 EvReadArray MRF24_REG_RAW3_DATA 3 [1; 2; 3]].
Proof.
  destruct (byte_transfer_ignores_flag RAW_MGMT_TX_ID [10; 20; 30] 3 true
              (mkWorld [1; 2; 3; 4] [] true [0; 0] 0x08))
    as (regId & Hreg & (w' & Hset & Htr) & Hget & _).
  - vm_compute. reflexivity.
  - lia.
  - destruct Hget as (data & w'' & Hget & _ & Htr'); [simpl; lia|].
    injection Hreg as <-.
    assert (Hdata : data = [1; 2; 3]).
    { vm_compute in Hget. injection Hget as <- _. reflexivity. }
    subst data. exists w', w''. auto.
Defined.

(** C2, as stated, fails: here the most recent [RawSetIndex] on the
    management Tx window timed out, so a monitor that listens to index-set
    operations only predicts a set flag; but the [AllocateMgmtTxBuffer]
    that followed returned true and cleared it (line 211). *)
Lemma flag_changed_without_index_set :
  exists log w',
    @run_ops mrf24wg
       [OpRawSetIndex RAW_MGMT_TX_ID 100; OpAllocateMgmtTxBuffer 50]
       (boot [7; 1; 6; 100; 7; 1; 50] true) = Done log w' /\
    flag_after (index_set_effect RAW_MGMT_TX_ID) false log = true /\
    isIndexOutOfBounds RAW_MGMT_TX_ID w' = Done false w'.
Proof.
  eexists _, _. split; [vm_compute; reflexivity|].
  split; vm_compute; reflexivity.
Qed.

(** C2, amended.  After any sequence of module operations the
    out-of-bounds flag of a window [W] is what the last operation with a
    say on it left: an index-set on [W] ([RawSetIndex], or a [RawRead] or
    [RawWrite], which begin with one) leaves it set when it timed out and
    clear when it completed, a successful [AllocateMgmtTxBuffer] leaves the
    flag of the management Tx window clear, and no other operation changes
    it.  Before any such operation the flag is as it was at the start,
    which is clear for the zero-initialised flag byte. *)
Theorem flag_reflects_last_index_set_or_allocation `{wf_universal_driver}
    ops w log w' W :
  valid_window W ->
  run_ops ops w = Done log w' ->
  exists b0,
    isIndexOutOfBounds W w = Done b0 w /\
    (g_RawIndexPastEnd w = 0 -> b0 = false) /\
    isIndexOutOfBounds W w' = Done (flag_after (flag_effect W) b0 log) w'.
Proof.
  intros HW Hrun. exists (Z.testbit (g_RawIndexPastEnd w) W).
  split; [apply isIndexOutOfBounds_Done; auto|]. split.
  - intros ->. apply Z.bits_0.
  - apply isIndexOutOfBounds_Done. split; [exact HW|]. split; [|reflexivity].
    symmetry. eapply run_ops_flag; eassumption.
Qed.

Lemma flag_reflects_last_index_set_or_allocation_witness :
  exists log w',
    @run_ops mrf24wg
       [OpRawSetIndex RAW_MGMT_TX_ID 100; OpRawMountRxBuffer RAW_DATA_RX_ID;
        OpAllocateMgmtTxBuffer 50; OpRawWrite RAW_MGMT_TX_ID 4000 2 [1; 2]]
       (boot [7; 1; 6; 3; 2; 128; 100; 7; 1; 50; 11; 1; 9] true) = Done log w' /\
    flag_after (flag_effect RAW_MGMT_TX_ID) false log = true /\
    isIndexOutOfBounds RAW_MGMT_TX_ID w' = Done true w'.
Proof.
  destruct (@run_ops mrf24wg
              [OpRawSetIndex RAW_MGMT_TX_ID 100; OpRawMountRxBuffer RAW_DATA_RX_ID;
               OpAllocateMgmtTxBuffer 50; OpRawWrite RAW_MGMT_TX_ID 4000 2 [1; 2]]
              (boot [7; 1; 6; 3; 2; 128; 100; 7; 1; 50; 11; 1; 9] true))
    as [log w'|f] eqn:Hrun; [|vm_compute in Hrun; discriminate].
  exists log, w'. split; [reflexivity|].
  destruct (@flag_reflects_last_index_set_or_allocation mrf24wg _ _ _ _
              RAW_MGMT_TX_ID ltac:(unfold valid_window, RAW_MGMT_TX_ID,
                                     NUM_RAW_WINDOWS; lia) Hrun)
    as (b0 & Hb0 & _ & Hflag).
  vm_compute in Hb0. injection Hb0 as <-.
  vm_compute in Hrun. injection Hrun as <- <-.
  split; [vm_compute; reflexivity | exact Hflag].
Defined.

(** C5, as stated, fails on its last part: after this [RawSetIndex] on the
    management Tx window timed out and set the flag, no [RawSetIndex] (nor
    any other index-set) on the window followed, and yet the flag is clear:
    the [AllocateMgmtTxBuffer] that returned true cleared it. *)
Lemma flag_cleared_before_next_index_set :
  exists w1 log w2,
    RawSetIndex RAW_MGMT_TX_ID 2000 (boot [0; 1; 9; 64; 0; 1; 32] false)
      = Done tt w1 /\
    isIndexOutOfBounds RAW_MGMT_TX_ID w1 = Done true w1 /\
    @run_ops mrf24wg [OpAllocateMgmtTxBuffer 32] w1 = Done log w2 /\
    Forall (fun e => index_set_effect RAW_MGMT_TX_ID e = None) log /\
    isIndexOutOfBounds RAW_MGMT_TX_ID w2 = Done false w2.
Proof.
  eexists _, _, _. split; [vm_compute; reflexivity|].
  split; [vm_compute; reflexivity|].
  split; [vm_compute; reflexivity|].
  split; [|vm_compute; reflexivity].
  repeat constructor.
Qed.

(** C5, amended.  For every window [W]: when [RawSetIndex] sees the busy
    bit clear before more than 5 time units have elapsed, it returns with
    the flag of [W] clear; when the timeout strikes first, it returns with
    the flag of [W] set and its diagnostic logged, and the flag stays set
    through any operations that follow, as long as none of them is an
    index-set on [W] ([RawSetIndex], [RawRead], [RawWrite]) or, for the
    management Tx window, an [AllocateMgmtTxBuffer] that returns true. *)
Theorem RawSetIndex_flag `{wf_universal_driver} W index w t0 ps s rest :
  valid_window W ->
  forallb busy_poll ps = true ->
  (Z.land (u16 s) WF_RAW_STATUS_REG_BUSY_MASK = 0 ->
   inputs w = t0 :: polls ps ++ s :: rest ->
   exists w',
     RawSetIndex W index w = Done tt w' /\
     isIndexOutOfBounds W w' = Done false w') /\
  (forall dt rest',
     Z.land (u16 s) WF_RAW_STATUS_REG_BUSY_MASK <> 0 -> 5 < dt ->
     inputs w = t0 :: polls ps ++ s :: dt :: rest' ->
     exists w',
       RawSetIndex W index w = Done tt w' /\
       isIndexOutOfBounds W w' = Done true w' /\
       In (bad_index_diagnostic index) (trace w') /\
       forall ops log w'',
         run_ops ops w' = Done log w'' ->
         Forall (fun e => flag_effect W e = None) log ->
         isIndexOutOfBounds W w'' = Done true w'').
Proof.
  intros HW Hq. pose proof (valid_window_bit _ HW) as Hbit. pose proof HW as [Hlo _].
  destruct (window_lookup g_RawIndexReg W eq_refl HW) as (_ & ireg & Hireg).
  destruct (window_lookup g_RawStatusReg W eq_refl HW) as (_ & sreg & Hsreg).
  destruct w as [inp tr ie ws g]. simpl. split.
  - intros Hs ->. eexists. split.
    + apply RawSetIndex_clean; eassumption.
    + apply isIndexOutOfBounds_Done. split; [exact HW|]. split; [|reflexivity].
      simpl. rewrite testbit_clear_flag by assumption.
      rewrite Z.eqb_refl. reflexivity.
  - intros dt rest' Hs Hdt ->.
    assert (Hset : Z.testbit (u8 (Z.lor g (2 ^ W))) W = true).
    { rewrite testbit_set_flag by assumption. rewrite Z.eqb_refl. reflexivity. }
    eexists. split; [apply RawSetIndex_timeout; eassumption|].
    split; [|split].
    + apply isIndexOutOfBounds_Done. split; [exact HW|]. split; [|reflexivity].
      simpl. symmetry. exact Hset.
    + simpl. apply in_or_app. right. right. right.
      apply in_or_app. right. simpl. auto.
    + intros ops log w'' Hrun Hsilent.
      apply isIndexOutOfBounds_Done. split; [exact HW|]. split; [|reflexivity].
      rewrite (run_ops_flag _ _ _ _ _ HW Hrun).
      rewrite flag_after_silent by exact Hsilent.
      simpl. symmetry. exact Hset.
Qed.

Lemma RawSetIndex_flag_witness :
  (exists w',
     RawSetIndex RAW_DATA_TX_ID 5 (boot [3; 1; 2; 0; 77] false) = Done tt w' /\
     isIndexOutOfBounds RAW_DATA_TX_ID w' = Done false w') /\
  (exists w' log w'',
     RawSetIndex RAW_DATA_TX_ID 300 (boot [3; 1; 2; 1; 9; 64; 0; 1; 10; 5; 0] false)
       = Done tt w' /\
     isIndexOutOfBounds RAW_DATA_TX_ID w' = Done true w' /\
     @run_ops mrf24wg [OpAllocateMgmtTxBuffer 10; OpRawSetIndex RAW_DATA_RX_ID 5] w'
       = Done log w'' /\
     isIndexOutOfBounds RAW_DATA_TX_ID w'' = Done true w'').
Proof.
  assert (HW : valid_window RAW_DATA_TX_ID)
    by (unfold valid_window, RAW_DATA_TX_ID, NUM_RAW_WINDOWS; lia).
  split.
  - destruct (@RawSetIndex_flag mrf24wg RAW_DATA_TX_ID 5 (boot [3; 1; 2; 0; 77] false)
                3 [(1, 2)] 0 [77] HW eq_refl) as [Hclean _].
    apply Hclean; reflexivity.
  - destruct (@RawSetIndex_flag mrf24wg RAW_DATA_TX_ID 300
                (boot [3; 1; 2; 1; 9; 64; 0; 1; 10; 5; 0] false)
                3 [(1, 2)] 1 [] HW eq_refl) as [_ Htimeout].
    destruct (Htimeout 9 [64; 0; 1; 10; 5; 0]) as (w' & Hrun & Hflag & _ & Hstay);
      [vm_compute; discriminate | lia | reflexivity |].
    exists w'.
    destruct (@run_ops mrf24wg
                [OpAllocateMgmtTxBuffer 10; OpRawSetIndex RAW_DATA_RX_ID 5] w')
      as [log w''|f] eqn:Hops.
    + exists log, w''. do 3 (split; [assumption || reflexivity|]).
      apply (Hstay _ _ _ Hops).
      vm_compute in Hrun. injection Hrun as <-.
      vm_compute in Hops. injection Hops as <- _.
      repeat constructor.
    + vm_compute in Hrun. injection Hrun as <-.
      vm_compute in Hops. discriminate.
Defined.

(** C7.  When [AllocateDataTxBuffer] returns true, the mount state of the
    data Tx window is [WF_RAW_DATA_MOUNTED] (as the [u_int8_t] cell holds
    it); and whatever the mount state of the data Rx window was, a call of
    [DeallocateDataRxBuffer] leaves it [WF_RAW_UNMOUNTED].  The latter call
    completes whenever its release move does. *)
Theorem data_window_mount_states `{wf_universal_driver} :
  (forall bytesNeeded w w',
     AllocateDataTxBuffer bytesNeeded w = Done true w' ->
     GetRawDataWindowState RAW_DATA_TX_ID w' = Done (u8 WF_RAW_DATA_MOUNTED) w' /\
     (0 <= WF_RAW_DATA_MOUNTED < 256 -> u8 WF_RAW_DATA_MOUNTED = WF_RAW_DATA_MOUNTED)) /\
  (forall w a w',
     DeallocateDataRxBuffer w = Done a w' ->
     GetRawDataWindowState RAW_DATA_RX_ID w' = Done (u8 WF_RAW_UNMOUNTED) w' /\
     (0 <= WF_RAW_UNMOUNTED < 256 -> u8 WF_RAW_UNMOUNTED = WF_RAW_UNMOUNTED)) /\
  (forall w n w',
     two_cells w ->
     RawMove RAW_DATA_RX_ID RAW_DATA_POOL false 0
       (with_state w (<[Z.to_nat RAW_DATA_RX_ID := u8 WF_RAW_UNMOUNTED]>
                        (RawWindowState w))) = Done n w' ->
     DeallocateDataRxBuffer w = Done tt w').
Proof.
  split; [|split].
  - intros n w w' Hrun. split; [|apply u8_small].
    unfold AllocateDataTxBuffer in Hrun. cbv zeta in Hrun.
    run_inv Hrun. destruct (_ <? _).
    { apply ret_Done in Hrun as [[=] _]. }
    run_inv Hrun. destruct (_ =? 0).
    { run_inv Hrun. apply ret_Done in Hrun as [[=] _]. }
    run_inv Hrun. apply ret_Done in Hrun as [_ <-].
    apply SetRawDataWindowState_Done in Hm1 as (Hlo & Hlt & ->).
    apply GetRawDataWindowState_after_set; assumption.
  - intros w a w' Hrun. split; [|apply u8_small].
    unfold DeallocateDataRxBuffer in Hrun.
    run_inv Hrun. run_inv Hrun. apply ret_Done in Hrun as [_ <-].
    apply SetRawDataWindowState_Done in Hm as (Hlo & Hlt & ->).
    apply RawMove_same_state in Hm0.
    eapply GetRawDataWindowState_same_state; [exact Hm0|].
    apply GetRawDataWindowState_after_set; assumption.
  - intros w n w' Hcells Hmove. unfold DeallocateDataRxBuffer.
    assert (Hset : SetRawDataWindowState RAW_DATA_RX_ID WF_RAW_UNMOUNTED w =
                   Done tt (with_state w (<[Z.to_nat RAW_DATA_RX_ID := u8 WF_RAW_UNMOUNTED]>
                                            (RawWindowState w)))).
    { apply SetRawDataWindowState_Done. split; [unfold RAW_DATA_RX_ID; lia|].
      split; [|reflexivity]. rewrite Hcells. unfold RAW_DATA_RX_ID. simpl. lia. }
    rewrite (bind_run _ _ _ _ _ Hset), (bind_run _ _ _ _ _ Hmove). reflexivity.
Qed.

Lemma data_window_mount_states_witness :
  (exists w',
     @AllocateDataTxBuffer mrf24wg 1500 (boot [1600; 0; 4; 1500] true)
       = Done true w' /\
     @GetRawDataWindowState RAW_DATA_TX_ID w' = Done 1 w') /\
  (exists w',
     @DeallocateDataRxBuffer mrf24wg
        (mkWorld [0; 2; 0] [] true [1; 1] 0) = Done tt w' /\
     @GetRawDataWindowState RAW_DATA_RX_ID w' = Done 0 w').
Proof.
  destruct (@data_window_mount_states mrf24wg) as (Halloc & Hfree & _).
  split.
  - eexists. split; [vm_compute; reflexivity|].
    refine (proj1 (Halloc 1500 (boot [1600; 0; 4; 1500] true) _ _)).
    vm_compute. reflexivity.
  - eexists. split; [vm_compute; reflexivity|].
    refine (proj1 (Hfree (mkWorld [0; 2; 0] [] true [1; 1] 0) tt _ _)).
    vm_compute. reflexivity.
Defined.

(** C9.  [RawMountRxBuffer] on the data Rx window marks the window
    [WF_RAW_DATA_MOUNTED] (as the [u_int8_t] cell holds it) whatever length
    the mount move returned: a zero length is logged and changes nothing
    else.  The call completes, with that length as its result, whenever
    the move does. *)
Theorem RawMountRxBuffer_marks_data_rx_mounted `{wf_universal_driver}
    w length w1 :
  two_cells w ->
  RawMove RAW_DATA_RX_ID RAW_MAC true 0 w = Done length w1 ->
  exists w',
    RawMountRxBuffer RAW_DATA_RX_ID w = Done length w' /\
    GetRawDataWindowState RAW_DATA_RX_ID w' = Done (u8 WF_RAW_DATA_MOUNTED) w' /\
    (0 <= WF_RAW_DATA_MOUNTED < 256 -> u8 WF_RAW_DATA_MOUNTED = WF_RAW_DATA_MOUNTED) /\
    trace w' = trace w1 ++ (if length =? 0 then [mount_failed_diagnostic] else []).
Proof.
  intros Hcells Hmove.
  pose proof (RawMove_same_state _ _ _ _ _ _ _ Hmove) as Hst. unfold same in Hst.
  unfold RawMountRxBuffer. rewrite (bind_run _ _ _ _ _ Hmove).
  set (w2 := mkWorld (inputs w1)
               (trace w1 ++ (if length =? 0 then [mount_failed_diagnostic] else []))
               (intr_enabled w1) (RawWindowState w1) (g_RawIndexPastEnd w1)).
  assert (Hlog : (if length =? 0
                  then printf "RawMountRxBuffer" "--- %s: failed\n" []
                  else ret tt) w1 = Done tt w2).
  { subst w2. destruct (length =? 0); [reflexivity|].
    rewrite app_nil_r. destruct w1; reflexivity. }
  rewrite (bind_run _ _ _ _ _ Hlog).
  assert (Hlt : (Z.to_nat RAW_DATA_RX_ID < List.length (RawWindowState w2))%nat).
  { subst w2. simpl. rewrite Hst, Hcells. unfold RAW_DATA_RX_ID. simpl. lia. }
  assert (Hlo : 0 <= RAW_DATA_RX_ID) by (unfold RAW_DATA_RX_ID; lia).
  rewrite Z.eqb_refl.
  rewrite (bind_run _ _ _ _ _
             (proj2 (SetRawDataWindowState_Done RAW_DATA_RX_ID WF_RAW_DATA_MOUNTED w2 tt _)
                    (conj Hlo (conj Hlt eq_refl)))).
  eexists. split; [reflexivity|]. split; [|split].
  - apply GetRawDataWindowState_after_set; assumption.
  - apply u8_small.
  - reflexivity.
Qed.

Lemma RawMountRxBuffer_marks_data_rx_mounted_witness :
  exists w',
    @RawMountRxBuffer mrf24wg RAW_DATA_RX_ID (boot [5; 2; 0] true) = Done 0 w' /\
    GetRawDataWindowState RAW_DATA_RX_ID w' = Done 1 w' /\
    In mount_failed_diagnostic (trace w').
Proof.
  destruct (@RawMove mrf24wg RAW_DATA_RX_ID (@RAW_MAC mrf24wg) true 0 (boot [5; 2; 0] true))
    as [len w1|f] eqn:Hmove; [|vm_compute in Hmove; discriminate].
  destruct (@RawMountRxBuffer_marks_data_rx_mounted mrf24wg
              (boot [5; 2; 0] true) len w1 eq_refl Hmove)
    as (w' & Hrun & Hget & _ & Htrace).
  vm_compute in Hmove. injection Hmove as <- <-.
  exists w'. split; [exact Hrun|]. split; [exact Hget|].
  rewrite Htrace. apply in_or_app. right. simpl. auto.
Defined.

(** C1.  Let [bufAvail] be what [AllocateMgmtTxBuffer] makes of the FIFO
    counter: the value read, masked.  When [bufAvail] is less than the size
    asked for, the call never returns true, and the only move a completed
    call has started is, when [bufAvail] is greater than zero, the single
    release move of the function ([RawMove] with the management pool, not
    as destination, size 0); no move at all when [bufAvail] is zero, and in
    neither case a move on the management Tx window.  The call returns
    false at once when [bufAvail] is zero, and as soon as the release move
    returns otherwise. *)
Theorem AllocateMgmtTxBuffer_insufficient `{wf_universal_driver}
    bytesNeeded w v rest :
  inputs w = v :: rest ->
  let bufAvail := u16 (Z.land v FIFO_BCNT_MASK) in
  let w1 := mkWorld rest (trace w ++ [EvRead MRF24_REG_WFIFO_BCNT1 v])
                    (intr_enabled w) (RawWindowState w) (g_RawIndexPastEnd w) in
  bufAvail < bytesNeeded ->
  (forall b w',
     AllocateMgmtTxBuffer bytesNeeded w = Done b w' ->
     b = false /\
     exists d,
       trace w' = trace w ++ d /\
       moves_issued d =
         (if bufAvail >? 0
          then [EvWrite MRF24_REG_RAW2_CTRL0 (RawMove_ctrlVal RAW_MGMT_POOL false 0)]
          else []) /\
       forall ctrlVal, ~ In (EvWrite MRF24_REG_RAW3_CTRL0 ctrlVal) d) /\
  (bufAvail = 0 -> AllocateMgmtTxBuffer bytesNeeded w = Done false w1) /\
  (forall n w',
     0 < bufAvail ->
     RawMove RAW_MGMT_RX_ID RAW_MGMT_POOL false 0 w1 = Done n w' ->
     AllocateMgmtTxBuffer bytesNeeded w = Done false w').
Proof.
  intros Hin bufAvail w1 Hlt.
  assert (Hread : mrf_read MRF24_REG_WFIFO_BCNT1 w = Done v w1).
  { unfold mrf_read. exec. rewrite Hin. reflexivity. }
  assert (Hge : (bufAvail >=? bytesNeeded) = false).
  { rewrite Z.geb_leb. apply Z.leb_gt. exact Hlt. }
  assert (Hbody : AllocateMgmtTxBuffer bytesNeeded w =
                  ((if bufAvail >? 0
                    then _ <- RawMove RAW_MGMT_RX_ID RAW_MGMT_POOL false 0 ;; ret tt
                    else ret tt) ;; ret false) w1).
  { unfold AllocateMgmtTxBuffer. cbv zeta. rewrite (bind_run _ _ _ _ _ Hread).
    fold bufAvail. rewrite Hge. reflexivity. }
  rewrite Hbody. split; [|split].
  - intros b w' Hrun. run_inv Hrun. apply ret_Done in Hrun as [<- <-].
    split; [reflexivity|].
    assert (Hd : exists d, trace w0 = trace w ++ d /\
              moves_issued d =
                (if bufAvail >? 0
                 then [EvWrite MRF24_REG_RAW2_CTRL0 (RawMove_ctrlVal RAW_MGMT_POOL false 0)]
                 else [])).
    { destruct (bufAvail >? 0).
      - run_inv Hm. apply ret_Done in Hm as [_ <-].
        apply RawMove_moves in Hm0 as (regId & d & Hreg & Hd & Hmoves).
        injection Hreg as <-. simpl in Hd.
        exists (EvRead MRF24_REG_WFIFO_BCNT1 v :: d). split.
        + rewrite Hd, <- app_assoc. reflexivity.
        + rewrite moves_issued_cons. exact Hmoves.
      - apply ret_Done in Hm as [_ <-]. exists [EvRead MRF24_REG_WFIFO_BCNT1 v].
        split; reflexivity. }
    destruct Hd as (d & Hd & Hmoves). exists d. do 2 (split; [assumption|]).
    intros ctrlVal Hmem.
    assert (Hmem' : In (EvWrite MRF24_REG_RAW3_CTRL0 ctrlVal) (moves_issued d)).
    { apply List.filter_In. split; [exact Hmem | reflexivity]. }
    rewrite Hmoves in Hmem'. destruct (bufAvail >? 0); simpl in Hmem'.
    + destruct Hmem' as [[=]|[]].
    + exact Hmem'.
  - intros Hz. rewrite Hz. reflexivity.
  - intros n w' Hpos Hmove. apply Z.gtb_lt in Hpos. rewrite Hpos.
    unfold bind at 1. unfold bind at 1. rewrite Hmove. reflexivity.
Qed.

Lemma AllocateMgmtTxBuffer_insufficient_witness :
  (exists w',
     @AllocateMgmtTxBuffer mrf24wg 50 (boot [30; 7; 1; 0] true) = Done false w' /\
     moves_issued (trace w') = [EvWrite MRF24_REG_RAW2_CTRL0 0x1000]) /\
  @AllocateMgmtTxBuffer mrf24wg 50 (boot [0x1000] true)
    = Done false (mkWorld [] [EvRead MRF24_REG_WFIFO_BCNT1 0x1000] true [0; 0] 0).
Proof.
  split.
  - destruct (@AllocateMgmtTxBuffer_insufficient mrf24wg 50
                (boot [30; 7; 1; 0] true) 30 [7; 1; 0] eq_refl)
      as (Hfalse & _ & Hrelease); [vm_compute; reflexivity|].
    destruct (@AllocateMgmtTxBuffer mrf24wg 50 (boot [30; 7; 1; 0] true))
      as [b w'|f] eqn:Hrun; [|vm_compute in Hrun; discriminate].
    destruct (Hfalse b w' eq_refl) as (-> & d & Hd & Hmoves & _).
    exists w'. split; [reflexivity|].
    rewrite Hd. exact Hmoves.
  - destruct (@AllocateMgmtTxBuffer_insufficient mrf24wg 50
                (boot [0x1000] true) 0x1000 [] eq_refl)
      as (_ & Hzero & _); [vm_compute; reflexivity|].
    apply Hzero. vm_compute. reflexivity.
Defined.

(** C3.  For a pool selector [srcDest], the 16-bit control value [RawMove]
    builds has bit 15 set exactly when the window is the destination, the
    pool selector in its upper byte (bits 14:12), bits 11:8 of [size] in
    its bits 11:8, and the low byte of [size] in its bits 7:0.  A
    successful allocation of 50 bytes, from the management pool as from the
    data pool, starts exactly one move, whose control value has the
    destination bit set, size nibble 0 and low byte 50. *)
Theorem RawMove_ctrlVal_layout `{wf_universal_driver}
    srcDest rawIsDestination size :
  pool_selector srcDest ->
  let ctrlVal := RawMove_ctrlVal srcDest rawIsDestination size in
  0 <= ctrlVal < 2 ^ 16 /\
  Z.testbit ctrlVal 15 = rawIsDestination /\
  Z.land (Z.shiftr ctrlVal 8) 0x70 = srcDest /\
  Z.land (Z.shiftr ctrlVal 8) 0x0f = Z.land (Z.shiftr size 8) 0x0f /\
  Z.land ctrlVal 0xff = Z.land size 0xff /\
  (pool_selector RAW_MGMT_POOL ->
   forall w w',
     AllocateMgmtTxBuffer 50 w = Done true w' ->
     exists d c,
       trace w' = trace w ++ d /\
       moves_issued d = [EvWrite MRF24_REG_RAW3_CTRL0 c] /\
       c = RawMove_ctrlVal RAW_MGMT_POOL true 50 /\
       Z.testbit c 15 = true /\
       Z.land (Z.shiftr c 8) 0x0f = 0 /\
       Z.land c 0xff = 50) /\
  (pool_selector RAW_DATA_POOL ->
   forall w w',
     AllocateDataTxBuffer 50 w = Done true w' ->
     exists d c,
       trace w' = trace w ++ d /\
       moves_issued d = [EvWrite MRF24_REG_RAW1_CTRL0 c] /\
       c = RawMove_ctrlVal RAW_DATA_POOL true 50 /\
       Z.testbit c 15 = true /\
       Z.land (Z.shiftr c 8) 0x0f = 0 /\
       Z.land c 0xff = 50).
Proof.
  intros Hpool ctrlVal.
  destruct (RawMove_ctrlVal_fields srcDest rawIsDestination size Hpool)
    as (Hdst & Hsel & Hnib & Hlow).
  split; [apply RawMove_ctrlVal_range|].
  do 4 (split; [assumption|]).
  split.
  - intros Hmgmt w w' Hrun.
    apply AllocateMgmtTxBuffer_true in Hrun as (v & d & _ & _ & Hd & Hmoves).
    destruct (RawMove_ctrlVal_fields RAW_MGMT_POOL true 50 Hmgmt)
      as (Hdst' & _ & Hnib' & Hlow').
    exists (EvRead MRF24_REG_WFIFO_BCNT1 v :: d), (RawMove_ctrlVal RAW_MGMT_POOL true 50).
    repeat split; auto.
  - intros Hdata w w' Hrun.
    apply AllocateDataTxBuffer_true in Hrun as (v & d & _ & _ & Hd & Hmoves).
    destruct (RawMove_ctrlVal_fields RAW_DATA_POOL true 50 Hdata)
      as (Hdst' & _ & Hnib' & Hlow').
    exists (EvRead MRF24_REG_WFIFO_BCNT0 v :: d), (RawMove_ctrlVal RAW_DATA_POOL true 50).
    repeat split; auto.
Qed.

Lemma RawMove_ctrlVal_layout_witness :
  RawMove_ctrlVal 0x10 true 50 = 0x9032 /\
  Z.testbit (RawMove_ctrlVal 0x10 true 0xabc) 15 = true /\
  Z.land (Z.shiftr (RawMove_ctrlVal 0x10 true 0xabc) 8) 0x70 = 0x10 /\
  Z.land (Z.shiftr (RawMove_ctrlVal 0x10 true 0xabc) 8) 0x0f = 0x0a /\
  Z.land (RawMove_ctrlVal 0x10 true 0xabc) 0xff = 0xbc /\
  exists w' d,
    @AllocateMgmtTxBuffer mrf24wg 50 (boot [100; 7; 1; 50] false) = Done true w' /\
    trace w' = d /\
    moves_issued d = [EvWrite MRF24_REG_RAW3_CTRL0 0x9032].
Proof.
  assert (Hpool : pool_selector 0x10) by (split; [lia | reflexivity]).
  destruct (@RawMove_ctrlVal_layout mrf24wg 0x10 true 0xabc Hpool)
    as (_ & Hdst & Hsel & Hnib & Hlow & Hmgmt & _).
  split; [reflexivity|]. do 4 (split; [assumption|]).
  destruct (@AllocateMgmtTxBuffer mrf24wg 50 (boot [100; 7; 1; 50] false))
    as [b w'|f] eqn:Hrun; [|vm_compute in Hrun; discriminate].
  assert (Hb : b = true) by (vm_compute in Hrun; injection Hrun as <- _; reflexivity).
  subst b.
  destruct (Hmgmt Hpool _ _ Hrun) as (d & c & Hd & Hmoves & -> & _).
  exists w', d. split; [reflexivity|]. split; [exact Hd | exact Hmoves].
Defined.

(** ** Further properties of the driver *)

(** X1.  When the awaited interrupt bit shows in a poll before the timeout
    has struck, [RawMove] acknowledges it and returns the CTRL1 value read
    next, narrowed to 16 bits, without any diagnostic: the trace of the
    call is the set-up, the quiet polls, the poll that saw the bit, the
    acknowledgement, the CTRL1 read and the interrupt restore.  For the
    windows 2 to 5 the acknowledgement is one write of all four RAW bits
    to INTR2 followed by the write of the shared [INTR_INT2] bit to
    INTR. *)
Theorem RawMove_completes `{wf_universal_driver}
    rawId srcDest rawIsDestination size w t0 ps i v rest :
  valid_window rawId ->
  inputs w = t0 :: polls ps ++ i :: v :: rest ->
  forallb (quiet_poll (WaitForRawMoveComplete_intMask rawId)) ps = true ->
  Z.land (u32 i) (WaitForRawMoveComplete_intMask rawId) <> 0 ->
  exists mask regId0 regId1 w',
    g_RawIntMask !! Z.to_nat rawId = Some mask /\
    g_RawCtrl0Reg !! Z.to_nat rawId = Some regId0 /\
    g_RawCtrl1Reg !! Z.to_nat rawId = Some regId1 /\
    RawMove rawId srcDest rawIsDestination size w = Done (u16 (u32 v)) w' /\
    inputs w' = rest /\
    trace w' =
      trace w ++
      [EvIntrDisable (intr_enabled w); RawMove_clear rawId mask;
       EvWrite regId0 (RawMove_ctrlVal srcDest rawIsDestination size);
       EvIntrEnable; EvTimerRead t0] ++
      quiet_events (u32 t0) ps ++
      EvReadByte MRF24_REG_INTR i ::
      completion_events (WaitForRawMoveComplete_intMask rawId) ++
      [EvRead regId1 v] ++
      (if intr_enabled w then [] else [EvIntrDisable true]) /\
    (2 <= rawId ->
     completion_events (WaitForRawMoveComplete_intMask rawId) =
       [EvWrite MRF24_REG_INTR2
          (Z.lor (Z.lor (Z.lor INTR2_RAW2 INTR2_RAW3) INTR2_RAW4) INTR2_RAW5);
        EvWriteByte MRF24_REG_INTR (u32 INTR_INT2)]).
Proof.
  intros Hwin Hin Hq Hi.
  destruct (window_lookup g_RawIntMask rawId eq_refl Hwin) as (Hid & mask & Hmask).
  destruct (window_lookup g_RawCtrl0Reg rawId eq_refl Hwin) as (_ & regId0 & Hreg0).
  destruct (window_lookup g_RawCtrl1Reg rawId eq_refl Hwin) as (_ & regId1 & Hreg1).
  exists mask, regId0, regId1.
  pose proof (WaitForRawMoveComplete_complete rawId regId1 t0 ps i v rest
                (trace w ++ [EvIntrDisable (intr_enabled w); RawMove_clear rawId mask;
                             EvWrite regId0 (RawMove_ctrlVal srcDest rawIsDestination size);
                             EvIntrEnable])
                true (RawWindowState w) (g_RawIndexPastEnd w)
                Hid Hreg1 Hq Hi) as Hwait.
  rewrite <- Hin in Hwait.
  eexists. do 3 (split; [eassumption|]).
  split.
  { apply RawMove_Done. exists mask, regId0. eexists _, _.
    do 3 (split; [eassumption|]).
    split; [exact Hwait|]. split; reflexivity. }
  split; [|split].
  - unfold RawMove_restored. destruct (intr_enabled w); reflexivity.
  - unfold RawMove_restored.
    destruct (intr_enabled w); simpl;
      repeat (progress (rewrite <- ?app_assoc; simpl; rewrite ?app_nil_r));
      reflexivity.
  - intros Hhi. unfold completion_events, WaitForRawMoveComplete_intMask.
    destruct (Z.leb_spec rawId 1); [lia|].
    rewrite Z.eqb_refl. reflexivity.
Qed.

Lemma RawMove_completes_witness :
  exists w',
    @RawMove mrf24wg RAW_MGMT_TX_ID 0x10 true 50
       (boot [7; 0; 3; 4; 12; 1; 50] true) = Done 50 w' /\
    inputs w' = [] /\
    ~ In timeout_diagnostic (trace w').
Proof.
  destruct (@RawMove_completes mrf24wg RAW_MGMT_TX_ID 0x10 true 50
              (boot [7; 0; 3; 4; 12; 1; 50] true) 7 [(0, 3); (4, 12)] 1 50 [])
    as (mask & regId0 & regId1 & w' & Hmask & _ & _ & Hrun & Hin & Htrace & _).
  - unfold valid_window, RAW_MGMT_TX_ID, NUM_RAW_WINDOWS. lia.
  - reflexivity.
  - vm_compute. reflexivity.
  - vm_compute. discriminate.
  - exists w'. split; [exact Hrun|]. split; [exact Hin|].
    rewrite Htrace. injection Hmask as <-. vm_compute.
    intros Hmem. repeat (destruct Hmem as [Hmem|Hmem]; [discriminate|]).
    exact Hmem.
Defined.

(** X2.  A move never touches the driver's own state: whatever window,
    pool, direction and size, and however the wait ends, a completed
    [RawMove] leaves the out-of-bounds flag byte and both mount states as
    they were. *)
Theorem RawMove_keeps_driver_state `{wf_universal_driver}
    rawId srcDest rawIsDestination size w n w' :
  RawMove rawId srcDest rawIsDestination size w = Done n w' ->
  g_RawIndexPastEnd w' = g_RawIndexPastEnd w /\
  RawWindowState w' = RawWindowState w.
Proof.
  intros Hrun. split.
  - exact (RawMove_same_flags _ _ _ _ _ _ _ Hrun).
  - exact (RawMove_same_state _ _ _ _ _ _ _ Hrun).
Qed.

Lemma RawMove_keeps_driver_state_witness :
  exists n w',
    @RawMove mrf24wg RAW_DATA_TX_ID 0x20 true 1500
       (mkWorld [3; 0; 30; 0] [] false [1; 0] 0x0a) = Done n w' /\
    g_RawIndexPastEnd w' = 0x0a /\ RawWindowState w' = [1; 0].
Proof.
  eexists _, _. split; [vm_compute; reflexivity|].
  refine (@RawMove_keeps_driver_state mrf24wg RAW_DATA_TX_ID 0x20 true 1500
            (mkWorld [3; 0; 30; 0] [] false [1; 0] 0x0a) _ _ _).
  vm_compute. reflexivity.
Defined.

(** X3.  [RawMove] clears the expected completion interrupt right after
    it has disabled the external interrupt and right before it writes
    CTRL0: for the windows 0 and 1 with a byte write to INTR, for the other
    windows with a word write to INTR2, and in both cases with only the low
    eight bits of the window's mask (the value goes through the
    [u_int8_t] variable [regValue]).  Nothing after the CTRL0 write starts
    another move. *)
Theorem RawMove_clears_before_it_starts `{wf_universal_driver}
    rawId srcDest rawIsDestination size w n w' :
  RawMove rawId srcDest rawIsDestination size w = Done n w' ->
  exists mask regId d,
    g_RawIntMask !! Z.to_nat rawId = Some mask /\
    g_RawCtrl0Reg !! Z.to_nat rawId = Some regId /\
    trace w' =
      trace w ++
      EvIntrDisable (intr_enabled w) ::
      (if rawId <=? 1 then EvWriteByte MRF24_REG_INTR (mask mod 2 ^ 8)
       else EvWrite MRF24_REG_INTR2 (mask mod 2 ^ 8)) ::
      EvWrite regId (RawMove_ctrlVal srcDest rawIsDestination size) ::
      EvIntrEnable :: d /\
    moves_issued d = [].
Proof.
  intros Hrun.
  apply RawMove_Done in Hrun
    as (mask & regId & m & w2 & _ & Hmask & Hreg & Hwait & _ & ->).
  pose proof (WaitForRawMoveComplete_same_intr _ _ _ _ Hwait) as Hie.
  unfold same in Hie. simpl in Hie.
  apply WaitForRawMoveComplete_moves in Hwait as (d & Hd & Hmoves).
  simpl in Hd. exists mask, regId.
  assert (Hclr : RawMove_clear rawId mask =
                 if rawId <=? 1 then EvWriteByte MRF24_REG_INTR (mask mod 2 ^ 8)
                 else EvWrite MRF24_REG_INTR2 (mask mod 2 ^ 8)).
  { unfold RawMove_clear, u8. destruct (rawId <=? 1); reflexivity. }
  rewrite <- Hclr.
  unfold RawMove_restored. destruct (intr_enabled w); simpl.
  - exists d. do 2 (split; [assumption|]). split; [|exact Hmoves].
    rewrite Hd, <- app_assoc. reflexivity.
  - exists (d ++ [EvIntrDisable true]). do 2 (split; [assumption|]). split.
    + rewrite Hd, Hie, <- !app_assoc. reflexivity.
    + rewrite moves_issued_app, Hmoves. reflexivity.
Qed.

Lemma RawMove_clears_before_it_starts_witness :
  exists n w' d,
    @RawMove mrf24wg RAW_SCRATCH_ID 0x30 true 0 (boot [3; 1; 512] true)
      = Done n w' /\
    trace w' = [EvIntrDisable true; EvWrite MRF24_REG_INTR2 4;
                EvWrite MRF24_REG_RAW4_CTRL0 0xb000; EvIntrEnable] ++ d.
Proof.
  destruct (@RawMove mrf24wg RAW_SCRATCH_ID 0x30 true 0 (boot [3; 1; 512] true))
    as [n w'|f] eqn:Hrun; [|vm_compute in Hrun; discriminate].
  destruct (@RawMove_clears_before_it_starts mrf24wg _ _ _ _ _ _ _ Hrun)
    as (mask & regId & d & Hmask & Hreg & Htrace & _).
  injection Hmask as <-. injection Hreg as <-.
  exists n, w', d. split; [reflexivity | exact Htrace].
Defined.

Lemma eq_of_low16 a b :
  0 <= a < 2 ^ 16 -> 0 <= b < 2 ^ 16 ->
  (forall i, 0 <= i < 16 -> Z.testbit a i = Z.testbit b i) -> a = b.
Proof.
  intros Ha Hb Hbits. apply Z.bits_inj'. intros i Hi.
  destruct (Z.ltb_spec i 16) as [Hlt|Hge]; [apply Hbits; lia|].
  rewrite <- (Z.mod_small a (2 ^ 16)), <- (Z.mod_small b (2 ^ 16)) by assumption.
  rewrite !Z.mod_pow2_bits_high by lia. reflexivity.
Qed.

(** X4.  The control value keeps twelve bits of [size] and eight bits of
    the pool selector and drops the rest: sizes that agree modulo 4096 (and
    selectors that agree modulo 256) give the same control value, so a
    move asked for 4096 + k bytes is issued as a move of k bytes. *)
Theorem RawMove_ctrlVal_truncates srcDest rawIsDestination size :
  RawMove_ctrlVal srcDest rawIsDestination size =
  RawMove_ctrlVal (srcDest mod 2 ^ 8) rawIsDestination (size mod 2 ^ 12).
Proof.
  apply eq_of_low16; try apply RawMove_ctrlVal_range.
  intros i Hi. rewrite !RawMove_ctrlVal_testbit by exact Hi.
  assert (Hsel : Z.testbit (srcDest mod 2 ^ 8) (i - 8) = Z.testbit srcDest (i - 8)).
  { destruct (Z.ltb_spec i 8).
    - rewrite !Z.testbit_neg_r by lia. reflexivity.
    - apply Z.mod_pow2_bits_low. lia. }
  rewrite Hsel.
  destruct (Z.ltb_spec i 12) as [Hlt|Hge].
  - rewrite Z.mod_pow2_bits_low by lia. reflexivity.
  - destruct (Z.ltb_spec i 8); [lia|].
    rewrite !andb_false_r. reflexivity.
Qed.

(** X5.  Outside the pool-selector contract the fields of the control
    value overlap: bit 15 is set when the window is the destination or
    when bit 7 of the selector is set, and bits 11:8 are the bitwise or of
    the selector's low nibble and bits 11:8 of the size. *)
Theorem RawMove_ctrlVal_overlap srcDest rawIsDestination size :
  Z.testbit (RawMove_ctrlVal srcDest rawIsDestination size) 15
    = rawIsDestination || Z.testbit srcDest 7 /\
  Z.land (Z.shiftr (RawMove_ctrlVal srcDest rawIsDestination size) 8) 0x0f
    = Z.lor (Z.land srcDest 0x0f) (Z.land (Z.shiftr size 8) 0x0f).
Proof.
  split.
  - rewrite RawMove_ctrlVal_testbit by lia. simpl.
    rewrite andb_true_r, !orb_false_r. reflexivity.
  - apply Z.bits_inj'. intros j Hj.
    rewrite Z.lor_spec, !Z.land_spec, !Z.shiftr_spec, testbit_0x0f by exact Hj.
    destruct (Z.ltb_spec j 4); [|rewrite !andb_false_r; reflexivity].
    rewrite RawMove_ctrlVal_testbit by lia. replace (j + 8 - 8) with j by lia.
    compare_all.
    destruct rawIsDestination, (Z.testbit srcDest j), (Z.testbit size (j + 8));
      reflexivity.
Qed.

(** X6.  [AllocateMgmtTxBuffer] returns true exactly when the masked FIFO
    count covers the request and the allocation move it then issues
    returns a non-zero byte count.  A true result leaves the out-of-bounds
    flag of the management Tx window clear; a false result, the
    zero-length move included, leaves the whole flag byte as it was; the
    mount states are never touched. *)
Theorem AllocateMgmtTxBuffer_result `{wf_universal_driver}
    bytesNeeded w v rest b w' :
  inputs w = v :: rest ->
  let bufAvail := u16 (Z.land v FIFO_BCNT_MASK) in
  let w1 := mkWorld rest (trace w ++ [EvRead MRF24_REG_WFIFO_BCNT1 v])
                    (intr_enabled w) (RawWindowState w) (g_RawIndexPastEnd w) in
  AllocateMgmtTxBuffer bytesNeeded w = Done b w' ->
  (b = true <->
   bytesNeeded <= bufAvail /\
   exists nbytes w2,
     RawMove RAW_MGMT_TX_ID RAW_MGMT_POOL true bytesNeeded w1 = Done nbytes w2 /\
     nbytes <> 0) /\
  (b = true -> isIndexOutOfBounds RAW_MGMT_TX_ID w' = Done false w') /\
  (b = false -> g_RawIndexPastEnd w' = g_RawIndexPastEnd w) /\
  RawWindowState w' = RawWindowState w.
Proof.
  intros Hin bufAvail w1 Hrun.
  assert (Hread : mrf_read MRF24_REG_WFIFO_BCNT1 w = Done v w1).
  { unfold mrf_read. exec. rewrite Hin. reflexivity. }
  pose proof (AllocateMgmtTxBuffer_flags _ _ _ _ Hrun) as Hflags.
  unfold AllocateMgmtTxBuffer in Hrun. cbv zeta in Hrun.
  rewrite (bind_run _ _ _ _ _ Hread) in Hrun. fold bufAvail in Hrun.
  assert (HW : valid_window RAW_MGMT_TX_ID)
    by (unfold valid_window, RAW_MGMT_TX_ID, NUM_RAW_WINDOWS; lia).
  split; [|split; [|split]].
  - destruct (Z.geb_spec bufAvail bytesNeeded) as [Hge|Hlt].
    + run_inv Hrun. destruct (Z.eqb_spec a 0) as [Hz|Hnz].
      * apply ret_Done in Hrun as [<- _]. split; [discriminate|].
        intros (_ & nbytes & w2 & Hmove & Hnb). congruence.
      * run_inv Hrun. apply ret_Done in Hrun as [<- _].
        split; [|reflexivity]. intros _. split; [lia|]. eauto.
    + run_inv Hrun. apply ret_Done in Hrun as [<- _].
      split; [discriminate|]. intros (Hle & _). lia.
  - intros ->. apply isIndexOutOfBounds_Done. split; [exact HW|].
    split; [|reflexivity]. rewrite Hflags.
    rewrite testbit_clear_flag by (unfold RAW_MGMT_TX_ID; lia).
    rewrite Z.eqb_refl. reflexivity.
  - intros ->. exact Hflags.
  - destruct (bufAvail >=? bytesNeeded).
    + run_inv Hrun. apply RawMove_same_state in Hm. unfold same in Hm.
      destruct (a =? 0).
      * apply ret_Done in Hrun as [_ <-]. exact Hm.
      * run_inv Hrun. apply ret_Done in Hrun as [_ <-].
        apply ClearIndexOutOfBoundsFlag_Done in Hm0 as [_ ->]. exact Hm.
    + run_inv Hrun. apply ret_Done in Hrun as [_ <-].
      destruct (bufAvail >? 0).
      * run_inv Hm. apply ret_Done in Hm as [_ <-].
        apply RawMove_same_state in Hm0. exact Hm0.
      * apply ret_Done in Hm as [_ <-]. reflexivity.
Qed.

Lemma AllocateMgmtTxBuffer_result_witness :
  exists w',
    @AllocateMgmtTxBuffer mrf24wg 50 (mkWorld [100; 7; 1; 0] [] true [0; 1] 0x08)
      = Done false w' /\
    g_RawIndexPastEnd w' = 0x08 /\ RawWindowState w' = [0; 1].
Proof.
  eexists. split; [vm_compute; reflexivity|].
  edestruct (@AllocateMgmtTxBuffer_result mrf24wg 50
               (mkWorld [100; 7; 1; 0] [] true [0; 1] 0x08) 100 [7; 1; 0] false)
    as (_ & _ & Hflag & Hstate); [reflexivity | vm_compute; reflexivity |].
  split; [exact (Hflag eq_refl) | exact Hstate].
Defined.

(** X7.  When the masked data FIFO count is less than the request,
    [AllocateDataTxBuffer] returns false having done nothing but read the
    counter: no move (unlike the management allocator, no release move
    either), no diagnostic, no change of the mount states or flags. *)
Theorem AllocateDataTxBuffer_insufficient `{wf_universal_driver}
    bytesNeeded w v rest :
  inputs w = v :: rest ->
  u16 (Z.land v FIFO_BCNT_MASK) < bytesNeeded ->
  AllocateDataTxBuffer bytesNeeded w =
  Done false (mkWorld rest (trace w ++ [EvRead MRF24_REG_WFIFO_BCNT0 v])
                      (intr_enabled w) (RawWindowState w) (g_RawIndexPastEnd w)).
Proof.
  intros Hin Hlt. unfold AllocateDataTxBuffer. cbv zeta.
  unfold mrf_read. exec. rewrite Hin. simpl.
  apply Z.ltb_lt in Hlt. rewrite Hlt. reflexivity.
Qed.

Lemma AllocateDataTxBuffer_insufficient_witness :
  @AllocateDataTxBuffer mrf24wg 1500 (mkWorld [700; 9] [] true [1; 0] 0)
  = Done false (mkWorld [9] [EvRead MRF24_REG_WFIFO_BCNT0 700] true [1; 0] 0).
Proof.
  apply (@AllocateDataTxBuffer_insufficient mrf24wg 1500
           (mkWorld [700; 9] [] true [1; 0] 0) 700 [9]).
  - reflexivity.
  - vm_compute. reflexivity.
Defined.

(** X8.  [AllocateDataTxBuffer] returns true exactly when the masked FIFO
    count covers the request and the allocation move returns a non-zero
    byte count.  When the move returns zero the call logs its diagnostic
    and returns false; a false result leaves both mount states as they
    were, and no result changes the out-of-bounds flags. *)
Theorem AllocateDataTxBuffer_result `{wf_universal_driver}
    bytesNeeded w v rest b w' :
  inputs w = v :: rest ->
  let bufAvail := u16 (Z.land v FIFO_BCNT_MASK) in
  let w1 := mkWorld rest (trace w ++ [EvRead MRF24_REG_WFIFO_BCNT0 v])
                    (intr_enabled w) (RawWindowState w) (g_RawIndexPastEnd w) in
  AllocateDataTxBuffer bytesNeeded w = Done b w' ->
  (b = true <->
   bytesNeeded <= bufAvail /\
   exists nbytes w2,
     RawMove RAW_DATA_TX_ID RAW_DATA_POOL true bytesNeeded w1 = Done nbytes w2 /\
     nbytes <> 0) /\
  (forall w2,
     bytesNeeded <= bufAvail ->
     RawMove RAW_DATA_TX_ID RAW_DATA_POOL true bytesNeeded w1 = Done 0 w2 ->
     b = false /\ trace w' = trace w2 ++ [data_alloc_failed_diagnostic]) /\
  (b = false -> RawWindowState w' = RawWindowState w) /\
  g_RawIndexPastEnd w' = g_RawIndexPastEnd w.
Proof.
  intros Hin bufAvail w1 Hrun.
  assert (Hread : mrf_read MRF24_REG_WFIFO_BCNT0 w = Done v w1).
  { unfold mrf_read. exec. rewrite Hin. reflexivity. }
  pose proof (same_flags_AllocateDataTxBuffer _ _ _ _ Hrun) as Hflags.
  unfold AllocateDataTxBuffer in Hrun. cbv zeta in Hrun.
  rewrite (bind_run _ _ _ _ _ Hread) in Hrun. fold bufAvail in Hrun.
  split; [|split; [|split; [|exact Hflags]]].
  - destruct (Z.ltb_spec bufAvail bytesNeeded) as [Hlt|Hge].
    + apply ret_Done in Hrun as [<- _].
      split; [discriminate|]. intros (Hle & _). lia.
    + run_inv Hrun. destruct (Z.eqb_spec a 0) as [Hz|Hnz].
      * run_inv Hrun. apply ret_Done in Hrun as [<- _]. split; [discriminate|].
        intros (_ & nbytes & wm & Hmove & Hnb). congruence.
      * run_inv Hrun. apply ret_Done in Hrun as [<- _].
        split; [|reflexivity]. intros _. split; [lia|]. eauto.
  - intros wm Hle Hmove.
    destruct (Z.ltb_spec bufAvail bytesNeeded) as [Hlt|Hge]; [lia|].
    rewrite (bind_run _ _ _ _ _ Hmove) in Hrun. simpl in Hrun.
    run_inv Hrun. apply ret_Done in Hrun as [<- <-].
    apply emit_Done in Hm. subst w0. split; reflexivity.
  - intros ->.
    destruct (bufAvail <? bytesNeeded).
    + apply ret_Done in Hrun as [_ <-]. reflexivity.
    + run_inv Hrun. apply RawMove_same_state in Hm. unfold same in Hm.
      destruct (a =? 0).
      * run_inv Hrun. apply ret_Done in Hrun as [_ <-].
        match goal with He : printf _ _ _ _ = Done _ _ |- _ =>
          apply emit_Done in He; rewrite He end. exact Hm.
      * run_inv Hrun. apply ret_Done in Hrun as [[=] _].
Qed.

Lemma AllocateDataTxBuffer_result_witness :
  exists w',
    @AllocateDataTxBuffer mrf24wg 1500 (mkWorld [1600; 3; 4; 0] [] true [1; 0] 0x02)
      = Done false w' /\
    In data_alloc_failed_diagnostic (trace w') /\
    RawWindowState w' = [1; 0] /\ g_RawIndexPastEnd w' = 0x02.
Proof.
  eexists. split; [vm_compute; reflexivity|].
  edestruct (@AllocateDataTxBuffer_result mrf24wg 1500
               (mkWorld [1600; 3; 4; 0] [] true [1; 0] 0x02) 1600 [3; 4; 0] false)
    as (_ & _ & Hstate & Hflag); [reflexivity | vm_compute; reflexivity |].
  split; [vm_compute; auto 20|].
  split; [exact (Hstate eq_refl) | exact Hflag].
Defined.

Lemma RawMove_same_intr `{wf_universal_driver} rawId srcDest dst size :
  keeps (same intr_enabled) (RawMove rawId srcDest dst size).
Proof.
  intros w n w' Hrun.
  apply RawMove_Done in Hrun
    as (mask & regId & m & w2 & _ & _ & _ & Hwait & _ & ->).
  pose proof (WaitForRawMoveComplete_same_intr _ _ _ _ Hwait) as Hsame.
  unfold same in *. simpl in Hsame.
  unfold RawMove_restored. destruct (intr_enabled w); [exact Hsame | reflexivity].
Qed.

(** X9.  A completed [RawInit] has started exactly two moves, in this
    order: the unmount of the scratch pool from window 1 (not destination,
    size 0) and the mount of the scratch pool on the scratch window
    (destination, size 0); it leaves both data windows
    [WF_RAW_UNMOUNTED] (as the [u_int8_t] cells hold it) whatever they
    were, and the out-of-bounds flags and the interrupt-enable state as
    they were. *)
Theorem RawInit_effect `{wf_universal_driver} w a w' :
  RawInit w = Done a w' ->
  (exists d,
     trace w' = trace w ++ d /\
     moves_issued d =
       [EvWrite MRF24_REG_RAW1_CTRL0 (RawMove_ctrlVal RAW_SCRATCH_POOL false 0);
        EvWrite MRF24_REG_RAW4_CTRL0 (RawMove_ctrlVal RAW_SCRATCH_POOL true 0)]) /\
  GetRawDataWindowState RAW_DATA_TX_ID w' = Done (u8 WF_RAW_UNMOUNTED) w' /\
  GetRawDataWindowState RAW_DATA_RX_ID w' = Done (u8 WF_RAW_UNMOUNTED) w' /\
  g_RawIndexPastEnd w' = g_RawIndexPastEnd w /\
  intr_enabled w' = intr_enabled w.
Proof.
  intros Hrun. pose proof (same_flags_RawInit _ _ _ Hrun) as Hflags.
  unfold RawInit, ScratchUnmount, ScratchMount in Hrun.
  run_inv Hrun. run_inv Hm. apply ret_Done in Hm as [_ <-].
  run_inv Hrun. run_inv Hm. apply ret_Done in Hm as [_ <-].
  run_inv Hrun.
  pose proof (RawMove_same_intr _ _ _ _ _ _ _ Hm0) as Hie1.
  pose proof (RawMove_same_intr _ _ _ _ _ _ _ Hm1) as Hie2.
  unfold same in Hie1, Hie2.
  apply RawMove_moves in Hm0 as (r1 & d1 & Hr1 & Hd1 & Hmv1).
  apply RawMove_moves in Hm1 as (r2 & d2 & Hr2 & Hd2 & Hmv2).
  injection Hr1 as <-. injection Hr2 as <-.
  apply SetRawDataWindowState_Done in Hm as (_ & Hlt1 & ->).
  apply SetRawDataWindowState_Done in Hrun as (_ & Hlt0 & ->).
  simpl in *. rewrite length_insert in Hlt0.
  split; [|split; [|split; [|split]]].
  - exists (d1 ++ d2). split.
    + rewrite Hd2, Hd1, app_assoc. reflexivity.
    + rewrite moves_issued_app, Hmv1, Hmv2. reflexivity.
  - unfold GetRawDataWindowState. simpl. apply at_index_run; [unfold RAW_DATA_TX_ID; lia|].
    unfold RAW_DATA_TX_ID, RAW_DATA_RX_ID in *. simpl in *.
    rewrite list_lookup_insert_ne by lia.
    apply list_lookup_insert_eq. exact Hlt1.
  - unfold GetRawDataWindowState. simpl. apply at_index_run; [unfold RAW_DATA_RX_ID; lia|].
    apply list_lookup_insert_eq. rewrite length_insert. exact Hlt0.
  - exact Hflags.
  - congruence.
Qed.

Lemma RawInit_effect_witness :
  exists w',
    @RawInit mrf24wg (mkWorld [0; 4; 0; 9; 1; 1024] [] true [1; 1] 0x04)
      = Done tt w' /\
    RawWindowState w' = [0; 0] /\
    moves_issued (trace w') =
      [EvWrite MRF24_REG_RAW1_CTRL0 0x3000; EvWrite MRF24_REG_RAW4_CTRL0 0xb000].
Proof.
  destruct (@RawInit mrf24wg (mkWorld [0; 4; 0; 9; 1; 1024] [] true [1; 1] 0x04))
    as [[] w'|f] eqn:Hrun; [|vm_compute in Hrun; discriminate].
  destruct (@RawInit_effect mrf24wg _ _ _ Hrun) as ((d & Hd & Hmoves) & _).
  exists w'. split; [reflexivity|]. split.
  - vm_compute in Hrun. injection Hrun as <-. reflexivity.
  - rewrite Hd. exact Hmoves.
Defined.




Lemma busy_events_no_warning regId st ps :
  existsb is_transfer_warning (busy_events regId st ps) = false.
Proof. induction ps as [|p ps IH]; simpl; auto. Qed.

Lemma RawSetIndex_no_warning rawId idx w a w' :
  RawSetIndex rawId idx w = Done a w' ->
  exists d, trace w' = trace w ++ d /\ existsb is_transfer_warning d = false.
Proof.
  unfold RawSetIndex. intros Hrun.
  run_inv Hrun. apply at_index_Done in Hm as (_ & _ & ->).
  run_inv Hrun. apply emit_Done in Hm. subst.
  run_inv Hrun. apply at_index_Done in Hm as (_ & _ & ->).
  run_inv Hrun. unfold mrf_timer_read in Hm. exec_in Hm.
  destruct (inputs w) as [|t0 inp]; [discriminate|].
  injection Hm as <- <-.
  run_inv Hrun. injection Hm as _ <-.
  apply RawSetIndex_loop_Done in Hrun as (_ & ps & _ & Hexit).
  destruct Hexit as [(s & _ & _ & ->)|(s & dt & _ & _ & _ & ->)]; simpl;
    eexists; (split; [rewrite <- !app_assoc; simpl; reflexivity|]);
    simpl; rewrite existsb_app, busy_events_no_warning; reflexivity.
Qed.

(** X11.  In an indexed write or read the transfer's out-of-bounds
    diagnostic is logged exactly when the index-set of the same call timed
    out; what the flag was before the call does not matter.  Either way
    the transfer is the last thing the call does, on the window's data
    register and with the full length, and the flag the call leaves tells
    whether its index-set timed out. *)
Theorem indexed_transfer_warns_iff_index_set_timed_out
    rawId startIndex length (p_src : list Z) w :
  (forall a w',
     RawWrite rawId startIndex length p_src w = Done a w' ->
     exists regId d,
       g_RawDataReg !! Z.to_nat rawId = Some regId /\
       trace w' = trace w ++ d ++ [EvWriteArray regId p_src length] /\
       existsb is_transfer_warning d = bad_index_logged d /\
       isIndexOutOfBounds rawId w' = Done (bad_index_logged d) w') /\
  (forall data w',
     RawRead rawId startIndex length w = Done data w' ->
     exists regId d,
       g_RawDataReg !! Z.to_nat rawId = Some regId /\
       trace w' = trace w ++ d ++ [EvReadArray regId length data] /\
       existsb is_transfer_warning d = bad_index_logged d /\
       isIndexOutOfBounds rawId w' = Done (bad_index_logged d) w').
Proof.
  split.
  - intros a w' Hrun. unfold RawWrite in Hrun. run_inv Hrun.
    destruct (RawSetIndex_no_warning _ _ _ _ _ Hm) as (d0 & Hd0 & Hquiet).
    apply RawSetIndex_Done in Hm as (Hw & d & Hd & Hg & _ & _).
    assert (d0 = d) by (rewrite Hd0 in Hd; apply app_inv_head in Hd; exact Hd).
    subst d0.
    apply RawSetByte_Done in Hrun as (_ & regId & Hreg & ->). simpl.
    assert (Hbit : Z.testbit (g_RawIndexPastEnd w0) rawId = bad_index_logged d).
    { rewrite Hg, index_set_flag by assumption. rewrite Z.eqb_refl. reflexivity. }
    rewrite Hbit.
    exists regId, (d ++ transfer_warning "RawSetByte" (bad_index_logged d)).
    split; [exact Hreg|]. split; [rewrite Hd, <- !app_assoc; reflexivity|]. split.
    + rewrite existsb_app, Hquiet. unfold bad_index_logged.
      rewrite (existsb_app is_bad_index), transfer_warning_quiet by reflexivity.
      destruct (existsb is_bad_index d); reflexivity.
    + apply isIndexOutOfBounds_Done. split; [exact Hw|]. split; [|reflexivity].
      unfold bad_index_logged at 1. rewrite existsb_app.
      rewrite transfer_warning_quiet by reflexivity. rewrite orb_false_r.
      simpl. symmetry. exact Hbit.
  - intros data w' Hrun. unfold RawRead in Hrun. run_inv Hrun.
    destruct (RawSetIndex_no_warning _ _ _ _ _ Hm) as (d0 & Hd0 & Hquiet).
    apply RawSetIndex_Done in Hm as (Hw & d & Hd & Hg & _ & _).
    assert (d0 = d) by (rewrite Hd0 in Hd; apply app_inv_head in Hd; exact Hd).
    subst d0.
    apply RawGetByte_Done in Hrun as (_ & regId & Hreg & _ & _ & ->). simpl.
    assert (Hbit : Z.testbit (g_RawIndexPastEnd w0) rawId = bad_index_logged d).
    { rewrite Hg, index_set_flag by assumption. rewrite Z.eqb_refl. reflexivity. }
    rewrite Hbit.
    exists regId, (d ++ transfer_warning "RawGetByte" (bad_index_logged d)).
    split; [exact Hreg|]. split; [rewrite Hd, <- !app_assoc; reflexivity|]. split.
    + rewrite existsb_app, Hquiet. unfold bad_index_logged.
      rewrite (existsb_app is_bad_index), transfer_warning_quiet by reflexivity.
      destruct (existsb is_bad_index d); reflexivity.
    + apply isIndexOutOfBounds_Done. split; [exact Hw|]. split; [|reflexivity].
      unfold bad_index_logged at 1. rewrite existsb_app.
      rewrite transfer_warning_quiet by reflexivity. rewrite orb_false_r.
      simpl. symmetry. exact Hbit.
Qed.

Lemma indexed_transfer_warns_iff_index_set_timed_out_witness :
  exists data w',
    RawRead RAW_DATA_RX_ID 0 2 (mkWorld [11; 0; 65; 66] [] true [1; 0] 0x01)
      = Done data w' /\
    data = [65; 66] /\
    isIndexOutOfBounds RAW_DATA_RX_ID w' = Done false w'.
Proof.
  destruct (RawRead RAW_DATA_RX_ID 0 2 (mkWorld [11; 0; 65; 66] [] true [1; 0] 0x01))
    as [data w'|f] eqn:Hrun; [|vm_compute in Hrun; discriminate].
  destruct (indexed_transfer_warns_iff_index_set_timed_out
              RAW_DATA_RX_ID 0 2 [] (mkWorld [11; 0; 65; 66] [] true [1; 0] 0x01))
    as [_ Hread].
  destruct (Hread _ _ Hrun) as (regId & d & _ & Htrace & _ & Hflag).
  exists data, w'. split; [reflexivity|].
  vm_compute in Hrun. injection Hrun as <- <-. split; [reflexivity|].
  simpl in Htrace.
  change [EvWrite MRF24_REG_RAW0_INDEX 0; EvTimerRead 11;
          EvRead MRF24_REG_RAW0_STATUS 0;
          EvReadArray MRF24_REG_RAW0_DATA 2 [65; 66]]
    with ([EvWrite MRF24_REG_RAW0_INDEX 0; EvTimerRead 11;
           EvRead MRF24_REG_RAW0_STATUS 0] ++
          [EvReadArray MRF24_REG_RAW0_DATA 2 [65; 66]]) in Htrace.
  apply app_inj_tail in Htrace as [<- _]. exact Hflag.
Defined.

(** *** The interrupt switch across operations *)

Lemma same_intr_take_inputs n : keeps (same intr_enabled) (take_inputs n).
Proof.
  intros w a w'. unfold take_inputs.
  destruct (n <=? length (inputs w))%nat; [|discriminate].
  intros [= _ <-]. reflexivity.
Qed.

Lemma same_intr_SetRawDataWindowState rawId st :
  keeps (same intr_enabled) (SetRawDataWindowState rawId st).
Proof.
  intros w a w' Hrun.
  apply SetRawDataWindowState_Done in Hrun as (_ & _ & ->). reflexivity.
Qed.

Lemma same_intr_GetRawDataWindowState rawId :
  keeps (same intr_enabled) (GetRawDataWindowState rawId).
Proof.
  intros w a w' Hrun. unfold GetRawDataWindowState in Hrun.
  apply at_index_Done in Hrun as (_ & _ & ->). reflexivity.
Qed.

Lemma same_intr_set_flags g : keeps (same intr_enabled) (set_g_RawIndexPastEnd g).
Proof. intros w a w' [= _ <-]. reflexivity. Qed.

Lemma same_intr_RawSetIndex rawId idx :
  keeps (same intr_enabled) (RawSetIndex rawId idx).
Proof.
  intros w a w' Hrun.
  apply RawSetIndex_Done in Hrun as (_ & d & _ & _ & Hie & _). exact Hie.
Qed.

Ltac same_intr :=
  repeat keeps_step;
  auto using same_intr_emit, same_intr_next_input, same_intr_take_inputs,
             same_intr_SetRawDataWindowState, same_intr_GetRawDataWindowState,
             same_intr_set_flags, same_intr_RawSetIndex, RawMove_same_intr.

Lemma run_op_same_intr `{wf_universal_driver} o : keeps (same intr_enabled) (run_op o).
Proof.
  destruct o; simpl;
    unfold RawInit, ScratchMount, ScratchUnmount, AllocateMgmtTxBuffer,
           DeallocateMgmtRxBuffer, RawSetByte, RawGetByte, SendRAWManagementFrame,
           RawMountRxBuffer, RawRead, RawWrite, AllocateDataTxBuffer,
           DeallocateDataRxBuffer, RawSetByte, RawGetByte,
           ClearIndexOutOfBoundsFlag, isIndexOutOfBounds,
           mrf_read, mrf_read_array, mrf_write_array, printf;
    cbv zeta; same_intr.
Qed.

(** X12.  No operation of the module leaves the external interrupt in
    another state than it found it: after any sequence of operations the
    interrupt-enable state is the one the sequence started in. *)
Theorem operations_keep_interrupt_state `{wf_universal_driver} ops w log w' :
  run_ops ops w = Done log w' -> intr_enabled w' = intr_enabled w.
Proof.
  revert w log. induction ops as [|o ops IH]; intros w log Hrun; simpl in Hrun.
  - apply ret_Done in Hrun as [_ <-]. reflexivity.
  - run_inv Hrun. injection Hm as <- <-.
    run_inv Hrun. run_inv Hrun. injection Hm0 as <- <-.
    run_inv Hrun. apply ret_Done in Hrun as [_ <-].
    apply IH in Hm0. apply run_op_same_intr in Hm. unfold same in Hm. congruence.
Qed.

Lemma operations_keep_interrupt_state_witness :
  exists log w',
    @run_ops mrf24wg
       [OpRawInit; OpAllocateDataTxBuffer 100; OpRawWrite RAW_DATA_TX_ID 0 2 [1; 2];
        OpDeallocateDataRxBuffer]
       (boot [0; 4; 0; 9; 1; 1024; 500; 2; 4; 100; 7; 0; 3; 2; 0] false)
      = Done log w' /\
    intr_enabled w' = false.
Proof.
  destruct (@run_ops mrf24wg
              [OpRawInit; OpAllocateDataTxBuffer 100;
               OpRawWrite RAW_DATA_TX_ID 0 2 [1; 2]; OpDeallocateDataRxBuffer]
              (boot [0; 4; 0; 9; 1; 1024; 500; 2; 4; 100; 7; 0; 3; 2; 0] false))
    as [log w'|f] eqn:Hrun; [|vm_compute in Hrun; discriminate].
  exists log, w'. split; [reflexivity|].
  exact (@operations_keep_interrupt_state mrf24wg _ _ _ _ Hrun).
Defined.

(** *** Mount states across operations *)

Lemma same_state_take_inputs n : keeps (same RawWindowState) (take_inputs n).
Proof.
  intros w a w'. unfold take_inputs.
  destruct (n <=? length (inputs w))%nat; [|discriminate].
  intros [= _ <-]. reflexivity.
Qed.

Lemma same_state_GetRawDataWindowState rawId :
  keeps (same RawWindowState) (GetRawDataWindowState rawId).
Proof.
  intros w a w' Hrun. unfold GetRawDataWindowState in Hrun.
  apply at_index_Done in Hrun as (_ & _ & ->). reflexivity.
Qed.

Lemma same_state_set_flags g : keeps (same RawWindowState) (set_g_RawIndexPastEnd g).
Proof. intros w a w' [= _ <-]. reflexivity. Qed.

Lemma same_state_RawSetIndex rawId idx :
  keeps (same RawWindowState) (RawSetIndex rawId idx).
Proof.
  intros w a w' Hrun.
  apply RawSetIndex_Done in Hrun as (_ & d & _ & _ & _ & Hst). exact Hst.
Qed.

Ltac same_state :=
  repeat keeps_step;
  auto using same_state_emit, same_state_next_input, same_state_take_inputs,
             same_state_set_intr, same_state_GetRawDataWindowState,
             same_state_set_flags, same_state_RawSetIndex, RawMove_same_state.

Lemma same_cells_of_same_state {A} (m : M A) :
  keeps (same RawWindowState) m -> keeps (same mount_cells) m.
Proof.
  intros Hm w a w' Hrun. unfold same, mount_cells.
  rewrite (Hm _ _ _ Hrun). reflexivity.
Qed.

Lemma same_cells_SetRawDataWindowState rawId st :
  keeps (same mount_cells) (SetRawDataWindowState rawId st).
Proof.
  intros w a w' Hrun.
  apply SetRawDataWindowState_Done in Hrun as (_ & _ & ->).
  unfold same, mount_cells. simpl. apply length_insert.
Qed.

Ltac same_cells :=
  repeat keeps_step;
  first [apply same_cells_SetRawDataWindowState
        |apply same_cells_of_same_state; same_state].

(** X13.  The mount states change only through [RawInit],
    [AllocateDataTxBuffer], [DeallocateDataRxBuffer],
    [SetRawDataWindowState] and a [RawMountRxBuffer] on the data Rx window:
    any other operation, a receive mount on another window included,
    leaves [RawWindowState] as it was; and no operation at all changes the
    number of its cells. *)
Theorem mount_state_frame `{wf_universal_driver} o w v w' :
  run_op o w = Done v w' ->
  (touches_mount_state o = false -> RawWindowState w' = RawWindowState w) /\
  mount_cells w' = mount_cells w.
Proof.
  intros Hrun. split.
  - intros Hno. revert w v w' Hrun.
    change (keeps (same RawWindowState) (run_op o)).
    destruct o; try discriminate Hno; simpl;
      unfold ScratchMount, ScratchUnmount, AllocateMgmtTxBuffer,
             DeallocateMgmtRxBuffer, RawSetByte, RawGetByte,
             SendRAWManagementFrame, RawMountRxBuffer, RawRead, RawWrite,
             RawSetByte, RawGetByte, ClearIndexOutOfBoundsFlag,
             isIndexOutOfBounds, mrf_read, mrf_read_array, mrf_write_array, printf;
      cbv zeta; try (simpl in Hno; rewrite Hno); same_state.
  - revert w v w' Hrun.
    change (keeps (same mount_cells) (run_op o)).
    destruct o; simpl;
      unfold RawInit, ScratchMount, ScratchUnmount, AllocateMgmtTxBuffer,
             DeallocateMgmtRxBuffer, RawSetByte, RawGetByte,
             SendRAWManagementFrame, RawMountRxBuffer, RawRead, RawWrite,
             AllocateDataTxBuffer, DeallocateDataRxBuffer,
             RawSetByte, RawGetByte, ClearIndexOutOfBoundsFlag,
             isIndexOutOfBounds, mrf_read, mrf_read_array, mrf_write_array, printf;
      cbv zeta; same_cells.
Qed.

Lemma mount_state_frame_witness :
  exists n w',
    @RawMountRxBuffer mrf24wg RAW_MGMT_RX_ID (mkWorld [5; 1; 64] [] true [0; 1] 0)
      = Done n w' /\
    RawWindowState w' = [0; 1].
Proof.
  destruct (@RawMountRxBuffer mrf24wg RAW_MGMT_RX_ID
              (mkWorld [5; 1; 64] [] true [0; 1] 0))
    as [n w'|f] eqn:Hrun; [|vm_compute in Hrun; discriminate].
  exists n, w'. split; [reflexivity|].
  refine (proj1 (@mount_state_frame mrf24wg (OpRawMountRxBuffer RAW_MGMT_RX_ID)
                   (mkWorld [5; 1; 64] [] true [0; 1] 0) (VNum n) w' _) eq_refl).
  simpl. unfold bind. rewrite Hrun. reflexivity.
Defined.


(** X14.  The mount-state accessors round-trip: after
    [SetRawDataWindowState rawId state] on one of the two data windows,
    [GetRawDataWindowState rawId] returns [state] narrowed to eight bits,
    and the state of the other data window reads as before. *)
Theorem mount_state_round_trip rawId other state v w :
  two_cells w ->
  0 <= rawId < 2 -> other <> rawId ->
  GetRawDataWindowState other w = Done v w ->
  exists w',
    SetRawDataWindowState rawId state w = Done tt w' /\
    GetRawDataWindowState rawId w' = Done (state mod 2 ^ 8) w' /\
    GetRawDataWindowState other w' = Done v w'.
Proof.
  intros Hcells Hid Hne Hget.
  assert (Hlt : (Z.to_nat rawId < length (RawWindowState w))%nat)
    by (rewrite Hcells; lia).
  eexists. split; [|split].
  - apply SetRawDataWindowState_Done. split; [lia|]. split; [exact Hlt | reflexivity].
  - apply GetRawDataWindowState_after_set; [lia | exact Hlt].
  - unfold GetRawDataWindowState in *. simpl.
    apply at_index_Done in Hget as (Hlo & Hl & _).
    apply at_index_run; [exact Hlo|].
    rewrite list_lookup_insert_ne by lia. exact Hl.
Qed.

Lemma mount_state_round_trip_witness :
  exists w',
    SetRawDataWindowState RAW_DATA_TX_ID 0x101 (boot [] true) = Done tt w' /\
    GetRawDataWindowState RAW_DATA_TX_ID w' = Done 1 w' /\
    GetRawDataWindowState RAW_DATA_RX_ID w' = Done 0 w'.
Proof.
  apply (mount_state_round_trip RAW_DATA_TX_ID RAW_DATA_RX_ID 0x101 0 (boot [] true)).
  - reflexivity.
  - unfold RAW_DATA_TX_ID. lia.
  - discriminate.
  - reflexivity.
Defined.

(** *** The flag byte *)

Lemma low6_of_bits x :
  (forall i, 6 <= i -> Z.testbit x i = false) -> 0 <= x < 64.
Proof.
  intros Hbits.
  assert (Hx : x = x mod 2 ^ 6).
  { apply Z.bits_inj'. intros i Hi.
    destruct (Z.ltb_spec i 6).
    - rewrite Z.mod_pow2_bits_low by lia. reflexivity.
    - rewrite Z.mod_pow2_bits_high by lia. apply Hbits. lia. }
  rewrite Hx. apply Z.mod_pos_bound. lia.
Qed.

Lemma bits_of_low6 x i : 0 <= x < 64 -> 6 <= i -> Z.testbit x i = false.
Proof.
  intros Hx Hi. rewrite <- (Z.mod_small x (2 ^ 6)) by lia.
  apply Z.mod_pow2_bits_high. lia.
Qed.

Lemma flag_byte_step g k :
  0 <= g < 64 -> valid_window k ->
  0 <= u8 (Z.lor g (2 ^ k)) < 64 /\
  0 <= u8 (Z.land g (Z.lnot (2 ^ k))) < 64.
Proof.
  intros Hg [Hlo Hhi]. unfold NUM_RAW_WINDOWS in Hhi.
  split; apply low6_of_bits; intros i Hi.
  - destruct (Z.ltb_spec i 8).
    + rewrite testbit_set_flag by lia. rewrite (bits_of_low6 g i) by assumption.
      destruct (Z.eqb_spec i k); [lia | reflexivity].
    + unfold u8. apply Z.mod_pow2_bits_high. lia.
  - destruct (Z.ltb_spec i 8).
    + rewrite testbit_clear_flag by lia. rewrite (bits_of_low6 g i) by assumption.
      apply andb_false_r.
    + unfold u8. apply Z.mod_pow2_bits_high. lia.
Qed.

Lemma run_op_flag_byte `{wf_universal_driver} o w v w' :
  run_op o w = Done v w' ->
  g_RawIndexPastEnd w' = g_RawIndexPastEnd w \/
  exists k, valid_window k /\
    (g_RawIndexPastEnd w' = u8 (Z.lor (g_RawIndexPastEnd w) (2 ^ k)) \/
     g_RawIndexPastEnd w' = u8 (Z.land (g_RawIndexPastEnd w) (Z.lnot (2 ^ k)))).
Proof.
  assert (Hset : forall rawId idx w0 a w1,
            RawSetIndex rawId idx w0 = Done a w1 ->
            exists k, valid_window k /\
              (g_RawIndexPastEnd w1 = u8 (Z.lor (g_RawIndexPastEnd w0) (2 ^ k)) \/
               g_RawIndexPastEnd w1 =
                 u8 (Z.land (g_RawIndexPastEnd w0) (Z.lnot (2 ^ k))))).
  { intros rawId idx w0 a w1 Hrun.
    apply RawSetIndex_Done in Hrun as (Hw & d & _ & Hg & _ & _).
    exists rawId. split; [exact Hw|]. rewrite Hg.
    destruct (bad_index_logged d); auto. }
  intros Hrun.
  destruct o; simpl in Hrun; run_inv Hrun; apply ret_Done in Hrun as [_ <-].
  - left. exact (same_flags_RawInit _ _ _ Hm).
  - left. exact (same_flags_ScratchMount _ _ _ _ Hm).
  - left. exact (same_flags_ScratchUnmount _ _ _ _ Hm).
  - apply AllocateMgmtTxBuffer_flags in Hm. destruct a; [|left; exact Hm].
    right. exists RAW_MGMT_TX_ID.
    split; [unfold valid_window, RAW_MGMT_TX_ID, NUM_RAW_WINDOWS; lia | auto].
  - left. exact (same_flags_DeallocateMgmtRxBuffer _ _ _ Hm).
  - left. exact (same_flags_RawSetByte _ _ _ _ _ _ Hm).
  - left. exact (same_flags_RawGetByte _ _ _ _ _ Hm).
  - left. exact (same_flags_SendRAWManagementFrame _ _ _ _ Hm).
  - left. exact (same_flags_RawMountRxBuffer _ _ _ _ Hm).
  - right. unfold RawRead in Hm. run_inv Hm.
    apply same_flags_RawGetByte in Hm. unfold same in Hm. rewrite Hm. eauto.
  - right. unfold RawWrite in Hm. run_inv Hm.
    apply same_flags_RawSetByte in Hm. unfold same in Hm. rewrite Hm. eauto.
  - right. eauto.
  - left. exact (same_flags_AllocateDataTxBuffer _ _ _ _ Hm).
  - left. exact (same_flags_DeallocateDataRxBuffer _ _ _ Hm).
  - left. exact (RawMove_same_flags _ _ _ _ _ _ _ Hm).
  - left. exact (same_flags_SetRawDataWindowState _ _ _ _ _ Hm).
  - left. exact (same_flags_GetRawDataWindowState _ _ _ _ Hm).
Qed.

(** X15.  Only the six window bits of the flag byte are ever used: when
    [g_RawIndexPastEnd] is below 64, as it is at start-up, it is below 64
    after any sequence of module operations. *)
Theorem flag_byte_stays_in_window_bits `{wf_universal_driver} ops w log w' :
  0 <= g_RawIndexPastEnd w < 64 ->
  run_ops ops w = Done log w' ->
  0 <= g_RawIndexPastEnd w' < 64.
Proof.
  revert w log. induction ops as [|o ops IH]; intros w log Hg Hrun; simpl in Hrun.
  - apply ret_Done in Hrun as [_ <-]. exact Hg.
  - run_inv Hrun. injection Hm as <- <-.
    run_inv Hrun. run_inv Hrun. injection Hm0 as <- <-.
    run_inv Hrun. apply ret_Done in Hrun as [_ <-].
    apply (IH _ _) in Hm0; [exact Hm0|].
    destruct (run_op_flag_byte _ _ _ _ Hm) as [->|(k & Hk & [-> | ->])];
      [exact Hg | apply flag_byte_step | apply flag_byte_step]; assumption.
Qed.

Lemma flag_byte_stays_in_window_bits_witness :
  exists log w',
    @run_ops mrf24wg
       [OpRawSetIndex 5 9000; OpRawSetIndex RAW_DATA_RX_ID 9000;
        OpRawSetIndex RAW_SCRATCH_ID 0]
       (boot [1; 1; 6; 2; 1; 7; 3; 0] true) = Done log w' /\
    g_RawIndexPastEnd w' = 0x21 /\
    0 <= g_RawIndexPastEnd w' < 64.
Proof.
  destruct (@run_ops mrf24wg
              [OpRawSetIndex 5 9000; OpRawSetIndex RAW_DATA_RX_ID 9000;
               OpRawSetIndex RAW_SCRATCH_ID 0]
              (boot [1; 1; 6; 2; 1; 7; 3; 0] true))
    as [log w'|f] eqn:Hrun; [|vm_compute in Hrun; discriminate].
  exists log, w'. split; [reflexivity|]. split.
  - vm_compute in Hrun. injection Hrun as _ <-. reflexivity.
  - refine (@flag_byte_stays_in_window_bits mrf24wg _ _ _ _ _ Hrun).
    simpl. lia.
Defined.

(** *** Window accesses and moves *)

Lemma index_reg_lookup n r : g_RawIndexReg !! n = Some r -> is_ctrl0 r = false.
Proof.
  do 6 (destruct n as [|n]; [intros [= <-]; reflexivity|]). discriminate.
Qed.

Lemma busy_events_moves regId st ps : moves_issued (busy_events regId st ps) = [].
Proof. induction ps as [|p ps IH]; simpl; auto. Qed.

Lemma transfer_warning_moves func oob : moves_issued (transfer_warning func oob) = [].
Proof. destruct oob; reflexivity. Qed.

Lemma RawSetIndex_moves rawId idx w a w' :
  RawSetIndex rawId idx w = Done a w' ->
  exists d, trace w' = trace w ++ d /\ moves_issued d = [].
Proof.
  unfold RawSetIndex. intros Hrun.
  run_inv Hrun. apply at_index_Done in Hm as (_ & Hireg & ->).
  apply index_reg_lookup in Hireg.
  run_inv Hrun. apply emit_Done in Hm. subst.
  run_inv Hrun. apply at_index_Done in Hm as (_ & _ & ->).
  run_inv Hrun. unfold mrf_timer_read in Hm. exec_in Hm.
  destruct (inputs w) as [|t0 inp]; [discriminate|].
  injection Hm as <- <-.
  run_inv Hrun. injection Hm as _ <-.
  apply RawSetIndex_loop_Done in Hrun as (_ & ps & _ & Hexit).
  destruct Hexit as [(s & _ & _ & ->)|(s & dt & _ & _ & _ & ->)]; simpl;
    eexists; (split; [rewrite <- !app_assoc; simpl; reflexivity|]);
    repeat (rewrite moves_issued_cons || rewrite moves_issued_app); simpl;
    rewrite Hireg, busy_events_moves; reflexivity.
Qed.

(** X16.  Positioning the index of a window and streaming bytes through it
    never starts a move: the trace of a completed [RawSetIndex],
    [RawSetByte], [RawGetByte], [RawRead] or [RawWrite] holds no write to a
    CTRL0 register. *)
Theorem window_access_starts_no_move `{wf_universal_driver} o w v w' :
  is_window_access o = true ->
  run_op o w = Done v w' ->
  exists d, trace w' = trace w ++ d /\ moves_issued d = [].
Proof.
  intros Hacc Hrun.
  destruct o; try discriminate Hacc; simpl in Hrun; run_inv Hrun;
    apply ret_Done in Hrun as [_ <-].
  - apply RawSetByte_Done in Hm as (_ & regId & _ & ->). simpl.
    eexists. split; [reflexivity|].
    rewrite moves_issued_app, transfer_warning_moves. reflexivity.
  - apply RawGetByte_Done in Hm as (_ & regId & _ & _ & _ & ->). simpl.
    eexists. split; [reflexivity|].
    rewrite moves_issued_app, transfer_warning_moves. reflexivity.
  - unfold RawRead in Hm. run_inv Hm.
    apply RawSetIndex_moves in Hm0 as (d & Hd & Hmoves).
    apply RawGetByte_Done in Hm as (_ & regId & _ & _ & _ & ->). simpl.
    eexists. split; [rewrite Hd, <- app_assoc; reflexivity|].
    rewrite !moves_issued_app, Hmoves, transfer_warning_moves. reflexivity.
  - unfold RawWrite in Hm. run_inv Hm.
    apply RawSetIndex_moves in Hm0 as (d & Hd & Hmoves).
    apply RawSetByte_Done in Hm as (_ & regId & _ & ->). simpl.
    eexists. split; [rewrite Hd, <- app_assoc; reflexivity|].
    rewrite !moves_issued_app, Hmoves, transfer_warning_moves. reflexivity.
  - exact (RawSetIndex_moves _ _ _ _ _ Hm).
Qed.

Lemma window_access_starts_no_move_witness :
  exists w',
    RawWrite RAW_MGMT_TX_ID 4 3 [7; 8; 9] (boot [0; 1; 2; 0] true) = Done tt w' /\
    moves_issued (trace w') = [].
Proof.
  destruct (RawWrite RAW_MGMT_TX_ID 4 3 [7; 8; 9] (boot [0; 1; 2; 0] true))
    as [[] w'|f] eqn:Hrun; [|vm_compute in Hrun; discriminate].
  exists w'. split; [reflexivity|].
  destruct (@window_access_starts_no_move mrf24wg
              (OpRawWrite RAW_MGMT_TX_ID 4 3 [7; 8; 9]) (boot [0; 1; 2; 0] true)
              VUnit w' eq_refl) as (d & Hd & Hmoves).
  - simpl. unfold bind. rewrite Hrun. reflexivity.
  - rewrite Hd. exact Hmoves.
Defined.

Lemma busy_events_writes regId st ps : reg_writes (busy_events regId st ps) = [].
Proof. induction ps as [|p ps IH]; simpl; auto. Qed.

(** X17.  A completed [RawSetIndex] has written to the chip exactly once:
    the requested index, to the index register of its window.  All else it
    did was to read the timer and poll the window's status register, and
    it leaves the flag of its window set exactly when it logged its
    diagnostic. *)
Theorem RawSetIndex_writes_index_once rawId index w a w' :
  RawSetIndex rawId index w = Done a w' ->
  exists regId d,
    g_RawIndexReg !! Z.to_nat rawId = Some regId /\
    trace w' = trace w ++ d /\
    reg_writes d = [EvWrite regId index] /\
    isIndexOutOfBounds rawId w' = Done (bad_index_logged d) w'.
Proof.
  intros Hrun.
  assert (Hflag : exists d, trace w' = trace w ++ d /\
            isIndexOutOfBounds rawId w' = Done (bad_index_logged d) w').
  { pose proof Hrun as Hrun'.
    apply RawSetIndex_Done in Hrun' as (Hw & d & Hd & Hg & _ & _).
    exists d. split; [exact Hd|].
    apply isIndexOutOfBounds_Done. split; [exact Hw|]. split; [|reflexivity].
    rewrite Hg, index_set_flag by assumption. rewrite Z.eqb_refl. reflexivity. }
  destruct Hflag as (d & Hd & Hflag).
  unfold RawSetIndex in Hrun.
  run_inv Hrun. apply at_index_Done in Hm as (_ & Hireg & ->).
  exists a0, d. split; [exact Hireg|]. split; [exact Hd|]. split; [|exact Hflag].
  run_inv Hrun. apply emit_Done in Hm. subst.
  run_inv Hrun. apply at_index_Done in Hm as (_ & _ & ->).
  run_inv Hrun. unfold mrf_timer_read in Hm. exec_in Hm.
  destruct (inputs w) as [|t0 inp]; [discriminate|].
  injection Hm as <- <-.
  run_inv Hrun. injection Hm as _ <-.
  apply RawSetIndex_loop_Done in Hrun as (_ & ps & _ & Hexit).
  assert (Hshape : exists tail,
            d = EvWrite a0 index :: EvTimerRead t0 ::
                busy_events a2 (u32 t0) ps ++ tail /\ reg_writes tail = []).
  { destruct Hexit as [(s & _ & _ & Hw')|(s & dt & _ & _ & _ & Hw')];
      rewrite Hw' in Hd; simpl in Hd; rewrite <- !app_assoc in Hd; simpl in Hd;
      apply app_inv_head in Hd; subst d; eexists; split; reflexivity. }
  destruct Hshape as (tail & -> & Htail).
  unfold reg_writes in *. simpl.
  rewrite List.filter_app. fold (reg_writes (busy_events a2 (u32 t0) ps)).
  rewrite busy_events_writes, Htail. reflexivity.
Qed.

Lemma RawSetIndex_writes_index_once_witness :
  exists w',
    RawSetIndex RAW_DATA_RX_ID 42 (boot [0; 1; 1; 1; 2; 0] true) = Done tt w' /\
    reg_writes (trace w') = [EvWrite MRF24_REG_RAW0_INDEX 42].
Proof.
  destruct (RawSetIndex RAW_DATA_RX_ID 42 (boot [0; 1; 1; 1; 2; 0] true))
    as [[] w'|f] eqn:Hrun; [|vm_compute in Hrun; discriminate].
  destruct (RawSetIndex_writes_index_once _ _ _ _ _ Hrun)
    as (regId & d & Hreg & Hd & Hwrites & _).
  injection Hreg as <-.
  exists w'. split; [reflexivity|]. rewrite Hd. exact Hwrites.
Defined.

(** X18.  When the masked FIFO count covers the request, a completed
    allocation has started exactly one move, the allocation on its Tx
    window with the requested size, whether it then returned true or (the
    move having returned zero) false: a zero-length allocation is not
    followed by any release. *)
Theorem sufficient_allocation_starts_its_move `{wf_universal_driver}
    bytesNeeded w v rest :
  inputs w = v :: rest ->
  bytesNeeded <= u16 (Z.land v FIFO_BCNT_MASK) ->
  (forall b w',
     AllocateMgmtTxBuffer bytesNeeded w = Done b w' ->
     exists d,
       trace w' = trace w ++ d /\
       moves_issued d =
         [EvWrite MRF24_REG_RAW3_CTRL0 (RawMove_ctrlVal RAW_MGMT_POOL true bytesNeeded)]) /\
  (forall b w',
     AllocateDataTxBuffer bytesNeeded w = Done b w' ->
     exists d,
       trace w' = trace w ++ d /\
       moves_issued d =
         [EvWrite MRF24_REG_RAW1_CTRL0 (RawMove_ctrlVal RAW_DATA_POOL true bytesNeeded)]).
Proof.
  intros Hin Hle. split; intros b w' Hrun.
  - unfold AllocateMgmtTxBuffer in Hrun. cbv zeta in Hrun.
    run_inv Hrun. apply mrf_read_Done in Hm as (rest' & Hin' & ->).
    rewrite Hin in Hin'. injection Hin' as <- <-.
    destruct (Z.geb_spec (u16 (Z.land v FIFO_BCNT_MASK)) bytesNeeded); [|lia].
    run_inv Hrun.
    apply RawMove_moves in Hm as (regId & d & Hreg & Hd & Hmoves).
    injection Hreg as <-. simpl in Hd.
    assert (Htr : trace w' = trace w0).
    { destruct (a =? 0).
      - apply ret_Done in Hrun as [_ <-]. reflexivity.
      - run_inv Hrun. apply ret_Done in Hrun as [_ <-].
        apply ClearIndexOutOfBoundsFlag_Done in Hm as [_ ->]. reflexivity. }
    exists (EvRead MRF24_REG_WFIFO_BCNT1 v :: d). split.
    + rewrite Htr, Hd, <- app_assoc. reflexivity.
    + rewrite moves_issued_cons. exact Hmoves.
  - unfold AllocateDataTxBuffer in Hrun. cbv zeta in Hrun.
    run_inv Hrun. apply mrf_read_Done in Hm as (rest' & Hin' & ->).
    rewrite Hin in Hin'. injection Hin' as <- <-.
    destruct (Z.ltb_spec (u16 (Z.land v FIFO_BCNT_MASK)) bytesNeeded); [lia|].
    run_inv Hrun.
    apply RawMove_moves in Hm as (regId & d & Hreg & Hd & Hmoves).
    injection Hreg as <-. simpl in Hd.
    assert (Htr : exists d0, trace w' = trace w0 ++ d0 /\ moves_issued d0 = []).
    { destruct (a =? 0).
      - run_inv Hrun. apply ret_Done in Hrun as [_ <-].
        apply emit_Done in Hm. rewrite Hm. simpl. eexists. split; reflexivity.
      - run_inv Hrun. apply ret_Done in Hrun as [_ <-].
        apply SetRawDataWindowState_Done in Hm as (_ & _ & ->).
        exists []. simpl. rewrite app_nil_r. auto. }
    destruct Htr as (d0 & Htr & Hmoves0).
    exists (EvRead MRF24_REG_WFIFO_BCNT0 v :: d ++ d0). split.
    + rewrite Htr, Hd, <- !app_assoc. reflexivity.
    + rewrite moves_issued_cons, moves_issued_app, Hmoves, Hmoves0. reflexivity.
Qed.

Lemma sufficient_allocation_starts_its_move_witness :
  exists w',
    @AllocateMgmtTxBuffer mrf24wg 50 (boot [100; 7; 1; 0] true) = Done false w' /\
    moves_issued (trace w') = [EvWrite MRF24_REG_RAW3_CTRL0 0x9032].
Proof.
  destruct (@AllocateMgmtTxBuffer mrf24wg 50 (boot [100; 7; 1; 0] true))
    as [b w'|f] eqn:Hrun; [|vm_compute in Hrun; discriminate].
  destruct (@sufficient_allocation_starts_its_move mrf24wg 50
              (boot [100; 7; 1; 0] true) 100 [7; 1; 0] eq_refl)
    as [Hmgmt _]; [vm_compute; discriminate|].
  destruct (Hmgmt _ _ Hrun) as (d & Hd & Hmoves).
  assert (Hb : b = false) by (vm_compute in Hrun; injection Hrun as <- _; reflexivity).
  subst b. exists w'. split; [reflexivity|]. rewrite Hd. exact Hmoves.
Defined.
